(* ===== verification/_CoqProject ===== *)
-Q . S2P
Prelude.v
Cell.v
Frame.v
Table.v
Stats.v
Timestamps.v
DegreeDays.v
Resample.v
Clean.v
Merge.v
Daily.v
Pipeline.v
