(* ===== verification/Prelude.v ===== *)
(** * Verification of the HVAC data-preparation pipeline
    ([src/hv_model/hv_model_prep_data.py])

    The program is a batch script.  For every home (an identifier, RLID,
    that names a folder of thermostat logs) it reads a thermostat log, a
    load log and the regional weather log, cleans each one, brings the
    three onto an hourly time line, joins them on the time stamp, derives
    heating and cooling degree days for zone 0, aggregates to one row per
    day and appends the rows to one table, which it writes at the end.
    This library is a shallow embedding of that script: every function and
    every global of the script is a Rocq definition of the same name, the
    pandas and [statistics] calls the script makes are definitions that
    write out what the call does, and the theorems state what each
    function does on its branches, errors included.

    ** The files, in the order of the data flow

    - [Prelude] (this file).  Python exceptions as values: [pyexn] names
      the exception classes the script can meet, [res A] is "a value of
      [A] or a raised exception", with stdpp's monad notation
      [x ← m; k]; a Python function that may return [None] has result
      type [res (option A)]; [res_mapM] and [res_foldM] are the loops.
      Boolean-mask selection ([mask_filter], pandas' [df[mask]]), the
      tactics of the development ([case_res], [qc_lra], [by_compute]) and
      the hint databases [hvac] and [hvac_rw].
    - [Cell].  One cell of a data frame: a number, text or the missing
      value ([CNum], [CStr], [CNull]; pandas' NaN).  Subtraction of two
      series, Python's [max(x, 0)] and [pytemp]'s Celsius to Fahrenheit
      conversion per cell.
    - [Frame].  A data frame: the labels of its rows ([index]) and its
      named columns in order.  [wf_frame]: every column has one cell per
      row.  [get_col] raises [KeyError] as [df[c]] does, [set_col] is
      [df[c] = series], [select_rows] is [df[mask]], and so on for
      [filter], [rename], [dropna] and [del].
    - [Table].  A flat frame, as [read_csv] and [reset_index] return it:
      the time stamps are a column, which the frame may lack.
      [set_index] and [reset_index] of the script.
    - [Stats].  [statistics.mode] (Counter, most_common, the entries of
      the top count), the script's [try_mode], and the reducers pandas
      applies per bucket ([mean], [sum], [first]).
    - [Timestamps].  Seconds, buckets ([floor_to]) and grids
      ([date_range]); the run parameters [YEAR], [MONTH],
      [DAYS_IN_MONTH], [start_time], [end_time], [time_res]; the parser
      [to_datetime]; the window test [in_window]; the interface
      [TimeZone] with the instance [us_central].
    - [DegreeDays].  [calc_degree_days], statement by statement, and its
      one-piece specification [degree_days_spec].
    - [Resample].  What [df.resample] does: the stable sort by time stamp,
      the bucket labels, the forward-filling upsample, [fillna], the
      downsample by a Python reducer and by the mean; then
      [resample_tstat_15min], [resample_load_15min],
      [resample_weather_15min].
    - [Clean].  [clean_tstat_raw], [clean_load_raw], [clean_weather_raw],
      [convert_col_names], with the patterns and dictionaries of the
      script, the substring search that the patterns amount to and the
      substitution [remove_dot1].
    - [Merge].  [pd.concat(axis=1)], [merge_datasets],
      [DataFrame.append].
    - [Daily].  [resample_hvac_to_daily] statement by statement, and
      [daily_frame], the same daily frame written in one piece.
    - [Pipeline].  The interface [FileSystem] ([os.listdir],
      [pd.read_csv]), the paths, [import_tstat], [import_load],
      [import_weather], the loop body [process_home] and [main]; the
      loop body without its append is [daily_of].

    ** Interfaces

    Three things the script leaves to its environment are type classes,
    and the functions that depend on them take them as parameters:
    [TimeZone] (the offset of the local clock from UTC; [us_central y] is
    the rule of the zone the script names for the instants of year [y]),
    [FileSystem] (the directory listings and the frames the CSV files
    hold, or the exceptions reading them raises) and [ApplyPolicy] (what
    the column-wise [apply] of a resampler does with an exception of the
    reducer: [pandas_0_25] leaves the column out when the exception is a
    [ValueError], as [DataFrameGroupBy._aggregate_item_by_item] of that
    version does, [strict_apply] lets every exception through).

    ** What the theorems show

    - [Frame], [Table]: every operation keeps the frame well formed;
      lookups after updates; [reset_index] then [set_index] is the
      identity.
    - [Stats]: [mode] returns [x] exactly when [x] occurs strictly more
      often than every other value and raises [StatisticsError]
      otherwise; it does not depend on the order; [try_mode] never
      raises, returns one of the values, and reaches its last branch only
      on empty data.
    - [Timestamps]: a bucket holds its time stamps and no two buckets
      share one; grids are sorted and duplicate free; the window of the
      script ends at midnight at the start of the last day of the month.
    - [DegreeDays]: [calc_degree_days] is [degree_days_spec] on every
      well-formed frame; the degree days are never negative, are
      [max(amb - csp, 0)] and [max(hsp - amb, 0)] row by row, and the
      other columns, the rows and the index are unchanged.
    - [Resample]: the sort is a stable permutation of the rows; every row
      has a bucket; the fills leave no gap in a column that has a value;
      the row of a grid point of the upsample is the last row of the log
      at or before it; the thermostat resampler returns an hourly grid
      and puts no value into a column that was not in it; the hourly
      load is the mean of the readings of the hour; a value held by more
      than half of
      the minutes of an hour is the value of the hour; with
      [pandas_0_25] a bucket without a mode drops the column instead of
      raising, with [strict_apply] it raises, and without such a bucket
      the two agree; hourly means stay within the bounds of the data.
    - [Clean]: every row a cleaner keeps is a row of the log it reads,
      with the time stamp parsed there (in local time for the logs kept
      in UTC) inside the window and with the cells of that row: for the
      thermostat under the column names without ".1" and tagged with the
      home, for the load only rows of the group Heating/Cooling, for the
      weather with the temperature in Fahrenheit; [remove_dot1] removes
      ".1" anywhere in a name.
    - [Merge]: the join has exactly the time stamps of its sources, is
      well formed, and keeps the cells of every source row.
    - [Daily]: on an hourly frame with the load, the identifier and
      numeric degree days [resample_hvac_to_daily] is [daily_frame] with
      its incomplete rows dropped; a day of the output has the sum of
      its hourly load over 1000 as [hvac_kWh] and the mean of its hourly
      degree days, its label is a midnight and the labels increase; no
      cell of the output is missing; without the load column the
      function raises.
    - [Pipeline]: an empty folder and a missing load file skip the home,
      a folder without a thermostat file raises [IndexError] and an
      unreadable weather file raises too; [main] returns the daily
      frames of the homes ([daily_of]) appended in the order of the
      homes, none of them with a missing cell, and the first home that
      raises stops the run.

    Every theorem with a hypothesis is applied to a concrete input in the
    examples at the end of its file, where the definitions run by
    [vm_compute].

    ** Modelling choices

    - Numbers.  Python floats are idealised as exact rationals in
      canonical form ([Qc]), so that equality of readings is Leibniz
      equality and the order is total.  Rounding, infinities and the
      difference between integer and float columns are not modelled.
    - Time stamps are integers: whole seconds since 1970-01-01 00:00,
      naive as in the script after its zone conversion.  [to_datetime]
      reads a date written year-month-day, optionally followed by a blank
      and a time of day; other spellings, which pandas may accept, are a
      [ValueError] in the model.  A cell of a time column that is a number
      is refused.
    - A raw log is the frame [read_csv] returns: distinct column names
      (the reader renames duplicates by appending ".1"), text, numbers
      and missing cells.
    - Regular expressions.  The patterns of the script are alternatives
      of literal text; [re_search] splits the pattern at "|" and looks for
      one alternative as a substring.  It is not a regular-expression
      engine.
    - pandas and the [statistics] module are libraries the script calls.
      Their behaviour on the calls the script makes is written out in the
      definitions that model those lines, for the versions the script was
      written for (pandas 0.25, Python 3.7: [DataFrame.append],
      [pandas.io.common.EmptyDataError] and a [statistics.mode] that
      raises on ties exist together only there).  Where a frame has two
      columns of one name, [df[c]] is the first of them in the model.
    - Missing values.  A missing cell is an ordinary value for
      [statistics.mode] in the model.  The thermostat resampler applies
      the mode after the two fills, when a column that is left has no
      missing cell unless it has nothing else.
    - No fuel is needed anywhere: all recursion is structural, and every
      function of the script is a total function of its inputs and of the
      three interfaces.

    ** Not modelled

    The parsing of CSV text and the directory tree behind [FileSystem];
    the final [to_csv]; the messages the script prints; the commented-out
    code and the unused import of numpy. *)

From Stdlib Require Export QArith Qcanon Lqa.
From stdpp Require Export base tactics option sets strings numbers sorting list.

#[global] Open Scope Z_scope.

(** ** Python exceptions as values *)

(** The exception classes named in the script ([StatisticsError],
    [FileNotFoundError], [EmptyDataError]) and the ones its library calls
    raise on the paths it can reach. *)
Inductive pyexn : Set :=
  | KeyError
  | IndexError
  | TypeError
  | ValueError
  | StatisticsError
  | FileNotFoundError
  | EmptyDataError
  | DataError.

#[export] Instance pyexn_eq_dec : EqDecision pyexn.
Proof. solve_decision. Defined.

Inductive res (A : Type) : Type :=
  | Val (a : A)
  | Raise (e : pyexn).
Arguments Val {A} a.
Arguments Raise {A} e.

#[export] Instance res_eq_dec `{EqDecision A} : EqDecision (res A).
Proof. solve_decision. Defined.

#[export] Instance res_ret : MRet res := λ A, Val.
#[export] Instance res_bind : MBind res := λ A B f m,
  match m with Val a => f a | Raise e => Raise e end.
#[export] Instance res_fmap : FMap res := λ A B f m,
  match m with Val a => Val (f a) | Raise e => Raise e end.

(** [try: m except e: h] for one exception class. *)
Definition catch {A} (e : pyexn) (m : res A) (h : res A) : res A :=
  match m with
  | Val a => Val a
  | Raise e' => if decide (e' = e) then h else Raise e'
  end.

Definition is_Val {A} (m : res A) : Prop := ∃ a, m = Val a.

(** A fallible function over a list, left to right, stopping at the first
    exception. *)
Fixpoint res_mapM {A B} (f : A → res B) (l : list A) : res (list B) :=
  match l with
  | [] => Val []
  | x :: l' => y ← f x; k ← res_mapM f l'; Val (y :: k)
  end.

(** A loop that threads a state through the elements of a list and stops
    at the first exception. *)
Fixpoint res_foldM {A B} (f : B → A → res B) (b : B) (l : list A) : res B :=
  match l with
  | [] => Val b
  | x :: l' => b' ← f b x; res_foldM f b' l'
  end.

(** ** Boolean-mask selection: pandas' [df[mask]] on one column *)

Fixpoint mask_filter {A} (m : list bool) (l : list A) : list A :=
  match m, l with
  | b :: m', x :: l' => if b then x :: mask_filter m' l' else mask_filter m' l'
  | _, _ => []
  end.

(** The longest prefix whose elements all satisfy [P]. *)
Fixpoint take_while {A} (P : A → Prop) `{∀ x, Decision (P x)} (l : list A)
    : list A :=
  match l with
  | [] => []
  | x :: l' => if decide (P x) then x :: take_while P l' else []
  end.

Fixpoint count_true (m : list bool) : nat :=
  match m with
  | [] => 0
  | b :: m' => (if b then 1 else 0) + count_true m'
  end%nat.

(** The position of the [j]-th row a mask keeps. *)
Fixpoint nth_true (m : list bool) (j : nat) : option nat :=
  match m with
  | [] => None
  | true :: m' => match j with O => Some O | S j' => S <$> nth_true m' j' end
  | false :: m' => S <$> nth_true m' j
  end.

(** ** Rational literals *)

Definition qz (z : Z) : Qc := Q2Qc (inject_Z z).
Definition qfrac (n : Z) (d : positive) : Qc := Q2Qc (n # d).

(** ** Automation *)

Create HintDb hvac discriminated.
Create Rewrite HintDb hvac_rw.

(** Case analysis on the scrutinee of a bind, in the goal or in a
    hypothesis. *)
Ltac case_res :=
  match goal with
  | H : context [mbind _ ?m] |- _ =>
      destruct m eqn:?; simpl in H; try discriminate H
  | |- context [mbind _ ?m] => destruct m eqn:?; simpl
  end.

Ltac inv_res :=
  repeat match goal with
  | H : Val _ = Val _ |- _ => injection H as H; try subst
  | H : Raise _ = Raise _ |- _ => injection H as H; try subst
  | H : Val _ = Raise _ |- _ => discriminate H
  | H : Raise _ = Val _ |- _ => discriminate H
  | H : Some _ = Some _ |- _ => injection H as H; try subst
  | H : Some _ = None |- _ => discriminate H
  | H : None = Some _ |- _ => discriminate H
  end.

(** Linear arithmetic over [Qc]: move to [Q], forget the normal forms,
    call [lra]. *)
Ltac qc_norm :=
  repeat (progress unfold qz, qfrac, Qcdiv, Qcminus, Qcinv, Qcopp, Qcplus,
            Qcmult, Qcle, Qclt in * );
  cbn [this Q2Qc] in *; rewrite ?Qred_correct in *; unfold inject_Z in *.
Ltac qc_lra := intros; try apply Qc_is_canon; qc_norm; lra.

(** Closed goals by evaluation; equalities between structures that hold
    rationals are decided rather than converted. *)
Ltac by_compute := first [ vm_compute; reflexivity | apply (bool_decide_unpack _); vm_compute; exact I ].

Section res_lemmas.
Context {A B : Type}.
Implicit Types (m : res A) (f : A → res B).

Lemma bind_Val m f b :
  m ≫= f = Val b ↔ ∃ a, m = Val a ∧ f a = Val b.
Proof.
  destruct m; simpl; split; [eauto | | done |];
    intros (? & ? & ?); by simplify_eq.
Qed.

Lemma bind_Raise m f e :
  m ≫= f = Raise e ↔ m = Raise e ∨ ∃ a, m = Val a ∧ f a = Raise e.
Proof.
  destruct m; simpl; split; [eauto | | intros [= ->]; by left |];
    intros [? | (? & ? & ?)]; by simplify_eq.
Qed.

Lemma fmap_Val m (g : A → B) b :
  g <$> m = Val b ↔ ∃ a, m = Val a ∧ b = g a.
Proof.
  destruct m; simpl; split; [intros [= <-]; eauto | | done |];
    intros (? & ? & ?); by simplify_eq.
Qed.

Lemma is_Val_Val (a : A) : is_Val (Val a).
Proof. by exists a. Qed.

Lemma is_Val_Raise (e : pyexn) : ¬ is_Val (@Raise A e).
Proof. by intros [a ?]. Qed.

Lemma catch_Val e a (h : res A) : catch e (Val a) h = Val a.
Proof. done. Qed.

Lemma catch_Raise_same e (h : res A) : catch e (Raise e) h = h.
Proof. unfold catch. by rewrite decide_True. Qed.

Lemma catch_Raise_other e e' (h : res A) :
  e' ≠ e → catch e (Raise e') h = Raise e'.
Proof. intros. unfold catch. by rewrite decide_False. Qed.

End res_lemmas.

Section res_mapM_lemmas.
Context {A B : Type}.
Implicit Types (f : A → res B) (l : list A) (k : list B).

Lemma res_mapM_Val f l k :
  res_mapM f l = Val k ↔ Forall2 (λ x y, f x = Val y) l k.
Proof.
  revert k. induction l as [|x l IH]; intros k; cbn [res_mapM].
  - split; [intros [= <-]; constructor | by inversion 1].
  - rewrite bind_Val. setoid_rewrite bind_Val. split.
    + intros (y & Hy & k' & Hk & [= <-]).
      constructor; [done | by apply IH].
    + inversion 1 as [|? y ? k' Hy Hk]; subst.
      exists y. split; [done|]. exists k'. split; [by apply IH | done].
Qed.

Lemma res_mapM_Raise f l e :
  res_mapM f l = Raise e → ∃ x, x ∈ l ∧ f x = Raise e.
Proof.
  induction l as [|x l IH]; cbn [res_mapM]; [done|].
  rewrite bind_Raise. intros [Hx | (y & Hy & Hr)].
  - exists x. split; [left | done].
  - apply bind_Raise in Hr as [Hr | (k & _ & [=])].
    destruct (IH Hr) as (x' & ? & ?). exists x'. split; [by right | done].
Qed.

Lemma res_mapM_length f l k : res_mapM f l = Val k → length k = length l.
Proof. rewrite res_mapM_Val. intros H. symmetry. by eapply Forall2_length. Qed.

Lemma res_mapM_total f l :
  Forall (λ x, is_Val (f x)) l → is_Val (res_mapM f l).
Proof.
  induction 1 as [|x l [y Hy] _ [k Hk]]; simpl; [apply is_Val_Val|].
  rewrite Hy, Hk. apply is_Val_Val.
Qed.

Lemma res_mapM_lookup f l k i x :
  res_mapM f l = Val k → l !! i = Some x → ∃ y, k !! i = Some y ∧ f x = Val y.
Proof.
  rewrite res_mapM_Val. intros H Hx.
  destruct (Forall2_lookup_l _ _ _ _ _ H Hx) as (y & ? & ?). eauto.
Qed.

End res_mapM_lemmas.

Lemma res_mapM_pure {A B} (g : A → B) (l : list A) :
  res_mapM (λ x, Val (g x)) l = Val (g <$> l).
Proof. induction l as [|x l IH]; simpl; [done|]. by rewrite IH. Qed.

Section mask_lemmas.
Context {A : Type}.
Implicit Types (m : list bool) (l : list A).

Lemma mask_filter_nil_r m : mask_filter m (@nil A) = [].
Proof. by destruct m. Qed.

Lemma length_mask_filter m l :
  length m = length l → length (mask_filter m l) = count_true m.
Proof.
  revert l. induction m as [|b m IH]; intros [|x l] Hl; simplify_eq/=; [done|].
  destruct b; simpl; by rewrite IH.
Qed.

Lemma length_mask_filter_le m l : (length (mask_filter m l) ≤ length l)%nat.
Proof.
  revert l. induction m as [|b m IH]; intros [|x l]; simpl; try lia.
  specialize (IH l). destruct b; simpl; lia.
Qed.

Lemma elem_of_mask_filter m l x : x ∈ mask_filter m l → x ∈ l.
Proof.
  revert l. induction m as [|b m IH]; intros [|y l]; simpl;
    try by rewrite ?elem_of_nil.
  destruct b; rewrite ?elem_of_cons; intros; destruct_or?; auto.
Qed.

Lemma mask_filter_lookup m l i x :
  m !! i = Some true → l !! i = Some x → x ∈ mask_filter m l.
Proof.
  revert l i. induction m as [|b m IH]; intros [|y l] [|i]; simpl; try done.
  - intros [= ->] [= ->]. left.
  - intros Hm Hl. destruct b; [right|]; eauto.
Qed.

Lemma mask_filter_all_true m l :
  length m = length l → Forall (λ b, b = true) m → mask_filter m l = l.
Proof.
  revert l. induction m as [|b m IH]; intros [|x l] Hl Hm;
    simplify_eq/=; [done|].
  inversion Hm; subst. f_equal. by apply IH.
Qed.

Lemma mask_filter_all_false m l :
  Forall (λ b, b = false) m → mask_filter m l = [].
Proof.
  revert l. induction m as [|b m IH]; intros [|x l] Hm; simpl; try done.
  inversion Hm; subst. by apply IH.
Qed.

Lemma mask_filter_Forall (P : A → Prop) m l :
  Forall P l → Forall P (mask_filter m l).
Proof.
  rewrite !list.Forall_forall. intros H x Hx. by apply H, elem_of_mask_filter with m.
Qed.

Lemma mask_filter_sublist m l : mask_filter m l `sublist_of` l.
Proof.
  revert l. induction m as [|b m IH]; intros [|x l]; simpl;
    try apply sublist_nil_l.
  destruct b; [by apply sublist_skip | by apply sublist_cons].
Qed.

End mask_lemmas.

Lemma mask_filter_fmap {A B} (g : A → B) m (l : list A) :
  mask_filter m (g <$> l) = g <$> mask_filter m l.
Proof.
  revert l. induction m as [|b m IH]; intros [|x l]; simpl; try done.
  destruct b; simpl; by rewrite IH.
Qed.

Lemma Forall_filter_keep {A} (P Q : A → Prop) `{∀ x, Decision (Q x)} (l : list A) :
  Forall P l → Forall P (filter Q l).
Proof.
  rewrite !list.Forall_forall. intros HP x [_ Hx]%list_elem_of_filter. auto.
Qed.

Lemma filter_nil_Forall {A} (P : A → Prop) `{∀ x, Decision (P x)} (l : list A) :
  Forall (λ x, ¬ P x) l → filter P l = [].
Proof.
  induction 1 as [|x l Hx _ IH]; [done|]. by rewrite filter_cons, decide_False.
Qed.

Lemma take_while_prefix {A} (P : A → Prop) `{∀ x, Decision (P x)} (l : list A) :
  take_while P l `prefix_of` l.
Proof.
  induction l as [|x l IH]; simpl; [done|].
  case_decide; [by apply prefix_cons | apply prefix_nil].
Qed.

Lemma take_while_Forall {A} (P : A → Prop) `{∀ x, Decision (P x)} (l : list A) :
  Forall P (take_while P l).
Proof. induction l; simpl; [constructor|]. case_decide; by constructor. Qed.

Lemma NoDup_singleton_iff {A} (l : list A) (x : A) :
  NoDup l → l = [x] ↔ x ∈ l ∧ ∀ y, y ∈ l → y = x.
Proof.
  intros Hnd. split;
    [intros ->; split; [left | by intros y ->%list_elem_of_singleton]|].
  intros [Hx Hall]. destruct l as [|a [|b l]].
  - by apply elem_of_nil in Hx.
  - f_equal. apply Hall. left.
  - apply NoDup_cons in Hnd as [Hab _]. destruct Hab.
    rewrite (Hall a), (Hall b); [left | right; left | left].
Qed.

Lemma count_true_replicate_true n : count_true (replicate n true) = n.
Proof.
  induction n as [|n IH]; simpl; [done|]. by rewrite IH.
Qed.

Lemma mask_filter_elem {A} (m : list bool) (l : list A) x :
  x ∈ mask_filter m l ↔ ∃ i, m !! i = Some true ∧ l !! i = Some x.
Proof.
  split; [|intros (i & ? & ?); by eapply mask_filter_lookup].
  revert l. induction m as [|b m IH]; intros [|y l]; simpl;
    try by intros ?%elem_of_nil.
  destruct b.
  - intros [->|(i & ? & ?)%IH]%elem_of_cons; [by exists 0%nat | by exists (S i)].
  - intros (i & ? & ?)%IH. by exists (S i).
Qed.

Lemma res_mapM_elem {A B} (f : A → res B) l k y :
  res_mapM f l = Val k → y ∈ k → ∃ x, x ∈ l ∧ f x = Val y.
Proof.
  rewrite res_mapM_Val. intros H (i & Hi)%list_elem_of_lookup_1.
  destruct (Forall2_lookup_r _ _ _ _ _ H Hi) as (x & ? & ?).
  exists x. split; [by eapply list_elem_of_lookup_2 | done].
Qed.

Lemma mask_filter_app {A} (m1 m2 : list bool) (l1 l2 : list A) :
  length m1 = length l1 →
  mask_filter (m1 ++ m2) (l1 ++ l2) = mask_filter m1 l1 ++ mask_filter m2 l2.
Proof.
  revert l1. induction m1 as [|b m1 IH]; intros [|x l1] Hl; simplify_eq/=; [done|].
  rewrite IH by done. by destruct b.
Qed.

Lemma mask_filter_nth {A} (m : list bool) (l : list A) j :
  length m = length l → mask_filter m l !! j = nth_true m j ≫= (l !!.).
Proof.
  revert l j. induction m as [|[] m IH]; intros [|x l] j Hl; simplify_eq/=; try done.
  - destruct j as [|j]; [done|]. simpl. rewrite IH by done.
    by destruct (nth_true m j).
  - rewrite IH by done. by destruct (nth_true m j).
Qed.

Lemma nth_true_lookup m j i : nth_true m j = Some i → m !! i = Some true.
Proof.
  revert j i. induction m as [|[] m IH]; intros j i; simpl; [done|..].
  - destruct j as [|j]; [by intros [= <-]|].
    destruct (nth_true m j) eqn:E; [|done]. intros [= <-]. eauto.
  - destruct (nth_true m j) eqn:E; [|done]. intros [= <-]. eauto.
Qed.

Lemma res_mapM_lookup_inv {A B} (f : A → res B) l k (i : nat) y :
  res_mapM f l = Val k → k !! i = Some y → ∃ x, l !! i = Some x ∧ f x = Val y.
Proof.
  rewrite res_mapM_Val. intros H Hy.
  destruct (Forall2_lookup_r _ _ _ _ _ H Hy) as (x & ? & ?). eauto.
Qed.

Lemma res_mapM_app_Raise {A B} (f : A → res B) l1 x l2 ds e :
  res_mapM f l1 = Val ds → f x = Raise e → res_mapM f (l1 ++ x :: l2) = Raise e.
Proof.
  revert ds. induction l1 as [|y l1 IH]; intros ds; cbn [res_mapM app].
  - intros _ ->. done.
  - destruct (f y); [|done]. cbn [mbind res_bind].
    destruct (res_mapM f l1) eqn:E; [|done]. intros _ Hx. by rewrite (IH _ eq_refl Hx).
Qed.

Lemma res_mapM_fmap {A B} (f : A → res B) (g : A → B) l :
  Forall (λ x, f x = Val (g x)) l → res_mapM f l = Val (g <$> l).
Proof.
  induction 1 as [|x l Hx _ IH]; [done|]. cbn [res_mapM]. by rewrite Hx, IH.
Qed.

(** ** Sorted lists of integers *)

Lemma sublist_StronglySorted {A} (R : relation A) (l k : list A) :
  l `sublist_of` k → StronglySorted R k → StronglySorted R l.
Proof.
  induction 1 as [|x l k Hs IH|x l k Hs IH]; intros Hk; [done|..];
    apply StronglySorted_inv in Hk as [Hk Hx]; [|by apply IH].
  constructor; [by apply IH|]. rewrite list.Forall_forall in Hx |- *.
  intros y Hy. eapply Hx, elem_of_sublist; eauto.
Qed.

Lemma sorted_head_le (l : list Z) a t :
  StronglySorted Z.le l → head l = Some a → t ∈ l → a ≤ t.
Proof.
  destruct 1 as [|x l _ Hx]; [done|]. simpl. intros [= ->].
  rewrite list.Forall_forall in Hx. intros [->|?]%elem_of_cons; [lia | auto].
Qed.

Lemma sorted_le_last (l : list Z) b t :
  StronglySorted Z.le l → last l = Some b → t ∈ l → t ≤ b.
Proof.
  intros Hs. revert t. induction Hs as [|x l Hl IH Hx]; intros t; [done|].
  rewrite list.Forall_forall in Hx. destruct l as [|y l'].
  - simpl. intros [= ->] ->%list_elem_of_singleton. lia.
  - rewrite last_cons_cons. intros Hb [->|?]%elem_of_cons; [|auto].
    etrans; [apply (Hx y); by left | apply IH; [done | by left]].
Qed.

(** ** Rationals *)

Lemma Qc_le_lt_dec_cases (x y : Qc) : (x < y)%Qc ∨ (y ≤ x)%Qc.
Proof. destruct (Qclt_le_dec x y); auto. Qed.

Lemma qz_inj_le (a b : Z) : a ≤ b → (qz a ≤ qz b)%Qc.
Proof.
  intros H. qc_norm. unfold Qle. simpl. lia.
Qed.

#[export] Hint Resolve is_Val_Val : hvac.
#[export] Hint Resolve mask_filter_Forall elem_of_mask_filter
  Forall_filter_keep : hvac.
#[export] Hint Rewrite @mask_filter_fmap @mask_filter_nil_r : hvac_rw.
