(* ===== verification/Cell.v ===== *)
(** * Cells and series

    One cell of a data frame and the element-wise operations the script
    applies to whole columns: the subtraction of two series
    ([df["amb_temp"] - df[c_col]]), [Series.apply(lambda x: max(x, 0))] and
    the Celsius to Fahrenheit conversion [pytemp(t, "c", "f")].  A series
    is the list of its cells, in row order. *)

From S2P Require Import Prelude.

#[local] Open Scope Qc_scope.

(** A number, a string (identifiers, thermostat activity, the load
    group) or pandas' missing value NaN. *)
Inductive cell : Type :=
  | CNum (q : Qc)
  | CStr (s : string)
  | CNull.

#[export] Instance cell_eq_dec : EqDecision cell.
Proof. solve_decision. Defined.

#[export] Instance cell_inhabited : Inhabited cell := populate CNull.

Definition is_null (c : cell) : bool :=
  match c with CNull => true | _ => false end.

Definition is_str (c : cell) : bool :=
  match c with CStr _ => true | _ => false end.

(** The cells a float column can hold. *)
Definition is_numeric (c : cell) : bool := negb (is_str c).

(** [a - b] on two cells: NaN is absorbing, a string operand is a
    [TypeError]. *)
Definition cell_sub (a b : cell) : res cell :=
  match a, b with
  | CStr _, _ | _, CStr _ => Raise TypeError
  | CNum x, CNum y => Val (CNum (x - y))
  | _, _ => Val CNull
  end.

(** Python's [max(x, 0)]: the first argument unless the second is
    strictly greater.  [0 > nan] is false, so NaN is returned as it is;
    comparing a number with a string is a [TypeError]. *)
Definition py_max0 (c : cell) : res cell :=
  match c with
  | CNum x => Val (CNum (if decide (x < 0) then 0 else x))
  | CNull => Val CNull
  | CStr _ => Raise TypeError
  end.

(** [pytemp(t, "c", "f")]. *)
Definition c_to_f (t : Qc) : Qc := t * qfrac 9 5 + qz 32.

Definition cell_c_to_f (c : cell) : res cell :=
  match c with
  | CNum t => Val (CNum (c_to_f t))
  | CNull => Val CNull
  | CStr _ => Raise TypeError
  end.

(** Element-wise operations on series of one frame (same index, so the
    alignment pandas performs is the identity). *)
Definition series_sub (a b : list cell) : res (list cell) :=
  res_mapM (λ p, cell_sub p.1 p.2) (zip a b).

Definition series_apply (f : cell → res cell) (a : list cell) : res (list cell) :=
  res_mapM f a.

(** Every number in the cell is at least zero. *)
Definition cell_ge0 (c : cell) : Prop :=
  match c with CNum q => 0 ≤ q | _ => True end.

#[export] Instance cell_ge0_dec c : Decision (cell_ge0 c).
Proof. destruct c; simpl; apply _. Defined.

(** The cell of a whole number. *)
Definition num (z : Z) : cell := CNum (qz z).

(** The cell holds a value. *)
Definition present (c : cell) : Prop := is_null c = false.

#[export] Instance present_dec c : Decision (present c).
Proof. unfold present. apply _. Defined.

(** Some cell of the series is a string. *)
Definition has_str (a : list cell) : Prop := ∃ x, x ∈ a ∧ is_str x = true.

(** Every number in the cell lies between [lo] and [hi]. *)
Definition within (lo hi : Qc) (c : cell) : Prop :=
  match c with CNum q => lo ≤ q ∧ q ≤ hi | _ => True end.

#[export] Instance within_dec lo hi c : Decision (within lo hi c).
Proof. destruct c; simpl; apply _. Defined.

(** ** Cells *)

Lemma is_numeric_CNum q : is_numeric (CNum q) = true.
Proof. done. Qed.

Lemma is_numeric_not_str c : is_numeric c = true ↔ ∀ s, c ≠ CStr s.
Proof.
  destruct c as [q|s|]; simpl; split; try done. intros H. by destruct (H s).
Qed.

Lemma cell_sub_num x y : cell_sub (CNum x) (CNum y) = Val (CNum (x - y)).
Proof. done. Qed.

Lemma cell_sub_Val a b c :
  cell_sub a b = Val c ↔
    (∃ x y, a = CNum x ∧ b = CNum y ∧ c = CNum (x - y)) ∨
    (is_numeric a = true ∧ is_numeric b = true ∧ c = CNull ∧
     (a = CNull ∨ b = CNull)).
Proof.
  split.
  - destruct a as [x| |], b as [y| |]; simpl; intros [= <-];
      [left; by exists x, y | right; auto..].
  - intros [(x & y & -> & -> & ->) | (Ha & Hb & -> & Hn)]; [done|].
    destruct a, b, Hn; by simplify_eq/=.
Qed.

Lemma cell_sub_Raise a b e :
  cell_sub a b = Raise e ↔ e = TypeError ∧ (is_str a = true ∨ is_str b = true).
Proof.
  destruct a, b; simpl; split; try (intros [= <-]); try done; auto;
    intros [-> [?|?]]; done.
Qed.

Lemma cell_sub_total a b :
  is_numeric a = true → is_numeric b = true → is_Val (cell_sub a b).
Proof. destruct a, b; simpl; try done; intros _ _; apply is_Val_Val. Qed.

Lemma cell_sub_null_iff a b c :
  cell_sub a b = Val c → (c = CNull ↔ a = CNull ∨ b = CNull).
Proof.
  destruct a, b; simpl; intros [= <-]; split; intros H; try done; auto;
    by destruct H.
Qed.

Lemma py_max0_ge0 c d : py_max0 c = Val d → cell_ge0 d.
Proof.
  destruct c as [x| |]; simpl; intros [= <-]; simpl; [|done].
  case_decide; qc_lra.
Qed.

Lemma py_max0_num x :
  py_max0 (CNum x) = Val (CNum (if decide (x < 0) then 0 else x)).
Proof. done. Qed.

Lemma py_max0_id x : 0 ≤ x → py_max0 (CNum x) = Val (CNum x).
Proof.
  intros Hx. simpl. rewrite decide_False; [done|]. intros ?. qc_lra.
Qed.

Lemma py_max0_clamp x : x < 0 → py_max0 (CNum x) = Val (CNum 0).
Proof. intros Hx. simpl. by rewrite decide_True. Qed.

Lemma py_max0_upper x d : py_max0 (CNum x) = Val (CNum d) → x ≤ d.
Proof. simpl. intros [= <-]. case_decide; qc_lra. Qed.

Lemma py_max0_null_iff c d : py_max0 c = Val d → (d = CNull ↔ c = CNull).
Proof. destruct c; simpl; intros [= <-]; done. Qed.

Lemma py_max0_total c : is_numeric c = true → is_Val (py_max0 c).
Proof. destruct c; simpl; try done; intros _; apply is_Val_Val. Qed.

Lemma py_max0_numeric c d : py_max0 c = Val d → is_numeric d = true.
Proof. destruct c; simpl; by intros [= <-]. Qed.

Lemma py_max0_idemp c d : py_max0 c = Val d → py_max0 d = Val d.
Proof.
  intros H. pose proof (py_max0_ge0 _ _ H) as Hd.
  pose proof (py_max0_numeric _ _ H) as Hn.
  destruct d; simpl in *; [by apply py_max0_id | done | done].
Qed.

(** ** Temperature conversion *)

Lemma c_to_f_freezing : c_to_f 0 = qz 32.
Proof. unfold c_to_f. qc_lra. Qed.

Lemma c_to_f_boiling : c_to_f (qz 100) = qz 212.
Proof. unfold c_to_f. qc_lra. Qed.

Lemma c_to_f_mono x y : x ≤ y ↔ c_to_f x ≤ c_to_f y.
Proof. unfold c_to_f. split; qc_lra. Qed.

Lemma c_to_f_inj x y : c_to_f x = c_to_f y → x = y.
Proof.
  intros H. apply Qcle_antisym; apply c_to_f_mono; rewrite H; apply Qcle_refl.
Qed.

Lemma c_to_f_diff x y : c_to_f x - c_to_f y = qfrac 9 5 * (x - y).
Proof. unfold c_to_f. ring. Qed.

(** ** Series *)

Lemma series_sub_length a b k :
  series_sub a b = Val k → length k = Nat.min (length a) (length b).
Proof.
  intros H%res_mapM_length. by rewrite H, length_zip_with.
Qed.

Lemma series_sub_lookup a b k i x y :
  series_sub a b = Val k → a !! i = Some x → b !! i = Some y →
  ∃ c, k !! i = Some c ∧ cell_sub x y = Val c.
Proof.
  intros H Hx Hy.
  eapply (res_mapM_lookup _ _ _ i (x, y)) in H; [done|].
  rewrite lookup_zip_with, Hx. simpl. by rewrite Hy.
Qed.

Lemma series_sub_total a b :
  Forall (λ c, is_numeric c = true) a → Forall (λ c, is_numeric c = true) b →
  is_Val (series_sub a b).
Proof.
  intros Ha Hb. apply res_mapM_total. revert b Hb.
  induction Ha as [|x a Hx Ha IH]; intros [|y b] Hb; simpl; try constructor.
  - inversion Hb; subst. by apply cell_sub_total.
  - inversion Hb; subst. by apply IH.
Qed.

Lemma series_sub_numeric a b k :
  series_sub a b = Val k → Forall (λ c, is_numeric c = true) k.
Proof.
  intros H%res_mapM_Val. induction H as [|[x y] c ? ? Hc _ IH]; constructor; [|done].
  simpl in Hc. destruct x, y; simpl in Hc; by simplify_eq.
Qed.

Lemma series_sub_Raise a b e :
  series_sub a b = Raise e → e = TypeError ∧ (has_str a ∨ has_str b).
Proof.
  intros ([x y] & Hin & [-> Hs]%cell_sub_Raise)%res_mapM_Raise.
  split; [done|]. simpl in Hs.
  destruct Hs; [left; exists x | right; exists y];
    eauto using elem_of_zip_l, elem_of_zip_r.
Qed.

Lemma series_max0_Raise a e :
  series_apply py_max0 a = Raise e → e = TypeError ∧ has_str a.
Proof.
  intros (x & Hin & Hx)%res_mapM_Raise. destruct x; simplify_eq/=.
  split; [done|]. eexists. by split.
Qed.

Lemma has_str_not_numeric a :
  has_str a → ¬ Forall (λ c, is_numeric c = true) a.
Proof.
  intros (x & Hin & Hx). rewrite list.Forall_forall. intros H.
  specialize (H x Hin). unfold is_numeric in H. by rewrite Hx in H.
Qed.

Lemma series_apply_length f a k : series_apply f a = Val k → length k = length a.
Proof. apply res_mapM_length. Qed.

Lemma series_apply_lookup f a k i x :
  series_apply f a = Val k → a !! i = Some x →
  ∃ c, k !! i = Some c ∧ f x = Val c.
Proof. apply res_mapM_lookup. Qed.

Lemma series_apply_Forall f (P : cell → Prop) a k :
  (∀ c d, f c = Val d → P d) → series_apply f a = Val k → Forall P k.
Proof.
  intros Hf H%res_mapM_Val. induction H; constructor; eauto.
Qed.

Lemma series_apply_max0_ge0 a k :
  series_apply py_max0 a = Val k → Forall cell_ge0 k.
Proof. apply series_apply_Forall, py_max0_ge0. Qed.

Lemma series_apply_max0_total a :
  Forall (λ c, is_numeric c = true) a → is_Val (series_apply py_max0 a).
Proof.
  intros H. apply res_mapM_total.
  induction H; constructor; auto using py_max0_total.
Qed.

#[export] Hint Resolve cell_sub_total py_max0_total py_max0_ge0 : hvac.
#[export] Hint Resolve series_sub_total series_apply_max0_total
  series_apply_max0_ge0 series_sub_numeric : hvac.
