(* ===== verification/Frame.v ===== *)
(** * Data frames

    A [frame] is what the script passes from stage to stage: the time
    stamps of the rows ([index]; the script's "Timestamp" column, which it
    moves in and out of the index with [set_index] and [reset_index]) and
    the named columns, in order.  Column [c] of a well-formed frame has one
    cell per row.

    The operations are the pandas calls of the script, with their result
    on every input: [get_col] is [df[c]] ([KeyError] when the column is
    absent), [has_col] is [c in df], [set_col] is [df[c] = series],
    [del_col] is [del df[c]], [select_rows] is [df[mask]],
    [filter_cols] is [df.filter(regex=...)] for a decidable name test,
    [rename_cols] is [df.rename(columns=f)], [dropna_cols] is
    [df.dropna(axis=1, how='all')] and [dropna_rows] is [df.dropna()]. *)

From S2P Require Import Prelude Cell.

#[local] Set Warnings "-clear-no-such-hyp".

Record frame : Type := Frame {
  index : list Z;
  columns : list (string * list cell)
}.

#[export] Instance frame_eq_dec : EqDecision frame.
Proof. solve_decision. Defined.

Definition empty_frame : frame := Frame [] [].

Definition nrows (df : frame) : nat := length (index df).

Definition col_names (df : frame) : list string := (columns df).*1.

(** [c in df]. *)
Definition has_col (c : string) (df : frame) : bool :=
  bool_decide (c ∈ col_names df).

(** The first column of that name. *)
Fixpoint lookup_col (c : string) (cols : list (string * list cell))
    : option (list cell) :=
  match cols with
  | [] => None
  | (c', v) :: cols' => if decide (c' = c) then Some v else lookup_col c cols'
  end.

(** [df[c]]. *)
Definition get_col (c : string) (df : frame) : res (list cell) :=
  match lookup_col c (columns df) with
  | Some v => Val v
  | None => Raise KeyError
  end.

(** The cell of column [c] in row [i]. *)
Definition cell_at (c : string) (i : nat) (df : frame) : option cell :=
  v ← lookup_col c (columns df); v !! i.

(** [df[c] = v]: an existing column is replaced where it stands, a new one
    is added as the last column. *)
Fixpoint assign_col (c : string) (v : list cell)
    (cols : list (string * list cell)) : list (string * list cell) :=
  match cols with
  | [] => [(c, v)]
  | (c', v') :: cols' =>
      if decide (c' = c) then (c, v) :: cols' else (c', v') :: assign_col c v cols'
  end.

Definition set_col (c : string) (v : list cell) (df : frame) : frame :=
  Frame (index df) (assign_col c v (columns df)).

(** [df[c] = x] for a scalar [x]: the value in every row. *)
Definition set_col_const (c : string) (x : cell) (df : frame) : frame :=
  set_col c (replicate (nrows df) x) df.

(** [del df[c]]. *)
Definition del_col (c : string) (df : frame) : res frame :=
  if has_col c df
  then Val (Frame (index df) (filter (λ cv, cv.1 ≠ c) (columns df)))
  else Raise KeyError.

(** [df[mask]] for a boolean series [mask] over the rows. *)
Definition select_rows (mask : list bool) (df : frame) : frame :=
  Frame (mask_filter mask (index df))
        (prod_map id (mask_filter mask) <$> columns df).

(** Keep the columns whose name passes the test; [df.filter]. *)
Definition filter_cols (keep : string → bool) (df : frame) : frame :=
  Frame (index df) (filter (λ cv, keep cv.1 = true) (columns df)).

(** [df.rename(columns=f)]. *)
Definition rename_cols (f : string → string) (df : frame) : frame :=
  Frame (index df) (prod_map f id <$> columns df).

(** [df.dropna(axis=1, how='all')]: drop the columns all of whose cells
    are missing (a column of a frame without rows is such a column). *)
Definition all_null (v : list cell) : bool := forallb is_null v.

Definition dropna_cols (df : frame) : frame :=
  Frame (index df) (filter (λ cv, all_null cv.2 = false) (columns df)).

(** Row [i] has a value in every column. *)
Definition row_complete (cols : list (string * list cell)) (i : nat) : bool :=
  forallb (λ cv, match cv.2 !! i with
                 | Some c => negb (is_null c)
                 | None => false
                 end) cols.

(** [df.dropna()]: keep the rows without a missing cell. *)
Definition dropna_rows (df : frame) : frame :=
  select_rows (row_complete (columns df) <$> seq 0 (nrows df)) df.

(** Every column has one cell per row. *)
Definition wf_frame (df : frame) : Prop :=
  Forall (λ cv, length cv.2 = nrows df) (columns df).

#[export] Instance wf_frame_dec df : Decision (wf_frame df).
Proof. unfold wf_frame. apply _. Defined.

(** No cell of the frame is missing. *)
Definition no_nulls (df : frame) : Prop :=
  Forall (λ cv, Forall (λ c, is_null c = false) cv.2) (columns df).

#[export] Instance no_nulls_dec df : Decision (no_nulls df).
Proof. unfold no_nulls. apply _. Defined.

(** [x] is a value of a column called [c]. *)
Definition col_values (c : string) (df : frame) (x : cell) : Prop :=
  ∃ v, (c, v) ∈ columns df ∧ x ∈ v.

(** ** Column lookup *)

Section columns.
Implicit Types (c : string) (v : list cell) (cols : list (string * list cell)).

Lemma lookup_col_Some_elem c cols v :
  lookup_col c cols = Some v → (c, v) ∈ cols.
Proof.
  induction cols as [|[c' v'] cols IH]; simpl; [done|].
  case_decide; [intros [= <-]; subst; left | right; auto].
Qed.

Lemma lookup_col_None c cols : lookup_col c cols = None ↔ c ∉ cols.*1.
Proof.
  induction cols as [|[c' v'] cols IH]; simpl.
  - split; [intros _; apply not_elem_of_nil | done].
  - rewrite not_elem_of_cons. case_decide; [|rewrite IH]; naive_solver.
Qed.

Lemma lookup_col_is_Some c cols : is_Some (lookup_col c cols) ↔ c ∈ cols.*1.
Proof.
  rewrite <- not_eq_None_Some, lookup_col_None.
  destruct (decide (c ∈ cols.*1)); naive_solver.
Qed.

Lemma lookup_col_Forall (P : list cell → Prop) c cols v :
  Forall (λ cv, P cv.2) cols → lookup_col c cols = Some v → P v.
Proof.
  intros H Hv%lookup_col_Some_elem.
  rewrite list.Forall_forall in H. by apply (H (c, v)).
Qed.

Lemma lookup_assign_col_eq c v cols : lookup_col c (assign_col c v cols) = Some v.
Proof.
  induction cols as [|[c' v'] cols IH]; simpl.
  - by rewrite decide_True.
  - case_decide; simpl; [by rewrite decide_True | by rewrite decide_False].
Qed.

Lemma lookup_assign_col_ne c c' v cols :
  c ≠ c' → lookup_col c' (assign_col c v cols) = lookup_col c' cols.
Proof.
  intros Hne. induction cols as [|[c0 v0] cols IH]; simpl.
  - by rewrite decide_False.
  - case_decide; simpl; subst.
    + by rewrite !decide_False.
    + case_decide; [done | apply IH].
Qed.

Lemma assign_col_names c v cols :
  (assign_col c v cols).*1 = if decide (c ∈ cols.*1) then cols.*1 else cols.*1 ++ [c].
Proof.
  induction cols as [|[c' v'] cols IH]; [done|]. cbn [assign_col].
  destruct (decide (c' = c)) as [->|Hne]; rewrite !fmap_cons; cbn [fst].
  - rewrite decide_True; [done | left].
  - rewrite IH. destruct (decide (c ∈ cols.*1)) as [Hin|Hin].
    + rewrite decide_True; [done | by right].
    + rewrite decide_False; [done|].
      rewrite elem_of_cons. by intros [->|?].
Qed.

Lemma assign_col_twice c v w cols :
  assign_col c w (assign_col c v cols) = assign_col c w cols.
Proof.
  induction cols as [|[c' v'] cols IH]; simpl.
  - by rewrite decide_True.
  - case_decide; simpl; [by rewrite decide_True | by rewrite decide_False, IH].
Qed.

(** Writing [c], then [h], then [c] again leaves [c] where the first
    write put it. *)
Lemma assign_col_rewrite c h x r r' cols :
  c ≠ h →
  assign_col c x (assign_col h r (assign_col c r' cols)) =
    assign_col h r (assign_col c x cols).
Proof.
  intros Hne. induction cols as [|[c' v'] cols IH]; simpl;
    repeat (case_decide; simplify_eq/=); try done.
  - by rewrite assign_col_twice.
  - by rewrite IH.
Qed.

Lemma assign_col_Forall (P : string * list cell → Prop) c v cols :
  P (c, v) → Forall P cols → Forall P (assign_col c v cols).
Proof.
  intros Hv. induction 1 as [|[c' v'] cols Hc Hl IH]; simpl.
  - by constructor.
  - case_decide; by constructor.
Qed.

Lemma assign_col_length c v cols :
  length (assign_col c v cols) =
    if decide (c ∈ cols.*1) then length cols else S (length cols).
Proof.
  rewrite <- (length_fmap fst (assign_col c v cols)), assign_col_names.
  case_decide; rewrite ?length_app, ?length_fmap; simpl; lia.
Qed.

End columns.

(** ** [c in df] and [df[c]] *)

Section frame_lookup.
Implicit Types (df : frame) (c : string) (v : list cell).

Lemma has_col_true c df : has_col c df = true ↔ c ∈ col_names df.
Proof. unfold has_col. apply bool_decide_eq_true. Qed.

Lemma has_col_false c df : has_col c df = false ↔ c ∉ col_names df.
Proof. unfold has_col. apply bool_decide_eq_false. Qed.

Lemma get_col_Val c df v : get_col c df = Val v ↔ lookup_col c (columns df) = Some v.
Proof. unfold get_col. destruct (lookup_col _ _); naive_solver. Qed.

Lemma get_col_is_Val c df : is_Val (get_col c df) ↔ has_col c df = true.
Proof.
  rewrite has_col_true. unfold col_names. rewrite <- lookup_col_is_Some.
  unfold is_Val, is_Some. by setoid_rewrite get_col_Val.
Qed.

Lemma get_col_KeyError c df : get_col c df = Raise KeyError ↔ has_col c df = false.
Proof.
  rewrite has_col_false. unfold col_names. rewrite <- lookup_col_None.
  unfold get_col. destruct (lookup_col _ _); naive_solver.
Qed.

Lemma get_col_Raise c df e : get_col c df = Raise e → e = KeyError.
Proof. unfold get_col. destruct (lookup_col _ _); naive_solver. Qed.

Lemma get_col_length c df v : wf_frame df → get_col c df = Val v → length v = nrows df.
Proof.
  intros Hwf Hv%get_col_Val.
  by apply (lookup_col_Forall (λ v, length v = nrows df) c (columns df)).
Qed.

Lemma get_set_col_eq c v df : get_col c (set_col c v df) = Val v.
Proof. apply get_col_Val, lookup_assign_col_eq. Qed.

Lemma get_set_col_ne c c' v df : c ≠ c' → get_col c' (set_col c v df) = get_col c' df.
Proof. intros. unfold get_col, set_col. simpl. by rewrite lookup_assign_col_ne. Qed.

Lemma has_col_set_col c c' v df :
  has_col c' (set_col c v df) = has_col c' df || bool_decide (c' = c).
Proof.
  unfold has_col. apply eq_bool_prop_intro.
  rewrite orb_True, !bool_decide_spec.
  unfold col_names, set_col. cbn [columns]. rewrite assign_col_names.
  case_decide; rewrite ?elem_of_app, ?list_elem_of_singleton; naive_solver.
Qed.

Lemma set_col_twice c v w df : set_col c w (set_col c v df) = set_col c w df.
Proof. unfold set_col. simpl. by rewrite assign_col_twice. Qed.

Lemma set_col_rewrite c h x r r' df :
  c ≠ h →
  set_col c x (set_col h r (set_col c r' df)) = set_col h r (set_col c x df).
Proof. intros. unfold set_col. simpl. by rewrite assign_col_rewrite. Qed.

Lemma index_set_col c v df : index (set_col c v df) = index df.
Proof. done. Qed.

Lemma nrows_set_col c v df : nrows (set_col c v df) = nrows df.
Proof. done. Qed.

Lemma col_names_set_col c v df :
  col_names (set_col c v df) =
    if decide (c ∈ col_names df) then col_names df else col_names df ++ [c].
Proof. apply assign_col_names. Qed.

Lemma cell_at_get_col c i df v : get_col c df = Val v → cell_at c i df = v !! i.
Proof. intros Hv%get_col_Val. unfold cell_at. by rewrite Hv. Qed.

End frame_lookup.

(** ** Well-formedness is kept by every operation *)

Section wf.
Implicit Types (df : frame) (c : string) (v : list cell).

Lemma wf_empty_frame : wf_frame empty_frame.
Proof. constructor. Qed.

Lemma wf_set_col c v df :
  wf_frame df → length v = nrows df → wf_frame (set_col c v df).
Proof. intros Hwf Hv. by apply assign_col_Forall. Qed.

Lemma wf_set_col_const c x df : wf_frame df → wf_frame (set_col_const c x df).
Proof. intros. apply wf_set_col; [done | apply length_replicate]. Qed.

Lemma wf_del_col c df df' : wf_frame df → del_col c df = Val df' → wf_frame df'.
Proof.
  unfold del_col. intros Hwf. case_match; [|done]. intros [= <-].
  by apply Forall_filter_keep.
Qed.

Lemma wf_select_rows mask df :
  wf_frame df → length mask = nrows df → wf_frame (select_rows mask df).
Proof.
  intros Hwf Hm. unfold wf_frame, select_rows, nrows. simpl.
  rewrite Forall_fmap. eapply list.Forall_impl; [exact Hwf|].
  intros [c v] Hv. simpl in *.
  rewrite !length_mask_filter; [done | done | by rewrite Hv].
Qed.

Lemma wf_filter_cols keep df : wf_frame df → wf_frame (filter_cols keep df).
Proof. intros. by apply Forall_filter_keep. Qed.

Lemma wf_rename_cols f df : wf_frame df → wf_frame (rename_cols f df).
Proof.
  intros Hwf. unfold wf_frame, rename_cols. simpl.
  rewrite Forall_fmap. eapply list.Forall_impl; [exact Hwf|]. by intros [c v].
Qed.

Lemma wf_dropna_cols df : wf_frame df → wf_frame (dropna_cols df).
Proof. intros. by apply Forall_filter_keep. Qed.

Lemma wf_dropna_rows df : wf_frame df → wf_frame (dropna_rows df).
Proof.
  intros. apply wf_select_rows; [done|].
  by rewrite length_fmap, length_seq.
Qed.

End wf.

(** ** Rows *)

Section rows.
Implicit Types (df : frame) (mask : list bool).

Lemma nrows_select_rows mask df :
  length mask = nrows df → nrows (select_rows mask df) = count_true mask.
Proof. intros. unfold nrows, select_rows. simpl. by apply length_mask_filter. Qed.

Lemma nrows_select_rows_le mask df : (nrows (select_rows mask df) ≤ nrows df)%nat.
Proof. apply length_mask_filter_le. Qed.

Lemma col_names_select_rows mask df : col_names (select_rows mask df) = col_names df.
Proof.
  unfold col_names, select_rows. simpl. rewrite <- list_fmap_compose.
  apply list_fmap_ext. by intros _ [c v] _.
Qed.

(** A function applied to every column: names and order stay. *)
Lemma lookup_col_prod_map (f : list cell → list cell) c cols :
  lookup_col c (prod_map id f <$> cols) = f <$> lookup_col c cols.
Proof.
  induction cols as [|[c' v] cols IH]; [done|]. simpl. by case_decide.
Qed.

Lemma col_names_prod_map (f : list cell → list cell)
    (cols : list (string * list cell)) :
  (prod_map id f <$> cols).*1 = cols.*1.
Proof.
  rewrite <- list_fmap_compose. apply list_fmap_ext. by intros _ [c v] _.
Qed.

Lemma elem_of_prod_map (f : list cell → list cell)
    (cols : list (string * list cell)) c v' :
  (c, v') ∈ prod_map id f <$> cols ↔ ∃ v, (c, v) ∈ cols ∧ v' = f v.
Proof.
  rewrite list_elem_of_fmap. split.
  - intros ([c0 v] & [= -> ->] & ?). eauto.
  - intros (v & ? & ->). by exists (c, v).
Qed.

Lemma lookup_col_select_rows mask c cols :
  lookup_col c (prod_map id (mask_filter mask) <$> cols) =
    mask_filter mask <$> lookup_col c cols.
Proof. apply lookup_col_prod_map. Qed.

Lemma get_col_select_rows mask c df :
  get_col c (select_rows mask df) = mask_filter mask <$> get_col c df.
Proof.
  unfold get_col, select_rows. simpl. rewrite lookup_col_select_rows.
  by destruct (lookup_col c (columns df)).
Qed.

Lemma index_select_rows_sublist mask df :
  index (select_rows mask df) `sublist_of` index df.
Proof. apply mask_filter_sublist. Qed.

Lemma select_rows_all mask df :
  wf_frame df → length mask = nrows df → Forall (λ b, b = true) mask →
  select_rows mask df = df.
Proof.
  intros Hwf Hm Hall. destruct df as [idx cols].
  unfold select_rows, wf_frame, nrows in *. simpl in *. f_equal.
  - by apply mask_filter_all_true.
  - rewrite <- (list_fmap_id cols) at 2. apply Forall_fmap_ext_1.
    eapply list.Forall_impl; [exact Hwf|]. intros [c v] Hv. simpl in *.
    unfold prod_map. simpl. f_equal. apply mask_filter_all_true; congruence.
Qed.

Lemma select_rows_cell mask df (j i : nat) c :
  wf_frame df → length mask = nrows df → nth_true mask j = Some i →
  cell_at c j (select_rows mask df) = cell_at c i df.
Proof.
  intros Hwf Hm Hi. unfold cell_at, select_rows. cbn [columns].
  rewrite lookup_col_prod_map.
  destruct (lookup_col c (columns df)) as [v|] eqn:Hv; [|done]. simpl.
  rewrite mask_filter_nth, Hi; [done|]. rewrite Hm. symmetry.
  by apply (lookup_col_Forall (λ v, length v = nrows df) c (columns df)).
Qed.

Lemma has_col_select_rows mask c df : has_col c (select_rows mask df) = has_col c df.
Proof. unfold has_col. by rewrite col_names_select_rows. Qed.

Lemma lookup_col_filter (keep : string → bool) c cols :
  keep c = true →
  lookup_col c (filter (λ cv, keep cv.1 = true) cols) = lookup_col c cols.
Proof.
  intros Hk. induction cols as [|[c' v] cols IH]; [done|].
  rewrite filter_cons. cbn [fst lookup_col]. destruct (decide (c' = c)) as [->|Hne].
  - rewrite decide_True by done. simpl. by rewrite decide_True.
  - case_decide; [simpl; by rewrite decide_False|done].
Qed.

Lemma cell_at_filter_cols keep c i df :
  keep c = true → cell_at c i (filter_cols keep df) = cell_at c i df.
Proof. intros Hk. unfold cell_at, filter_cols. cbn [columns]. by rewrite lookup_col_filter. Qed.

Lemma has_col_filter_cols keep c df :
  has_col c (filter_cols keep df) = true → keep c = true ∧ has_col c df = true.
Proof.
  rewrite !has_col_true. unfold col_names, filter_cols. cbn [columns].
  intros ([c' v] & -> & [? ?]%list_elem_of_filter)%list_elem_of_fmap.
  split; [done|]. apply list_elem_of_fmap. by exists (c', v).
Qed.

Lemma cell_at_set_col_eq c v i df : cell_at c i (set_col c v df) = v !! i.
Proof. apply cell_at_get_col, get_set_col_eq. Qed.

Lemma cell_at_set_col_ne c c' v i df :
  c ≠ c' → cell_at c' i (set_col c v df) = cell_at c' i df.
Proof.
  intros Hne. unfold cell_at, set_col. cbn [columns].
  by rewrite lookup_assign_col_ne.
Qed.

Lemma cell_at_is_Some c (i : nat) df :
  wf_frame df → has_col c df = true → (i < nrows df)%nat → is_Some (cell_at c i df).
Proof.
  intros Hwf [v Hv]%get_col_is_Val Hi. rewrite (cell_at_get_col _ _ _ _ Hv).
  apply lookup_lt_is_Some. by rewrite (get_col_length _ _ _ Hwf Hv).
Qed.

(** A row of [df[mask]] is a row of [df] that the mask keeps, with the
    same label and the same cells. *)
Lemma select_rows_row mask df (j : nat) d :
  wf_frame df → length mask = nrows df →
  index (select_rows mask df) !! j = Some d →
  ∃ i, mask !! i = Some true ∧ index df !! i = Some d ∧
    ∀ c, cell_at c j (select_rows mask df) = cell_at c i df.
Proof.
  intros Hwf Hm. unfold select_rows at 1. cbn [index]. rewrite mask_filter_nth by done.
  destruct (nth_true mask j) as [i|] eqn:Hi; [|done]. simpl. intros Hd.
  exists i. split_and!; [by eapply nth_true_lookup | done |].
  intros c. by apply select_rows_cell.
Qed.

Lemma dropna_rows_row df (j : nat) d :
  wf_frame df → index (dropna_rows df) !! j = Some d →
  ∃ i, index df !! i = Some d ∧ ∀ c, cell_at c j (dropna_rows df) = cell_at c i df.
Proof.
  intros Hwf Hd. unfold dropna_rows in *.
  apply select_rows_row in Hd as (i & _ & ? & ?); [eauto | done |].
  by rewrite length_fmap, length_seq.
Qed.

Lemma no_nulls_empty_frame : no_nulls empty_frame.
Proof. constructor. Qed.

(** The rows [dropna] keeps have a value in every column. *)
Lemma dropna_rows_no_nulls df : no_nulls (dropna_rows df).
Proof.
  unfold no_nulls, dropna_rows, select_rows. cbn [columns].
  rewrite Forall_fmap. apply list.Forall_forall. intros [c v] Hin. simpl.
  apply list.Forall_forall. intros x (i & Hm & Hx)%mask_filter_elem.
  rewrite list_lookup_fmap, fmap_Some in Hm. destruct Hm as (k & Hk & Hrow).
  apply lookup_seq in Hk as [-> _]. symmetry in Hrow. simpl in Hrow.
  unfold row_complete in Hrow. rewrite forallb_forall in Hrow.
  specialize (Hrow (c, v)). simpl in Hrow. rewrite Hx in Hrow.
  apply negb_true_iff, Hrow. by apply list_elem_of_In.
Qed.

Lemma lookup_col_app c (l1 l2 : list (string * list cell)) :
  lookup_col c (l1 ++ l2) =
    match lookup_col c l1 with Some v => Some v | None => lookup_col c l2 end.
Proof.
  induction l1 as [|[c' v] l1 IH]; [done|]. simpl. by case_decide.
Qed.

Lemma lookup_col_filter_Some (P : string * list cell → Prop) `{∀ x, Decision (P x)}
    c v (cols : list (string * list cell)) :
  lookup_col c cols = Some v → P (c, v) → lookup_col c (filter P cols) = Some v.
Proof.
  intros Hv HP. induction cols as [|[c' v'] cols IH]; [done|].
  cbn [lookup_col] in Hv. rewrite filter_cons.
  destruct (decide (c' = c)) as [->|Hne].
  - injection Hv as ->. rewrite decide_True by done. simpl. by rewrite decide_True.
  - case_decide; [simpl; rewrite decide_False by done|]; by apply IH.
Qed.

End rows.

(** ** Frames without duplicate column names *)

Section frame_NoDup.
Implicit Types (cols : list (string * list cell)) (df : frame).

Lemma lookup_col_NoDup c v cols :
  NoDup cols.*1 → (c, v) ∈ cols → lookup_col c cols = Some v.
Proof.
  induction cols as [|[c' v'] cols IH]; [by intros _ ?%elem_of_nil|].
  rewrite fmap_cons, NoDup_cons. cbn [fst lookup_col].
  intros [Hn Hnd] [[= -> ->]|Hin]%elem_of_cons; [by rewrite decide_True|].
  rewrite decide_False; [by apply IH|]. intros ->. apply Hn.
  apply list_elem_of_fmap. by exists (c, v).
Qed.

Lemma lookup_col_sub c v cols cols' :
  NoDup cols.*1 → cols' ⊆ cols →
  lookup_col c cols' = Some v → lookup_col c cols = Some v.
Proof.
  intros Hnd Hsub Hv%lookup_col_Some_elem. apply lookup_col_NoDup; [done|].
  by apply Hsub.
Qed.

Lemma lookup_col_rename (f : string → string) c' v cols :
  lookup_col c' (prod_map f id <$> cols) = Some v →
  ∃ c, f c = c' ∧ (c, v) ∈ cols.
Proof.
  intros ([c v0] & [= -> ->] & Hin)%lookup_col_Some_elem%list_elem_of_fmap. eauto.
Qed.

Lemma NoDup_filter_cols keep df :
  NoDup (col_names df) → NoDup (col_names (filter_cols keep df)).
Proof.
  intros Hnd. eapply sublist_NoDup; [exact Hnd|].
  unfold col_names, filter_cols. cbn [columns]. apply fmap_sublist, sublist_filter.
Qed.

Lemma NoDup_dropna_cols df :
  NoDup (col_names df) → NoDup (col_names (dropna_cols df)).
Proof.
  intros Hnd. eapply sublist_NoDup; [exact Hnd|].
  unfold col_names, dropna_cols. cbn [columns]. apply fmap_sublist, sublist_filter.
Qed.

(** Without duplicate names a column of [dropna] is the column of the
    frame. *)
Lemma cell_at_dropna_cols c i df :
  NoDup (col_names df) → has_col c (dropna_cols df) = true →
  has_col c df = true ∧ cell_at c i (dropna_cols df) = cell_at c i df.
Proof.
  intros Hnd [v Hv]%get_col_is_Val. apply get_col_Val in Hv.
  assert (lookup_col c (columns df) = Some v) as Hv'.
  { eapply lookup_col_sub; [done| |done]. intros x [_ ?]%list_elem_of_filter. done. }
  split; [apply get_col_is_Val; exists v; by apply get_col_Val|].
  unfold cell_at. by rewrite Hv, Hv'.
Qed.

(** Without duplicate names a column of the renamed frame is a column of
    the frame whose name is renamed to it. *)
Lemma cell_at_rename_cols f c' df :
  NoDup (col_names df) → has_col c' (rename_cols f df) = true →
  ∃ c, f c = c' ∧ has_col c df = true ∧
    ∀ i, cell_at c' i (rename_cols f df) = cell_at c i df.
Proof.
  intros Hnd [v Hv]%get_col_is_Val. apply get_col_Val in Hv.
  destruct (lookup_col_rename _ _ _ _ Hv) as (c & Hc & Hin).
  pose proof (lookup_col_NoDup _ _ _ Hnd Hin) as Hv'.
  exists c. split_and!; [done|apply get_col_is_Val; exists v; by apply get_col_Val|].
  intros i. unfold cell_at. by rewrite Hv, Hv'.
Qed.

End frame_NoDup.

#[export] Hint Resolve wf_empty_frame wf_set_col wf_set_col_const wf_select_rows
  wf_filter_cols wf_rename_cols wf_dropna_cols wf_dropna_rows : hvac.
#[export] Hint Rewrite index_set_col nrows_set_col col_names_select_rows
  get_set_col_eq : hvac_rw.
