(* ===== verification/Table.v ===== *)
(** * Flat frames

    A frame as [read_csv] and [reset_index] produce it: rows labelled by
    position, the time stamps in an ordinary column called "Timestamp".
    That column is kept apart from the others ([stamps]), already parsed
    to seconds; it is absent ([None]) when the frame has no column of that
    name, which is what [set_index("Timestamp")] and [df["Timestamp"]]
    test.  [body] holds the row labels and every other column.

    [set_index] and [reset_index] move the time stamps between the column
    and the index of a [frame]. *)

From S2P Require Import Prelude Cell Frame.

Record table : Type := Table {
  stamps : option (list Z);
  body : frame
}.

#[export] Instance table_eq_dec : EqDecision table.
Proof. solve_decision. Defined.

(** [pd.RangeIndex(n)]. *)
Definition range_index (n : nat) : list Z := Z.of_nat <$> seq 0 n.

(** [df.shape[0]]. *)
Definition shape0 (t : table) : nat := nrows (body t).

(** [df["Timestamp"]]. *)
Definition get_stamps (t : table) : res (list Z) :=
  from_option Val (Raise KeyError) (stamps t).

(** [df.set_index("Timestamp")]. *)
Definition set_index (t : table) : res frame :=
  ts ← get_stamps t; Val (Frame ts (columns (body t))).

(** [df.reset_index()] of a frame indexed by time stamp. *)
Definition reset_index (df : frame) : table :=
  Table (Some (index df)) (Frame (range_index (nrows df)) (columns df)).

(** [df[mask]]. *)
Definition table_select (mask : list bool) (t : table) : table :=
  Table (mask_filter mask <$> stamps t) (select_rows mask (body t)).

(** The time stamps, when present, and every column have one entry per
    row; no other column is called "Timestamp". *)
Definition wf_table (t : table) : Prop :=
  wf_frame (body t) ∧
  from_option (λ ts, length ts = shape0 t) True (stamps t) ∧
  "Timestamp" ∉ col_names (body t).

#[export] Instance wf_table_dec t : Decision (wf_table t).
Proof. unfold wf_table. destruct (stamps t); simpl; apply _. Defined.

(** ** Lemmas *)

Lemma length_range_index n : length (range_index n) = n.
Proof. unfold range_index. by rewrite length_fmap, length_seq. Qed.

Lemma lookup_range_index n (i : nat) :
  (i < n)%nat → range_index n !! i = Some (Z.of_nat i).
Proof.
  intros. unfold range_index. by rewrite list_lookup_fmap, lookup_seq_lt.
Qed.

Lemma set_index_Val t df :
  set_index t = Val df ↔
    ∃ ts, stamps t = Some ts ∧ df = Frame ts (columns (body t)).
Proof.
  unfold set_index, get_stamps. destruct (stamps t) as [ts|]; simpl.
  - split; [intros [= <-]; eauto | by intros (? & [= <-] & ->)].
  - split; [done | by intros (? & ? & _)].
Qed.

Lemma set_index_Raise t e :
  set_index t = Raise e ↔ stamps t = None ∧ e = KeyError.
Proof.
  unfold set_index, get_stamps. destruct (stamps t); simpl.
  - split; [done | by intros []].
  - split; [by intros [= <-] | by intros [_ ->]].
Qed.

(** The time stamps come back as they went. *)
Lemma set_index_reset_index df : set_index (reset_index df) = Val df.
Proof. by destruct df. Qed.

Lemma shape0_reset_index df : shape0 (reset_index df) = nrows df.
Proof. unfold shape0, reset_index, nrows. simpl. apply length_range_index. Qed.

Lemma columns_set_index t df :
  set_index t = Val df → columns df = columns (body t).
Proof. by intros (ts & _ & ->)%set_index_Val. Qed.

Lemma wf_set_index t df : wf_table t → set_index t = Val df → wf_frame df.
Proof.
  intros (Hb & Hs & _) (ts & Hts & ->)%set_index_Val. rewrite Hts in Hs.
  unfold wf_frame, nrows in *. simpl in *. by rewrite Hs.
Qed.

Lemma wf_reset_index df :
  wf_frame df → "Timestamp" ∉ col_names df → wf_table (reset_index df).
Proof.
  intros Hwf Hn. split_and!; [|by simpl; rewrite shape0_reset_index|done].
  unfold wf_frame, nrows in *. simpl. by rewrite length_range_index.
Qed.

Lemma shape0_table_select mask t :
  shape0 (table_select mask t) = length (mask_filter mask (index (body t))).
Proof. done. Qed.

Lemma wf_table_select mask t :
  wf_table t → length mask = shape0 t → wf_table (table_select mask t).
Proof.
  intros (Hb & Hs & Hn) Hm. split_and!.
  - by apply wf_select_rows.
  - unfold table_select. simpl. destruct (stamps t) as [ts|]; simpl in *; [|done].
    unfold shape0, nrows in *. simpl.
    rewrite !length_mask_filter; [done | by rewrite Hm | by rewrite Hs].
  - simpl. by rewrite col_names_select_rows.
Qed.

Lemma table_select_row mask t l (j : nat) x :
  wf_table t → length mask = shape0 t →
  stamps (table_select mask t) = Some l → l !! j = Some x →
  ∃ i ts, stamps t = Some ts ∧ ts !! i = Some x ∧ mask !! i = Some true ∧
    ∀ c, cell_at c j (body (table_select mask t)) = cell_at c i (body t).
Proof.
  intros (Hwf & Hs & _) Hm. unfold table_select. cbn [stamps body].
  destruct (stamps t) as [ts|]; [|done]. simpl in Hs. intros [= <-].
  rewrite mask_filter_nth by congruence.
  destruct (nth_true mask j) as [i|] eqn:Hi; [|done]. simpl. intros Hx.
  exists i, ts. split_and!; [done | done | by eapply nth_true_lookup |].
  intros c. by apply select_rows_cell.
Qed.
