(* ===== verification/Stats.v ===== *)
(** * Statistics: [statistics.mode], [try_mode] and the bucket aggregations

    The script resamples the thermostat log with [mode] and the load and
    weather logs with the mean; the daily stage uses mean, sum and first.
    This file holds these reductions of one bucket of values to one value.

    [mode] is [statistics.mode] of the Python the script was written for:
    a [Counter] of the data ([counter], keys in order of first
    occurrence), its [most_common()] list (stable sort by decreasing
    count), the leading entries that share the highest count
    ([counts_table], the library's [_counts]) and the value of the only
    entry, or [StatisticsError] when the table has no or several entries.
    Equal values are counted together; this includes the missing value,
    which the theorems about the pipeline keep out of the data.

    [try_mode] is the script's own wrapper.  Its result is a scalar or, on
    one path, the series itself, hence [mode_result]. *)

From S2P Require Import Prelude Cell.

#[local] Open Scope Qc_scope.

Section mode.
Context `{EqDecision A}.
Implicit Types (x y : A) (l : list A) (t : list (A * nat)) (p q : A * nat).

(** How often [x] occurs in [l]. *)
Definition count x l : nat := length (filter (λ y, y = x) l).

(** [Counter(iter(data))]: one more occurrence of [x]; a new key goes to
    the end (dicts keep insertion order). *)
Fixpoint counter_add x t : list (A * nat) :=
  match t with
  | [] => [(x, 1%nat)]
  | (y, n) :: t' =>
      if decide (y = x) then (y, S n) :: t' else (y, n) :: counter_add x t'
  end.

Definition counter l : list (A * nat) := foldl (λ t x, counter_add x t) [] l.

(** [most_common()]: the items sorted by decreasing count; the sort is
    stable, so equal counts stay in insertion order. *)
Fixpoint insert_desc p t : list (A * nat) :=
  match t with
  | [] => [p]
  | q :: t' => if decide (p.2 < q.2)%nat then q :: insert_desc p t' else p :: q :: t'
  end.

Definition most_common t : list (A * nat) := foldr insert_desc [] t.

(** [_counts(data)]: the leading entries of the sorted table whose count
    is that of the first one. *)
Definition counts_table l : list (A * nat) :=
  let table := most_common (counter l) in
  match table with
  | [] => []
  | (_, maxfreq) :: _ => take_while (λ p, p.2 = maxfreq) table
  end.

(** [statistics.mode(data)]. *)
Definition mode l : res A :=
  match counts_table l with
  | [p] => Val p.1
  | _ => Raise StatisticsError
  end.

(** The count stored for [x], zero when [x] is not a key. *)
Fixpoint tally x t : nat :=
  match t with
  | [] => 0
  | (y, n) :: t' => if decide (y = x) then n else tally x t'
  end%nat.

Definition wf_counter t : Prop := NoDup t.*1 ∧ Forall (λ p, 0 < p.2)%nat t.

Definition by_count_desc p q : Prop := (q.2 ≤ p.2)%nat.

(** What [try_mode] returns: a value, or the series it was given. *)
Inductive mode_result : Type :=
  | Scalar (x : A)
  | Unchanged (l : list A).

(** The script's [try_mode]: the mode, and when there is none the first
    value of a series of more than one value, else the series. *)
Definition try_mode l : res mode_result :=
  catch StatisticsError (Scalar <$> mode l)
    (if decide (1 < length l)%nat
     then x0 ← from_option Val (Raise IndexError) (l !! 0%nat); Val (Scalar x0)
     else Val (Unchanged l)).

End mode.

Arguments Scalar {A} x.
Arguments Unchanged {A} l.

(** ** Aggregations of a bucket of cells *)

(** The numbers of a bucket: pandas' reductions skip missing values. *)
Definition num_of (c : cell) : option Qc :=
  match c with CNum q => Some q | _ => None end.
Definition nums (l : list cell) : list Qc := omap num_of l.
Definition qsum (l : list Qc) : Qc := foldr Qcplus 0 l.
Definition qlen (l : list Qc) : Qc := qz (Z.of_nat (length l)).
(** [mean]: missing when the bucket holds no number. *)
Definition agg_mean (l : list cell) : cell :=
  let qs := nums l in
  if decide (qs = []) then CNull else CNum (qsum qs / qlen qs).
(** [sum]: zero when the bucket holds no number. *)
Definition agg_sum (l : list cell) : cell := CNum (qsum (nums l)).
(** [first]: the first value that is not missing. *)
Definition agg_first (l : list cell) : cell :=
  default CNull (head (filter (λ c, is_null c = false) l)).


Section mode_lemmas.
Context `{EqDecision A}.
Implicit Types (x y : A) (l : list A) (t : list (A * nat)) (p q : A * nat).

(** ** Counting *)
Lemma count_nil x : count x [] = 0%nat.
Proof. done. Qed.
Lemma count_cons x y l : count x (y :: l) = ((if decide (y = x) then 1 else 0) + count x l)%nat.
Proof. unfold count. rewrite filter_cons. by case_decide. Qed.
Lemma count_app x l1 l2 : count x (l1 ++ l2) = (count x l1 + count x l2)%nat.
Proof. unfold count. by rewrite filter_app, length_app. Qed.
Lemma count_pos x l : (0 < count x l)%nat ↔ x ∈ l.
Proof.
  induction l as [|y l IH]; [rewrite count_nil, elem_of_nil; lia|].
  rewrite count_cons, elem_of_cons. case_decide; subst; [split; [auto | lia]|].
  rewrite <- IH. split; [intros; right; lia | intros [->|?]; [done | lia]].
Qed.
Lemma count_le_length x l : (count x l ≤ length l)%nat.
Proof. apply length_filter. Qed.
Lemma count_perm x l l' : l ≡ₚ l' → count x l = count x l'.
Proof. intros Hp. unfold count. by rewrite Hp. Qed.

(** ** The counter *)


Lemma tally_counter_add x y t :
  tally y (counter_add x t) = ((if decide (x = y) then 1 else 0) + tally y t)%nat.
Proof.
  induction t as [|[z n] t IH]; simpl; repeat case_decide; simplify_eq/=;
    rewrite ?decide_True, ?decide_False by done; try done; try lia.
  all: rewrite IH; by rewrite ?decide_True, ?decide_False by done.
Qed.

Lemma counter_add_keys x t :
  (counter_add x t).*1 = if decide (x ∈ t.*1) then t.*1 else t.*1 ++ [x].
Proof.
  induction t as [|[y n] t IH]; [done|]. cbn [counter_add].
  destruct (decide (y = x)) as [->|Hne]; rewrite !fmap_cons; cbn [fst].
  - rewrite decide_True; [done | left].
  - rewrite IH. destruct (decide (x ∈ t.*1)).
    + rewrite decide_True; [done | by right].
    + rewrite decide_False; [done|]. rewrite elem_of_cons. by intros [->|?].
Qed.

Lemma wf_counter_add x t : wf_counter t → wf_counter (counter_add x t).
Proof.
  intros [Hnd Hpos]. split.
  - rewrite counter_add_keys. case_decide; [done|].
    apply NoDup_app. split_and!; [done | | apply NoDup_singleton].
    intros y Hy ->%list_elem_of_singleton. done.
  - clear Hnd. induction Hpos as [|[y n] t Hn Hpos IH]; simpl.
    + repeat constructor.
    + case_decide; constructor; simpl in *; auto; lia.
Qed.

Lemma tally_elem_of x n t : NoDup t.*1 → (x, n) ∈ t → tally x t = n.
Proof.
  induction t as [|[y m] t IH]; [by intros _ ?%elem_of_nil|].
  rewrite fmap_cons, NoDup_cons, elem_of_cons. simpl.
  intros [Hy Hnd] [[= -> ->] | Hin]; [by rewrite decide_True|].
  rewrite decide_False; [by apply IH|]. intros ->. apply Hy.
  apply list_elem_of_fmap. by exists (x, n).
Qed.

Lemma elem_of_tally x t : (0 < tally x t)%nat → (x, tally x t) ∈ t.
Proof.
  induction t as [|[y m] t IH]; simpl; [lia|].
  case_decide; subst; [left | right; auto].
Qed.

Lemma counter_snoc l x : counter (l ++ [x]) = counter_add x (counter l).
Proof. unfold counter. by rewrite foldl_app. Qed.

Lemma wf_counter_counter l : wf_counter (counter l).
Proof.
  induction l as [|x l IH] using rev_ind.
  - split; [constructor | constructor].
  - rewrite counter_snoc. by apply wf_counter_add.
Qed.

Lemma tally_counter x l : tally x (counter l) = count x l.
Proof.
  induction l as [|y l IH] using rev_ind; [done|].
  rewrite counter_snoc, tally_counter_add, IH, count_app, count_cons, count_nil.
  case_decide; lia.
Qed.

Lemma elem_of_counter x n l : (x, n) ∈ counter l ↔ x ∈ l ∧ n = count x l.
Proof.
  destruct (wf_counter_counter l) as [Hnd Hpos]. split.
  - intros Hin. pose proof (tally_elem_of _ _ _ Hnd Hin) as Ht.
    rewrite tally_counter in Ht. subst n. split; [|done].
    apply count_pos. rewrite list.Forall_forall in Hpos. apply (Hpos _ Hin).
  - intros [Hx%count_pos ->]. rewrite <- tally_counter.
    apply elem_of_tally. by rewrite tally_counter.
Qed.

(** ** Sorting by frequency *)

Lemma insert_desc_perm p t : insert_desc p t ≡ₚ p :: t.
Proof.
  induction t as [|q t IH]; simpl; [done|]. case_decide; [|done].
  by rewrite IH, Permutation_swap.
Qed.

Lemma most_common_perm t : most_common t ≡ₚ t.
Proof.
  induction t as [|p t IH]; simpl; [done|]. by rewrite insert_desc_perm, IH.
Qed.

Lemma insert_desc_sorted p t :
  StronglySorted by_count_desc t → StronglySorted by_count_desc (insert_desc p t).
Proof.
  induction 1 as [|q t Hs IH Hq]; simpl; [repeat constructor|].
  case_decide as Hpq.
  - constructor; [done|]. rewrite insert_desc_perm. constructor; [|done].
    unfold by_count_desc. lia.
  - constructor; [by constructor|]. constructor; [unfold by_count_desc; lia|].
    eapply list.Forall_impl; [exact Hq|]. unfold by_count_desc. intros; lia.
Qed.

Lemma most_common_sorted t : StronglySorted by_count_desc (most_common t).
Proof. induction t; simpl; [constructor | by apply insert_desc_sorted]. Qed.

Lemma take_while_top (m : nat) t :
  StronglySorted by_count_desc t → Forall (λ p, p.2 ≤ m)%nat t →
  take_while (λ p, p.2 = m) t = filter (λ p, p.2 = m) t.
Proof.
  induction 1 as [|q t Hs IH Hq]; intros Hm; simpl; [done|].
  apply Forall_cons in Hm as [Hqm Hm]. rewrite filter_cons.
  case_decide; [by rewrite IH|].
  symmetry. apply filter_nil_Forall.
  eapply list.Forall_impl; [exact Hq|]. unfold by_count_desc. intros; lia.
Qed.

(** ** The table of modes *)
Lemma elem_of_counts_table x n l :
  (x, n) ∈ counts_table l ↔
    x ∈ l ∧ n = count x l ∧ ∀ y, (count y l ≤ count x l)%nat.
Proof.
  unfold counts_table.
  pose proof (most_common_sorted (counter l)) as Hs.
  pose proof (most_common_perm (counter l)) as Hp.
  destruct (most_common (counter l)) as [|[x0 m] t] eqn:Ht.
  - apply Permutation_nil_l in Hp. rewrite elem_of_nil. split; [done|].
    intros (Hx & -> & _). assert ((x, count x l) ∈ counter l) as Hin
      by by apply elem_of_counter.
    rewrite <- Hp in Hin. by apply elem_of_nil in Hin.
  - assert (Forall (λ p, p.2 ≤ m)%nat ((x0, m) :: t)) as Hm.
    { apply StronglySorted_inv in Hs as [_ Hle]. constructor; [done|].
      eapply list.Forall_impl; [exact Hle|]. by unfold by_count_desc. }
    rewrite take_while_top, list_elem_of_filter, Hp, elem_of_counter by done.
    assert ((x0, m) ∈ counter l) as [Hx0 ->]%elem_of_counter
      by (rewrite <- Hp; left).
    rewrite list.Forall_forall in Hm. simpl. split.
    + intros (Hn & Hx & ->). split_and!; [done..|]. intros y.
      destruct (decide (y ∈ l)) as [Hy|Hy].
      * assert ((y, count y l) ∈ (x0, count x0 l) :: t) as Hin
          by (rewrite Hp; by apply elem_of_counter).
        apply Hm in Hin. simpl in Hin. lia.
      * assert (count y l = 0)%nat; [|lia].
        destruct (count y l) eqn:E; [done|]. destruct Hy. apply count_pos. lia.
    + intros (Hx & -> & Hmax). split_and!; [|done..].
      assert ((x, count x l) ∈ (x0, count x0 l) :: t) as Hin
        by (rewrite Hp; by apply elem_of_counter).
      apply Hm in Hin. simpl in Hin. specialize (Hmax x0). lia.
Qed.

Lemma counts_table_NoDup l : NoDup (counts_table l).
Proof.
  assert (NoDup (most_common (counter l))) as Hnd.
  { rewrite most_common_perm. eapply NoDup_fmap_1, wf_counter_counter. }
  unfold counts_table. destruct (most_common (counter l)) as [|[x0 m] t] eqn:Ht;
    [constructor|].
  pose proof (most_common_sorted (counter l)) as Hs. rewrite Ht in Hs.
  rewrite take_while_top; [by apply NoDup_filter | done |].
  apply StronglySorted_inv in Hs as [_ Hle]. constructor; [done|].
  eapply list.Forall_impl; [exact Hle|]. by unfold by_count_desc.
Qed.

(** [mode] returns [x] exactly when [x] occurs in the data strictly more
    often than every other value. *)
Theorem mode_Val l x :
  mode l = Val x ↔ x ∈ l ∧ ∀ y, y ≠ x → (count y l < count x l)%nat.
Proof.
  unfold mode. split.
  - destruct (counts_table l) as [|[x' n] [|]] eqn:Ht; try done.
    intros [= <-]. simpl.
    assert ((x', n) ∈ counts_table l) as (Hx & -> & Hmax)%elem_of_counts_table
      by (rewrite Ht; left).
    split; [done|]. intros y Hy.
    destruct (decide (count y l = count x' l)) as [Heq|Hne];
      [|specialize (Hmax y); lia].
    assert ((y, count y l) ∈ counts_table l) as Hin.
    { apply elem_of_counts_table. split_and!; [|done|].
      - apply count_pos. rewrite Heq. by apply count_pos.
      - intros z. rewrite Heq. apply Hmax. }
    rewrite Ht in Hin. apply list_elem_of_singleton in Hin. by simplify_eq.
  - intros [Hx Hmax].
    assert (counts_table l = [(x, count x l)]) as ->; [|done].
    apply NoDup_singleton_iff; [apply counts_table_NoDup|]. split.
    + apply elem_of_counts_table. split_and!; [done..|]. intros y.
      destruct (decide (y = x)) as [->|Hy]; [done|]. specialize (Hmax y Hy). lia.
    + intros [y n] (Hy & -> & Hm)%elem_of_counts_table.
      destruct (decide (y = x)) as [->|Hne]; [done|].
      specialize (Hmax y Hne). specialize (Hm x). lia.
Qed.

Lemma mode_Raise l e : mode l = Raise e → e = StatisticsError.
Proof. unfold mode. repeat case_match; by intros [= <-]. Qed.

Lemma mode_nil : mode (@nil A) = Raise StatisticsError.
Proof. done. Qed.

Lemma mode_elem_of l x : mode l = Val x → x ∈ l.
Proof. by intros [? _]%mode_Val. Qed.

Lemma count_replicate_eq n x : count x (replicate n x) = n.
Proof.
  induction n as [|n IH]; [done|]. simpl.
  by rewrite count_cons, decide_True, IH.
Qed.

Lemma count_replicate_ne n x y : y ≠ x → count y (replicate n x) = 0%nat.
Proof.
  intros Hne. induction n as [|n IH]; [done|]. simpl.
  by rewrite count_cons, decide_False, IH.
Qed.

Lemma count_two_le x y l : x ≠ y → (count x l + count y l ≤ length l)%nat.
Proof.
  intros Hne. induction l as [|z l IH]; [done|].
  rewrite !count_cons. simpl. repeat case_decide; simplify_eq; lia.
Qed.

Lemma count_NoDup x l : NoDup l → (count x l ≤ 1)%nat.
Proof.
  induction 1 as [|y l Hy _ IH]; [rewrite count_nil; lia|]. rewrite count_cons.
  case_decide; subst; [|lia].
  assert (count x l = 0)%nat; [|lia].
  destruct (count x l) eqn:E; [done|]. destruct Hy. apply count_pos. lia.
Qed.

(** A value that fills more than half of the data is its mode. *)
Theorem mode_majority l x : (length l < 2 * count x l)%nat → mode l = Val x.
Proof.
  intros Hx. apply mode_Val. split; [apply count_pos; lia|].
  intros y Hy. pose proof (count_two_le y x l Hy). lia.
Qed.

Lemma mode_replicate n x : (0 < n)%nat → mode (replicate n x) = Val x.
Proof.
  intros Hn. apply mode_majority. rewrite count_replicate_eq, length_replicate. lia.
Qed.

Lemma mode_singleton x : mode [x] = Val x.
Proof. apply (mode_replicate 1). lia. Qed.

(** Two values that are both most common: no unique mode. *)
Theorem mode_tie l x y :
  x ≠ y → x ∈ l → count x l = count y l → (∀ z, count z l ≤ count x l)%nat →
  mode l = Raise StatisticsError.
Proof.
  intros Hne Hx Heq Hmax. destruct (mode l) as [z|e] eqn:Hm;
    [|by apply mode_Raise in Hm as ->].
  apply mode_Val in Hm as [Hz Hlt].
  destruct (decide (x = z)) as [->|Hxz].
  - specialize (Hlt y). rewrite <- Heq in Hlt. assert (y ≠ z) by done.
    specialize (Hlt ltac:(done)). lia.
  - specialize (Hlt x Hxz). specialize (Hmax z). lia.
Qed.

(** When all values are distinct and there are at least two, every value
    is most common and [mode] raises. *)
Theorem mode_NoDup l : NoDup l → (2 ≤ length l)%nat → mode l = Raise StatisticsError.
Proof.
  intros Hnd Hlen. destruct l as [|x [|y l]]; simpl in Hlen; try lia.
  pose proof (count_NoDup x _ Hnd) as Hcx.
  assert (count x (x :: y :: l) = 1)%nat as Hx1.
  { rewrite count_cons, decide_True in * by done. lia. }
  apply (mode_tie _ x y).
  - apply NoDup_cons in Hnd as [Hn _]. intros ->. apply Hn. left.
  - left.
  - rewrite Hx1. pose proof (count_NoDup y _ Hnd).
    assert (0 < count y (x :: y :: l))%nat by (apply count_pos; right; left). lia.
  - intros z. rewrite Hx1. by apply count_NoDup.
Qed.

(** The mode does not depend on the order of the values. *)
Lemma mode_perm l l' : l ≡ₚ l' → mode l = mode l'.
Proof.
  intros Hp. destruct (mode l) as [x|e] eqn:Hl, (mode l') as [x'|e'] eqn:Hl'.
  - apply mode_Val in Hl as [Hx Hlt], Hl' as [Hx' Hlt'].
    destruct (decide (x = x')) as [->|Hne]; [done|].
    specialize (Hlt x' ltac:(done)). specialize (Hlt' x Hne).
    rewrite (count_perm x l l' Hp), (count_perm x' l l' Hp) in Hlt. lia.
  - apply mode_Val in Hl as [Hx Hlt]. rewrite <- Hl'. symmetry.
    apply mode_Val. rewrite <- Hp. split; [done|]. intros y Hy.
    rewrite <- !(count_perm _ l l' Hp). auto.
  - apply mode_Val in Hl' as [Hx Hlt]. rewrite <- Hl.
    apply mode_Val. rewrite Hp. split; [done|]. intros y Hy.
    rewrite !(count_perm _ l l' Hp). auto.
  - apply mode_Raise in Hl as ->, Hl' as ->. done.
Qed.

(** ** [try_mode] *)


Lemma try_mode_mode l x : mode l = Val x → try_mode l = Val (Scalar x).
Proof. unfold try_mode. by intros ->. Qed.

Lemma try_mode_fallback l :
  mode l = Raise StatisticsError →
  try_mode l = match l with
               | x0 :: _ :: _ => Val (Scalar x0)
               | _ => Val (Unchanged l)
               end.
Proof.
  unfold try_mode. intros ->. cbn [fmap res_fmap]. rewrite catch_Raise_same.
  destruct l as [|x0 [|x1 l]]; case_decide; simpl in *; try done; lia.
Qed.

(** try_mode returns on every input: it never raises. *)
Theorem try_mode_total l : is_Val (try_mode l).
Proof.
  destruct (mode l) as [x|e] eqn:Hm.
  - rewrite (try_mode_mode _ _ Hm). apply is_Val_Val.
  - pose proof (mode_Raise _ _ Hm) as ->. rewrite (try_mode_fallback _ Hm).
    destruct l as [|x0 [|x1 l]]; apply is_Val_Val.
Qed.

(** C31: try_mode returns its argument unchanged only for empty data: a
    single value is its own mode, so the else branch of the fallback is
    reached only when there is nothing to return. *)
Theorem try_mode_Unchanged l l' : try_mode l = Val (Unchanged l') ↔ l = [] ∧ l' = [].
Proof.
  split; [|by intros [-> ->]].
  destruct (mode l) as [x|e] eqn:Hm.
  - by rewrite (try_mode_mode _ _ Hm).
  - pose proof (mode_Raise _ _ Hm) as ->. rewrite (try_mode_fallback _ Hm).
    destruct l as [|x0 [|x1 l]]; try done. by intros [= <-].
Qed.

(** A value try_mode returns is one of the values it was given. *)
Theorem try_mode_Scalar l x : try_mode l = Val (Scalar x) → x ∈ l.
Proof.
  destruct (mode l) as [y|e] eqn:Hm.
  - rewrite (try_mode_mode _ _ Hm). intros [= <-]. by apply mode_elem_of.
  - pose proof (mode_Raise _ _ Hm) as ->. rewrite (try_mode_fallback _ Hm).
    destruct l as [|x0 [|x1 l]]; try done. intros [= <-]. left.
Qed.
End mode_lemmas.

(** ** Sums and means *)

Lemma qz_add a b : qz (a + b) = qz a + qz b.
Proof. unfold qz. apply Qc_is_canon. simpl. rewrite !Qred_correct. unfold inject_Z, Qplus, Qeq. simpl. lia. Qed.

Lemma qlen_nil : qlen [] = 0.
Proof. by apply Qc_is_canon. Qed.

Lemma qlen_cons q l : qlen (q :: l) = 1 + qlen l.
Proof. unfold qlen. simpl length. rewrite Nat2Z.inj_succ, <- Z.add_1_l. by rewrite qz_add. Qed.

Lemma qlen_pos l : l ≠ [] → 0 < qlen l.
Proof.
  destruct l as [|q l]; [done|]. intros _. unfold qlen.
  qc_norm. unfold Qlt. simpl. lia.
Qed.

Lemma qsum_app l1 l2 : qsum (l1 ++ l2) = qsum l1 + qsum l2.
Proof. induction l1 as [|q l1 IH]; simpl; [ring | rewrite IH; ring]. Qed.

Lemma qsum_lower lo l : Forall (λ q, lo ≤ q) l → lo * qlen l ≤ qsum l.
Proof.
  induction 1 as [|q l Hq _ IH]; [rewrite qlen_nil; simpl; qc_lra|].
  rewrite qlen_cons. simpl. 
  replace (lo * (1 + qlen l)) with (lo + lo * qlen l) by ring.
  by apply Qcplus_le_compat.
Qed.

Lemma qsum_upper hi l : Forall (λ q, q ≤ hi) l → qsum l ≤ hi * qlen l.
Proof.
  induction 1 as [|q l Hq _ IH]; [rewrite qlen_nil; simpl; qc_lra|].
  rewrite qlen_cons. simpl. 
  replace (hi * (1 + qlen l)) with (hi + hi * qlen l) by ring.
  by apply Qcplus_le_compat.
Qed.

Lemma mean_mul_len l : l ≠ [] → qsum l / qlen l * qlen l = qsum l.
Proof.
  intros Hl%qlen_pos. field. intros Hz. rewrite Hz in Hl. revert Hl. qc_lra.
Qed.

Lemma agg_mean_bounds lo hi l :
  nums l ≠ [] → Forall (λ q, lo ≤ q ∧ q ≤ hi) (nums l) →
  ∃ m, agg_mean l = CNum m ∧ lo ≤ m ∧ m ≤ hi.
Proof.
  intros Hne Hb. unfold agg_mean. rewrite decide_False by done.
  eexists. split; [done|]. pose proof (qlen_pos _ Hne) as Hpos.
  split; apply (Qcmult_le_mono_pos_r _ _ _ Hpos); rewrite mean_mul_len by done.
  - apply qsum_lower. eapply list.Forall_impl; [done|]. by intros ? [? ?].
  - apply qsum_upper. eapply list.Forall_impl; [done|]. by intros ? [? ?].
Qed.

(** ** The contract of [mode] *)

Section mode_contract.
Context `{EqDecision A}.
Implicit Types (x y : A) (l : list A).

(** [x] occurs in [l] more often than every other value. *)
Definition unique_mode l x : Prop :=
  x ∈ l ∧ ∀ y, y ≠ x → (count y l < count x l)%nat.

(** C4: [mode] returns the value that occurs more often than every
    other one, and raises [StatisticsError] exactly when there is no such
    value. *)
Theorem mode_spec l :
  match mode l with
  | Val x => unique_mode l x
  | Raise e => e = StatisticsError ∧ ∀ x, ¬ unique_mode l x
  end.
Proof.
  destruct (mode l) as [x|e] eqn:E.
  - by apply mode_Val.
  - split; [by eapply mode_Raise|]. intros x Hx%mode_Val. congruence.
Qed.

End mode_contract.

(** * Examples *)

Lemma mode_NoDup_witness : mode [1; 2]%nat = Raise StatisticsError.
Proof. apply (mode_NoDup [1; 2]%nat); [by_compute | simpl; lia]. Defined.

Lemma mode_perm_witness : mode [1; 2; 1]%nat = mode [1; 1; 2]%nat.
Proof. apply (mode_perm [1; 2; 1]%nat [1; 1; 2]%nat), perm_skip, perm_swap. Defined.

Lemma try_mode_Scalar_witness : (1 ∈ [1; 2])%nat.
Proof. apply (try_mode_Scalar [1; 2]%nat 1%nat). by_compute. Defined.
