(* ===== verification/Timestamps.v ===== *)
(** * Time stamps, time buckets and the analysis window

    A time stamp is an integer number of seconds.  [floor_to w t] is the
    start of the bucket of width [w] that holds [t] (pandas'
    [Timestamp.floor]), [date_range lo hi w] the regular grid from [lo] up
    to [hi] ([pd.date_range], both ends included).

    The run parameters of the script ([YEAR], [MONTH], [DAYS_IN_MONTH],
    [start_time], [end_time], [time_res]) are the script's globals, as
    strings where the script has strings.  pandas compares a time stamp
    with such a string by parsing the string ([to_datetime]; a date
    without a time of day is midnight at the start of that day).

    The conversion of the logs from UTC to local wall-clock time goes
    through the interface [TimeZone]; [us_central] is the rule of the
    zone the script names, for the instants of one civil year. *)

From Stdlib Require Import Ascii.
From stdpp Require Import pretty.
From S2P Require Import Prelude.

(** ** Units *)

Definition minute : Z := 60.
Definition hour : Z := 3600.
Definition day : Z := 86400.

(** [time_res = "1H"]. *)
Definition time_res : Z := hour.

(** ** Buckets and grids *)

Definition floor_to (w t : Z) : Z := w * (t `div` w).

Definition date_range (lo hi w : Z) : list Z :=
  (λ k, lo + w * k) <$> seqZ 0 ((hi - lo) `div` w + 1).

(** ** Dates *)

(** Days from 1970-01-01 to the civil date [y]-[m]-[d] of the proleptic
    Gregorian calendar. *)
Definition days_from_civil (y m d : Z) : Z :=
  let y := if bool_decide (m ≤ 2) then y - 1 else y in
  let era := y `div` 400 in
  let yoe := y - era * 400 in
  let mp := if bool_decide (2 < m) then m - 3 else m + 9 in
  let doy := (153 * mp + 2) `div` 5 + d - 1 in
  let doe := yoe * 365 + yoe `div` 4 - yoe `div` 100 + doy in
  era * 146097 + doe - 719468.

(** Day of the week of a day number, 0 for Sunday. *)
Definition weekday (days : Z) : Z := (days + 4) `mod` 7.

Definition digit_of (a : ascii) : option Z :=
  let n := Z.of_N (N_of_ascii a) in
  if bool_decide (48 ≤ n ≤ 57) then Some (n - 48) else None.

Fixpoint parse_digits (acc : Z) (s : string) : option Z :=
  match s with
  | EmptyString => Some acc
  | String a s' => d ← digit_of a; parse_digits (10 * acc + d) s'
  end.

Definition parse_nat (s : string) : option Z :=
  match s with EmptyString => None | _ => parse_digits 0 s end.

Fixpoint split_on (sep : ascii) (s : string) : list string :=
  match s with
  | EmptyString => [EmptyString]
  | String a s' =>
      if decide (a = sep) then EmptyString :: split_on sep s'
      else match split_on sep s' with
           | [] => [String a EmptyString]
           | w :: ws => String a w :: ws
           end
  end.

Definition is_leap (y : Z) : bool :=
  bool_decide (y `mod` 4 = 0) &&
  (negb (bool_decide (y `mod` 100 = 0)) || bool_decide (y `mod` 400 = 0)).

Definition days_in_month (y m : Z) : Z :=
  if bool_decide (m = 2) then (if is_leap y then 29 else 28)
  else if bool_decide (m ∈ [4; 6; 9; 11]) then 30 else 31.

(** A date written year-month-day, as a day number. *)
Definition parse_date (s : string) : option Z :=
  match split_on "-"%char s with
  | [y; m; d] =>
      y ← parse_nat y; m ← parse_nat m; d ← parse_nat d;
      if bool_decide (1 ≤ m ≤ 12 ∧ 1 ≤ d ≤ days_in_month y m)
      then Some (days_from_civil y m d) else None
  | _ => None
  end.

(** A time of day written hour:minute or hour:minute:second, in
    seconds. *)
Definition parse_time (s : string) : option Z :=
  match split_on ":"%char s with
  | [h; m] =>
      h ← parse_nat h; m ← parse_nat m;
      if bool_decide (h < 24 ∧ m < 60) then Some (h * hour + m * minute) else None
  | [h; m; s] =>
      h ← parse_nat h; m ← parse_nat m; s ← parse_nat s;
      if bool_decide (h < 24 ∧ m < 60 ∧ s < 60)
      then Some (h * hour + m * minute + s) else None
  | _ => None
  end.

(** [pd.to_datetime] of a time stamp written as a date, or as a date, a
    blank and a time of day; a date alone is midnight at the start of
    that day. *)
Definition to_datetime (s : string) : res Z :=
  match split_on " "%char s with
  | [d] => from_option (λ d, Val (day * d)) (Raise ValueError) (parse_date d)
  | [d; t] =>
      match parse_date d, parse_time t with
      | Some d, Some t => Val (day * d + t)
      | _, _ => Raise ValueError
      end
  | _ => Raise ValueError
  end.

(** ** The run parameters *)

Definition YEAR : string := "2019".
Definition MONTH : string := "09".
Definition DAYS_IN_MONTH : nat := 30.

Definition start_time : string := YEAR +:+ "-" +:+ MONTH +:+ "-01".
Definition end_time : string :=
  YEAR +:+ "-" +:+ MONTH +:+ "-" +:+ pretty DAYS_IN_MONTH.

(** [(t >= lo) & (t <= hi)] for one time stamp; a missing time stamp
    (NaT) compares false. *)
Definition between (lo hi : Z) (t : option Z) : bool :=
  match t with
  | Some t => bool_decide (lo ≤ t) && bool_decide (t ≤ hi)
  | None => false
  end.

(** [(df["Timestamp"] >= start_time) & (df["Timestamp"] <= end_time)]. *)
Definition in_window (start_time end_time : string) (ts : list (option Z))
    : res (list bool) :=
  lo ← to_datetime start_time;
  hi ← to_datetime end_time;
  Val (between lo hi <$> ts).

(** ** Time zones *)

(** What a zone provides: the offset, in seconds, of its wall clock from
    UTC at a UTC instant. *)
Class TimeZone := { utc_offset : Z → Z }.

(** [tz_localize("UTC")], [tz_convert(zone)], [tz_localize(None)]: the
    wall-clock reading of the zone, kept as a naive time stamp. *)
Definition to_local `{TimeZone} (t : Z) : Z := t + utc_offset t.

(** The first Sunday of month [m] of year [y], as a day number. *)
Definition first_sunday (y m : Z) : Z :=
  let d1 := days_from_civil y m 1 in
  d1 + (7 - weekday d1) `mod` 7.

(** United States daylight saving time of year [y] (the rule in force
    since 2007), in UTC seconds for the Central zone: from 02:00 standard
    time on the second Sunday of March to 02:00 daylight time on the first
    Sunday of November. *)
Definition dst_start (y : Z) : Z := day * (first_sunday y 3 + 7) + 8 * hour.
Definition dst_end (y : Z) : Z := day * first_sunday y 11 + 7 * hour.

(** US/Central for the instants of civil year [y]. *)
Definition us_central (y : Z) : TimeZone :=
  {| utc_offset t :=
       if bool_decide (dst_start y ≤ t < dst_end y) then -5 * hour else -6 * hour |}.

(** ** Automation *)

Ltac lia_div := unfold floor_to in *; Z.div_mod_to_equations; nia.

(** ** Buckets *)

Lemma seq_sorted s n : StronglySorted lt (seq s n).
Proof.
  revert s. induction n as [|n IH]; intros s; simpl; constructor; [apply IH|].
  apply list.Forall_forall. intros x Hx%elem_of_seq. lia.
Qed.

Lemma seqZ_sorted m n : StronglySorted Z.lt (seqZ m n).
Proof.
  unfold seqZ. apply StronglySorted_fmap with (R1 := lt); [intros; lia|].
  apply seq_sorted.
Qed.

Section floor.
Context (w : Z) (Hw : 0 < w).
Implicit Types (t : Z).

Lemma floor_to_bounds t : floor_to w t ≤ t < floor_to w t + w.
Proof. lia_div. Qed.

Lemma floor_to_unique t b k : b = w * k → b ≤ t < b + w → floor_to w t = b.
Proof.
  intros -> ?. unfold floor_to. f_equal. symmetry.
  apply (Z.div_unique _ _ _ (t - w * k)); lia.
Qed.

Lemma floor_to_divide t : (w | floor_to w t).
Proof. exists (t `div` w). unfold floor_to. lia. Qed.

Lemma floor_to_fixed t : floor_to w t = t ↔ (w | t).
Proof.
  split.
  - intros <-. apply floor_to_divide.
  - intros [k ->]. unfold floor_to. rewrite Z.div_mul by lia. lia.
Qed.

Lemma floor_to_idemp t : floor_to w (floor_to w t) = floor_to w t.
Proof. apply floor_to_fixed, floor_to_divide. Qed.

Lemma floor_to_mono t t' : t ≤ t' → floor_to w t ≤ floor_to w t'.
Proof.
  intros. unfold floor_to. apply Z.mul_le_mono_nonneg_l; [lia|].
  by apply Z.div_le_mono.
Qed.

Lemma floor_to_add t k : floor_to w (t + w * k) = floor_to w t + w * k.
Proof. unfold floor_to. rewrite (Z.mul_comm w k), Z.div_add by lia. lia. Qed.

(** Two instants share a bucket exactly when neither reaches the other's
    bucket end. *)
Lemma floor_to_same t t' :
  floor_to w t = floor_to w t' ↔ floor_to w t ≤ t' < floor_to w t + w.
Proof.
  split.
  - intros ->. apply floor_to_bounds.
  - intros H. symmetry. by apply (floor_to_unique _ _ (t `div` w)).
Qed.

(** Flooring to a finer grid first does not change the coarse bucket. *)
Lemma floor_to_coarser w' t :
  0 < w' → (w | w') → floor_to w' (floor_to w t) = floor_to w' t.
Proof.
  intros Hw' [k ->]. assert (0 < k) by nia.
  unfold floor_to. f_equal. rewrite (Z.mul_comm k w), <- !Z.div_div by lia.
  f_equal. rewrite Z.mul_comm, Z.div_mul by lia. done.
Qed.

Lemma elem_of_date_range lo hi t :
  t ∈ date_range lo hi w ↔ ∃ k, 0 ≤ k ∧ t = lo + w * k ∧ t ≤ hi.
Proof.
  unfold date_range. rewrite list_elem_of_fmap. split.
  - intros (k & -> & Hk%elem_of_seqZ). exists k. split_and!; [lia | done |].
    lia_div.
  - intros (k & Hk & -> & Hle). exists k. split; [done|].
    apply elem_of_seqZ. lia_div.
Qed.

Lemma length_date_range lo hi :
  length (date_range lo hi w) = Z.to_nat ((hi - lo) `div` w + 1).
Proof. unfold date_range. by rewrite length_fmap, length_seqZ. Qed.

Lemma lookup_date_range lo hi (i : nat) t :
  date_range lo hi w !! i = Some t ↔ t = lo + w * Z.of_nat i ∧ t ≤ hi.
Proof.
  unfold date_range. rewrite list_lookup_fmap, fmap_Some. split.
  - intros (k & [-> Hk]%lookup_seqZ & ->). split; [lia|]. lia_div.
  - intros [-> Hle]. exists (Z.of_nat i). split; [|lia].
    apply lookup_seqZ. split; [lia|]. lia_div.
Qed.

Lemma date_range_sorted lo hi : StronglySorted Z.lt (date_range lo hi w).
Proof.
  unfold date_range.
  apply StronglySorted_fmap with (R1 := Z.lt); [intros; nia|].
  apply seqZ_sorted.
Qed.

Lemma date_range_nil lo hi : date_range lo hi w = [] ↔ hi < lo.
Proof.
  rewrite <- length_zero_iff_nil, length_date_range. split; intros; lia_div.
Qed.

Lemma date_range_NoDup lo hi : NoDup (date_range lo hi w).
Proof.
  unfold date_range.
  assert (Inj eq eq (λ k, lo + w * k)) by (intros x y ?; nia).
  apply (NoDup_fmap_2 _), NoDup_seqZ.
Qed.

Lemma date_range_head lo hi : lo ≤ hi → head (date_range lo hi w) = Some lo.
Proof.
  intros. rewrite head_lookup, lookup_date_range. lia.
Qed.

(** A grid that starts on a bucket boundary lies on bucket boundaries. *)
Lemma date_range_on_grid lo hi t :
  (w | lo) → t ∈ date_range lo hi w → floor_to w t = t.
Proof.
  intros [j ->] (k & _ & -> & _)%elem_of_date_range.
  apply floor_to_fixed. exists (j + k). lia.
Qed.

End floor.

(** ** Dates *)

Lemma days_from_civil_epoch : days_from_civil 1970 1 1 = 0.
Proof. done. Qed.

Lemma days_from_civil_next_day y m d :
  days_from_civil y m (d + 1) = days_from_civil y m d + 1.
Proof. unfold days_from_civil. lia. Qed.

Lemma weekday_range n : 0 ≤ weekday n < 7.
Proof. unfold weekday. lia_div. Qed.

Lemma first_sunday_is_sunday y m : weekday (first_sunday y m) = 0.
Proof. unfold first_sunday, weekday. generalize (days_from_civil y m 1). intros. lia_div. Qed.

Lemma first_sunday_first_week y m :
  days_from_civil y m 1 ≤ first_sunday y m < days_from_civil y m 1 + 7.
Proof. unfold first_sunday. lia_div. Qed.

(** ** The analysis window of the script *)

Lemma start_time_eq : start_time = "2019-09-01".
Proof. done. Qed.

Lemma end_time_eq : end_time = "2019-09-30".
Proof. done. Qed.

Lemma to_datetime_start : to_datetime start_time = Val 1567296000.
Proof. by vm_compute. Qed.

Lemma to_datetime_end : to_datetime end_time = Val 1569801600.
Proof. by vm_compute. Qed.

Lemma in_window_script ts :
  in_window start_time end_time ts = Val (between 1567296000 1569801600 <$> ts).
Proof. unfold in_window. by rewrite to_datetime_start, to_datetime_end. Qed.

Lemma in_window_length s e ts mask :
  in_window s e ts = Val mask → length mask = length ts.
Proof.
  unfold in_window. intros (lo & _ & (hi & _ & [= <-])%bind_Val)%bind_Val.
  apply length_fmap.
Qed.

Lemma to_datetime_Raise s x : to_datetime s = Raise x → x = ValueError.
Proof.
  unfold to_datetime.
  destruct (split_on _ s) as [|d [|t [|]]]; simpl; try by intros [= <-].
  - destruct (parse_date d); simpl; by intros [= <-].
  - destruct (parse_date d), (parse_time t); by intros [= <-].
Qed.

Lemma in_window_Raise s e ts x : in_window s e ts = Raise x → x = ValueError.
Proof.
  unfold in_window. rewrite bind_Raise.
  intros [H | (lo & _ & H)]; [by eapply to_datetime_Raise|].
  rewrite bind_Raise in H.
  destruct H as [H | (hi & _ & H)]; [by eapply to_datetime_Raise | done].
Qed.

Lemma between_true lo hi t :
  between lo hi t = true ↔ ∃ z, t = Some z ∧ lo ≤ z ≤ hi.
Proof.
  destruct t as [z|]; simpl; [|naive_solver].
  rewrite andb_true_iff, !bool_decide_eq_true. naive_solver lia.
Qed.

(** The window ends at midnight at the start of the last day: it spans 29
    days, and no reading of the last day after 00:00:00 is inside. *)
Lemma window_span : 1569801600 - 1567296000 = 29 * day.
Proof. done. Qed.

(** C32: With start_time and end_time as the script builds them, no
    reading of the last day of the month after 00:00:00 is inside the
    window. *)
Theorem last_day_outside s :
  0 < s → in_window start_time end_time [Some (1569801600 + s)] = Val [false].
Proof.
  intros Hs. rewrite in_window_script. simpl. do 2 f_equal.
  rewrite (bool_decide_eq_false_2 (_ ≤ 1569801600)) by lia.
  apply andb_false_r.
Qed.

(** ** US/Central in the year of the data *)

Lemma dst_2019 : dst_start 2019 = 1552204800 ∧ dst_end 2019 = 1572764400.
Proof. by vm_compute. Qed.

(** During daylight saving time the local clock is five hours behind
    UTC, otherwise six. *)
Lemma us_central_offset y t :
  @utc_offset (us_central y) t = -18000 ∨ @utc_offset (us_central y) t = -21600.
Proof. simpl. case_bool_decide; [by left | by right]. Qed.


(** * Examples *)

Lemma floor_to_coarser_witness :
  floor_to hour (floor_to minute 4000) = floor_to hour 4000.
Proof.
  apply (floor_to_coarser minute); [done | done | by exists 60].
Defined.

Lemma floor_to_same_witness :
  floor_to hour 4000 = floor_to hour 7199 ↔
    floor_to hour 4000 ≤ 7199 < floor_to hour 4000 + hour.
Proof. apply (floor_to_same hour). done. Defined.

Lemma last_day_outside_witness :
  in_window start_time end_time [Some (1569801600 + 1)] = Val [false].
Proof. apply (last_day_outside 1). done. Defined.

