(* ===== verification/DegreeDays.v ===== *)
(** * Degree days: [calc_degree_days]

    [calc_degree_days df zone] adds to the merged hourly frame the cooling
    and heating degree columns of one zone,
    [cdd_z = max(amb_temp - csp_z, 0)] and [hdd_z = max(hsp_z - amb_temp, 0)],
    or returns [None] when a set-point column of the zone is absent.  The
    model follows the function statement by statement; [degree_day] and
    [with_degree_days] are its specification, and the theorems relate the
    two in both directions. *)

From stdpp Require Import pretty.
From S2P Require Import Prelude Cell Frame.

#[local] Open Scope Qc_scope.
#[local] Set Warnings "-clear-no-such-hyp".

(** ["hsp_{}".format(zone)] and its siblings. *)
Definition zone_col (prefix : string) (zone : nat) : string :=
  prefix +:+ pretty zone.

Definition calc_degree_days (df : frame) (zone : nat) : res (option frame) :=
  let h_col := zone_col "hsp_" zone in
  let c_col := zone_col "csp_" zone in
  if negb (has_col h_col df) || negb (has_col c_col df) then Val None
  else
    amb ← get_col "amb_temp" df;
    csp ← get_col c_col df;
    d ← series_sub amb csp;
    let df := set_col (zone_col "cdd_" zone) d df in
    hsp ← get_col h_col df;
    amb ← get_col "amb_temp" df;
    d ← series_sub hsp amb;
    let df := set_col (zone_col "hdd_" zone) d df in
    x ← get_col (zone_col "cdd_" zone) df;
    x ← series_apply py_max0 x;
    let df := set_col (zone_col "cdd_" zone) x df in
    y ← get_col (zone_col "hdd_" zone) df;
    y ← series_apply py_max0 y;
    let df := set_col (zone_col "hdd_" zone) y df in
    Val (Some df).

(** ** Specification *)

(** The difference of two readings, missing when one of them is. *)
Definition sub_num (a b : cell) : cell :=
  match a, b with
  | CNum x, CNum y => CNum (x - y)
  | _, _ => CNull
  end.

(** Negative numbers become zero. *)
Definition clamp0 (c : cell) : cell :=
  match c with
  | CNum x => CNum (if decide (x < 0) then 0 else x)
  | _ => CNull
  end.

(** [max(hi - lo, 0)]. *)
Definition degree_day (hi lo : cell) : cell := clamp0 (sub_num hi lo).

(** The frame with the two degree-day columns of zone [z], computed from
    the ambient temperature and the two set-point series. *)
Definition with_degree_days (z : nat) (amb csp hsp : list cell) (df : frame) : frame :=
  set_col (zone_col "hdd_" z) (zip_with degree_day hsp amb)
    (set_col (zone_col "cdd_" z) (zip_with degree_day amb csp) df).

(** Some cell of the series is text, decidably. *)
#[export] Instance has_str_dec a : Decision (has_str a).
Proof.
  refine (cast_if (decide (Exists (λ x, is_str x = true) a)));
    unfold has_str; rewrite Exists_exists in *; done.
Defined.

(** What [calc_degree_days] computes, in one piece: nothing without both
    set points of the zone, [KeyError] without the ambient temperature,
    [TypeError] for text in a column it reads, and otherwise the frame
    with the two degree-day columns. *)
Definition degree_days_spec (df : frame) (z : nat) : res (option frame) :=
  match lookup_col (zone_col "hsp_" z) (columns df),
        lookup_col (zone_col "csp_" z) (columns df) with
  | Some hsp, Some csp =>
      match lookup_col "amb_temp" (columns df) with
      | None => Raise KeyError
      | Some amb =>
          if decide (has_str amb ∨ has_str csp ∨ has_str hsp)
          then Raise TypeError
          else Val (Some (with_degree_days z amb csp hsp df))
      end
  | _, _ => Val None
  end.

(** ** Column names *)

Lemma zone_col_0 prefix : zone_col prefix 0 = prefix +:+ "0".
Proof. done. Qed.

Lemma zone_col_inj_prefix a p b q z z' :
  a ≠ b → zone_col (String a p) z ≠ zone_col (String b q) z'.
Proof. unfold zone_col. simpl. by intros Hab [= ? _]. Qed.

(** The names the function reads and writes are pairwise distinct. *)
Ltac col_ne :=
  solve [ unfold zone_col; simpl; discriminate
        | unfold zone_col; simpl; intros [=]; discriminate ].

(** ** The element-wise steps against their specification *)

Lemma cell_sub_sound a b c : cell_sub a b = Val c → c = sub_num a b.
Proof. destruct a, b; simpl; by intros [= <-]. Qed.

Lemma cell_sub_complete a b :
  is_numeric a = true → is_numeric b = true → cell_sub a b = Val (sub_num a b).
Proof. by destruct a, b. Qed.

Lemma py_max0_sound c d : py_max0 c = Val d → d = clamp0 c.
Proof. destruct c; simpl; by intros [= <-]. Qed.

Lemma py_max0_complete c : is_numeric c = true → py_max0 c = Val (clamp0 c).
Proof. by destruct c. Qed.

Lemma sub_num_numeric a b : is_numeric (sub_num a b) = true.
Proof. by destruct a, b. Qed.

Lemma series_sub_sound a b d : series_sub a b = Val d → d = zip_with sub_num a b.
Proof.
  unfold series_sub. rewrite res_mapM_Val. revert b d.
  induction a as [|x a IH]; intros [|y b] d; simpl; inversion 1; subst; try done.
  f_equal; [by apply cell_sub_sound | by apply IH].
Qed.

Lemma series_sub_complete a b :
  Forall (λ c, is_numeric c = true) a → Forall (λ c, is_numeric c = true) b →
  series_sub a b = Val (zip_with sub_num a b).
Proof.
  intros Ha Hb. destruct (series_sub_total a b Ha Hb) as [d Hd].
  by rewrite Hd, (series_sub_sound _ _ _ Hd).
Qed.

Lemma series_max0_sound d x : series_apply py_max0 d = Val x → x = clamp0 <$> d.
Proof.
  unfold series_apply. rewrite res_mapM_Val.
  induction 1 as [|c y d x Hc _ IH]; simpl; [done|].
  f_equal; [by apply py_max0_sound | done].
Qed.

Lemma series_max0_complete d :
  Forall (λ c, is_numeric c = true) d →
  series_apply py_max0 d = Val (clamp0 <$> d).
Proof.
  intros Hd. destruct (series_apply_max0_total d Hd) as [x Hx].
  by rewrite Hx, (series_max0_sound _ _ Hx).
Qed.

Lemma clamp0_zip_sub a b :
  clamp0 <$> zip_with sub_num a b = zip_with degree_day a b.
Proof.
  revert b. induction a as [|x a IH]; intros [|y b]; simpl; try done.
  by rewrite IH.
Qed.

Lemma zip_sub_numeric a b : Forall (λ c, is_numeric c = true) (zip_with sub_num a b).
Proof.
  revert b. induction a as [|x a IH]; intros [|y b]; simpl; constructor; auto.
  apply sub_num_numeric.
Qed.

(** ** Degree days of two readings *)

Section degree_day.
Implicit Types (a b : Qc).

Lemma degree_day_num a b :
  degree_day (CNum a) (CNum b) = CNum (if decide (a - b < 0) then 0 else a - b).
Proof. done. Qed.

Lemma degree_day_ge0 hi lo : cell_ge0 (degree_day hi lo).
Proof.
  destruct hi as [a| |], lo as [b| |]; simpl; try done. case_decide; qc_lra.
Qed.

Lemma degree_day_pos a b : b < a → degree_day (CNum a) (CNum b) = CNum (a - b).
Proof.
  intros H. rewrite degree_day_num, decide_False; [done|]. intros ?. qc_lra.
Qed.

Lemma degree_day_zero a b : a ≤ b → degree_day (CNum a) (CNum b) = CNum 0.
Proof.
  intros H. rewrite degree_day_num. case_decide as Hd; [done|].
  f_equal. qc_lra.
Qed.

Lemma degree_day_null_iff hi lo :
  is_numeric hi = true → is_numeric lo = true →
  degree_day hi lo = CNull ↔ hi = CNull ∨ lo = CNull.
Proof.
  destruct hi, lo; simpl; try done; intros _ _;
    (split; [intros ? | intros [?|?]]); try done; auto.
Qed.


End degree_day.

Lemma zip_degree_day_ge0 a b : Forall cell_ge0 (zip_with degree_day a b).
Proof.
  revert b. induction a as [|x a IH]; intros [|y b]; simpl; constructor; auto.
  apply degree_day_ge0.
Qed.

(** ** [calc_degree_days] against its specification *)

Ltac simpl_get_set :=
  repeat first [ rewrite get_set_col_eq in *
               | rewrite get_set_col_ne in * by col_ne ].

Ltac step_cols := cbn [mbind res_bind]; simpl_get_set; cbn [mbind res_bind].

(** Soundness: whenever the function returns a frame, the three input
    columns exist and the frame is the input with the two specified
    columns written. *)
Lemma calc_degree_days_Some df z df' :
  calc_degree_days df z = Val (Some df') →
  ∃ amb csp hsp,
    get_col "amb_temp" df = Val amb ∧
    get_col (zone_col "csp_" z) df = Val csp ∧
    get_col (zone_col "hsp_" z) df = Val hsp ∧
    df' = with_degree_days z amb csp hsp df.
Proof.
  unfold calc_degree_days. destruct (_ || _) eqn:Hg; [done|]. intros Hr.
  repeat case_res. simpl_get_set. simplify_eq.
  repeat match goal with
  | H1 : ?m = Val ?a, H2 : ?m = Val ?b |- _ => rewrite H1 in H2; simplify_eq
  end.
  repeat match goal with
  | H : series_sub _ _ = Val _ |- _ => apply series_sub_sound in H
  | H : series_apply py_max0 _ = Val _ |- _ => apply series_max0_sound in H
  end. subst.
  eexists _, _, _. repeat split; try done.
  rewrite !set_col_rewrite by col_ne. rewrite ?set_col_twice.
  unfold with_degree_days. by rewrite !clamp0_zip_sub.
Qed.

(** The function returns [None] exactly when a set-point column of the
    zone is missing. *)
Lemma calc_degree_days_None df z :
  calc_degree_days df z = Val None ↔
    has_col (zone_col "hsp_" z) df = false ∨ has_col (zone_col "csp_" z) df = false.
Proof.
  unfold calc_degree_days. rewrite <- !negb_true_iff, <- orb_true_iff.
  destruct (_ || _); split; try done.
  intros Hr. by repeat case_res.
Qed.

(** Completeness: on numeric columns the function returns the specified
    frame. *)
Lemma calc_degree_days_complete df z amb csp hsp :
  get_col "amb_temp" df = Val amb →
  get_col (zone_col "csp_" z) df = Val csp →
  get_col (zone_col "hsp_" z) df = Val hsp →
  Forall (λ c, is_numeric c = true) amb →
  Forall (λ c, is_numeric c = true) csp →
  Forall (λ c, is_numeric c = true) hsp →
  calc_degree_days df z = Val (Some (with_degree_days z amb csp hsp df)).
Proof.
  intros Ha Hc Hh Na Nc Nh. unfold calc_degree_days.
  assert (has_col (zone_col "hsp_" z) df = true) as ->
    by (apply get_col_is_Val; by eexists).
  assert (has_col (zone_col "csp_" z) df = true) as ->
    by (apply get_col_is_Val; by eexists).
  cbn [negb orb]. rewrite Ha, Hc. cbn [mbind res_bind].
  rewrite series_sub_complete by done. step_cols.
  rewrite Hh, Ha. cbn [mbind res_bind].
  rewrite series_sub_complete by done. step_cols.
  rewrite series_max0_complete by apply zip_sub_numeric. step_cols.
  rewrite series_max0_complete by apply zip_sub_numeric. step_cols.
  rewrite !set_col_rewrite by col_ne. rewrite ?set_col_twice.
  unfold with_degree_days. by rewrite !clamp0_zip_sub.
Qed.

(** With both set points present but no ambient temperature, the lookup
    [df["amb_temp"]] raises. *)
Lemma calc_degree_days_KeyError df z :
  has_col (zone_col "hsp_" z) df = true →
  has_col (zone_col "csp_" z) df = true →
  has_col "amb_temp" df = false →
  calc_degree_days df z = Raise KeyError.
Proof.
  intros Hh Hc Ha%get_col_KeyError. unfold calc_degree_days.
  by rewrite Hh, Hc, Ha.
Qed.

(** The three columns the function reads. *)
Definition reads_str (df : frame) (z : nat) : Prop :=
  ∃ c v, c ∈ ["amb_temp"; zone_col "csp_" z; zone_col "hsp_" z] ∧
         get_col c df = Val v ∧ has_str v.

Lemma reads_str_amb df z v :
  get_col "amb_temp" df = Val v → has_str v → reads_str df z.
Proof. intros. exists "amb_temp", v. split; [set_solver | done]. Qed.

Lemma reads_str_csp df z v :
  get_col (zone_col "csp_" z) df = Val v → has_str v → reads_str df z.
Proof. intros. exists (zone_col "csp_" z), v. split; [set_solver | done]. Qed.

Lemma reads_str_hsp df z v :
  get_col (zone_col "hsp_" z) df = Val v → has_str v → reads_str df z.
Proof. intros. exists (zone_col "hsp_" z), v. split; [set_solver | done]. Qed.

(** The only exceptions: [KeyError] for a missing ambient temperature,
    [TypeError] for text in one of the three columns read. *)
Lemma calc_degree_days_Raise df z e :
  calc_degree_days df z = Raise e →
  (e = KeyError ∧ has_col "amb_temp" df = false) ∨
  (e = TypeError ∧ reads_str df z).
Proof.
  unfold calc_degree_days. destruct (_ || _) eqn:Hg; [done|].
  apply orb_false_elim in Hg as [Hh%negb_false_iff Hc%negb_false_iff].
  apply get_col_is_Val in Hh as [hsp Hh], Hc as [csp Hc]. intros Hr.
  repeat case_res; simpl_get_set; simplify_eq;
  repeat match goal with
  | H1 : ?m = Val _, H2 : ?m = Raise _ |- _ => by rewrite H1 in H2
  | H : get_col "amb_temp" _ = Raise _ |- _ =>
      pose proof (get_col_Raise _ _ _ H) as ->; apply get_col_KeyError in H
  | H : series_sub _ _ = Val _ |- _ => apply series_sub_numeric in H
  | H : series_sub _ _ = Raise _ |- _ =>
      apply series_sub_Raise in H as [-> [?|?]]
  | H : series_apply py_max0 _ = Raise _ |- _ =>
      apply series_max0_Raise in H as [-> ?%has_str_not_numeric]
  end; try done; auto;
  right; eauto using reads_str_amb, reads_str_csp, reads_str_hsp.
Qed.

(** On numeric columns the function does not raise. *)
Corollary calc_degree_days_total df z :
  has_col "amb_temp" df = true → ¬ reads_str df z →
  is_Val (calc_degree_days df z).
Proof.
  intros Ha Hs. destruct (calc_degree_days df z) as [r|e] eqn:Hr;
    [apply is_Val_Val|].
  apply calc_degree_days_Raise in Hr as [[_ ?] | [_ ?]]; [congruence | done].
Qed.

Lemma not_has_str a : ¬ has_str a ↔ Forall (λ c, is_numeric c = true) a.
Proof.
  unfold has_str, is_numeric. rewrite list.Forall_forall. split.
  - intros H x Hx. destruct (is_str x) eqn:E; [|done]. destruct H; eauto.
  - intros H (x & Hx & Hs). specialize (H x Hx). by rewrite Hs in H.
Qed.

Lemma series_sub_no_str a b d :
  length a = length b → series_sub a b = Val d → ¬ has_str a ∧ ¬ has_str b.
Proof.
  intros Hl Hd. rewrite !not_has_str. apply res_mapM_Val in Hd.
  revert b d Hl Hd. induction a as [|x a IH]; intros [|y b] d Hl Hd;
    simplify_eq/=; [by split|].
  inversion Hd as [|? c ? d' Hc Hd']; subst. simpl in Hc.
  destruct (IH b d') as [Ha Hb]; [done..|].
  split; constructor; try done; by destruct x, y.
Qed.

(** A run that returns a frame has subtracted the three columns. *)
Lemma calc_degree_days_subs df z df' amb csp hsp :
  calc_degree_days df z = Val (Some df') →
  get_col "amb_temp" df = Val amb →
  get_col (zone_col "csp_" z) df = Val csp →
  get_col (zone_col "hsp_" z) df = Val hsp →
  is_Val (series_sub amb csp) ∧ is_Val (series_sub hsp amb).
Proof.
  unfold calc_degree_days. destruct (_ || _) eqn:Hg; [done|]. intros Hr Ha Hc Hh.
  repeat case_res. simpl_get_set. simplify_eq.
  repeat match goal with
  | H1 : ?m = Val ?a, H2 : ?m = Val ?b |- _ => rewrite H1 in H2; simplify_eq
  end.
  split; by eexists.
Qed.

(** C2: [calc_degree_days] is its specification [degree_days_spec] on every
    frame whose columns have one cell per row: the same frame, the same
    [None], the same exception. *)
Theorem calc_degree_days_refines df z :
  wf_frame df → calc_degree_days df z = degree_days_spec df z.
Proof.
  intros Hwf. unfold degree_days_spec.
  destruct (lookup_col (zone_col "hsp_" z) _) as [hsp|] eqn:Hh;
    [|apply calc_degree_days_None; left; by apply has_col_false, lookup_col_None].
  destruct (lookup_col (zone_col "csp_" z) _) as [csp|] eqn:Hc;
    [|apply calc_degree_days_None; right; by apply has_col_false, lookup_col_None].
  apply get_col_Val in Hh, Hc.
  destruct (lookup_col "amb_temp" _) as [amb|] eqn:Ha.
  2:{ apply calc_degree_days_KeyError; [apply get_col_is_Val; by eexists..|].
      by apply has_col_false, lookup_col_None. }
  apply get_col_Val in Ha.
  pose proof (get_col_length _ _ _ Hwf Ha) as La.
  pose proof (get_col_length _ _ _ Hwf Hc) as Lc.
  pose proof (get_col_length _ _ _ Hwf Hh) as Lh.
  case_decide as Hs.
  - destruct (calc_degree_days df z) as [[df'|]|e] eqn:E.
    + destruct (calc_degree_days_subs _ _ _ _ _ _ E Ha Hc Hh) as [[d1 H1] [d2 H2]].
      apply series_sub_no_str in H1 as [? ?]; [|congruence].
      apply series_sub_no_str in H2 as [? ?]; [|congruence]. tauto.
    + apply calc_degree_days_None in E as [E|E];
        apply get_col_KeyError in E; congruence.
    + apply calc_degree_days_Raise in E as [[_ E]|[-> _]]; [|done].
      apply get_col_KeyError in E. congruence.
  - apply calc_degree_days_complete; try done; apply not_has_str; tauto.
Qed.

(** ** Consequences for the frame returned *)

Section result.
Context (df df' : frame) (z : nat).
Context (Hrun : calc_degree_days df z = Val (Some df')).

Lemma calc_degree_days_index : index df' = index df.
Proof. by destruct (calc_degree_days_Some _ _ _ Hrun) as (? & ? & ? & _ & _ & _ & ->). Qed.

Lemma calc_degree_days_nrows : nrows df' = nrows df.
Proof. unfold nrows. by rewrite calc_degree_days_index. Qed.

Lemma calc_degree_days_cdd :
  ∃ amb csp, get_col "amb_temp" df = Val amb ∧
    get_col (zone_col "csp_" z) df = Val csp ∧
    get_col (zone_col "cdd_" z) df' = Val (zip_with degree_day amb csp).
Proof.
  destruct (calc_degree_days_Some _ _ _ Hrun) as (amb & csp & hsp & ? & ? & ? & ->).
  exists amb, csp. repeat split; try done.
  unfold with_degree_days. by simpl_get_set.
Qed.

Lemma calc_degree_days_hdd :
  ∃ amb hsp, get_col "amb_temp" df = Val amb ∧
    get_col (zone_col "hsp_" z) df = Val hsp ∧
    get_col (zone_col "hdd_" z) df' = Val (zip_with degree_day hsp amb).
Proof.
  destruct (calc_degree_days_Some _ _ _ Hrun) as (amb & csp & hsp & ? & ? & ? & ->).
  exists amb, hsp. repeat split; try done.
  unfold with_degree_days. by simpl_get_set.
Qed.

(** Every other column is as it was. *)
Lemma calc_degree_days_other c :
  c ≠ zone_col "cdd_" z → c ≠ zone_col "hdd_" z → get_col c df' = get_col c df.
Proof.
  intros Hc Hh.
  destruct (calc_degree_days_Some _ _ _ Hrun) as (? & ? & ? & _ & _ & _ & ->).
  unfold with_degree_days. by rewrite !get_set_col_ne.
Qed.

Lemma calc_degree_days_has_col c :
  has_col c df' = has_col c df
    || bool_decide (c = zone_col "cdd_" z) || bool_decide (c = zone_col "hdd_" z).
Proof.
  destruct (calc_degree_days_Some _ _ _ Hrun) as (? & ? & ? & _ & _ & _ & ->).
  unfold with_degree_days. by rewrite !has_col_set_col.
Qed.

Lemma calc_degree_days_wf : wf_frame df → wf_frame df'.
Proof.
  intros Hwf.
  destruct (calc_degree_days_Some _ _ _ Hrun) as (amb & csp & hsp & Ha & Hc & Hh & ->).
  apply (get_col_length _ _ _ Hwf) in Ha, Hc, Hh.
  unfold with_degree_days.
  apply wf_set_col; [apply wf_set_col; [done|] |];
    rewrite ?nrows_set_col, length_zip_with; lia.
Qed.

(** C1: Degree days are never negative. *)
Theorem calc_degree_days_ge0 c v :
  c = zone_col "cdd_" z ∨ c = zone_col "hdd_" z →
  get_col c df' = Val v → Forall cell_ge0 v.
Proof.
  intros [-> | ->] Hv.
  - destruct calc_degree_days_cdd as (? & ? & _ & _ & Hd).
    rewrite Hd in Hv. injection Hv as <-. apply zip_degree_day_ge0.
  - destruct calc_degree_days_hdd as (? & ? & _ & _ & Hd).
    rewrite Hd in Hv. injection Hv as <-. apply zip_degree_day_ge0.
Qed.

(** C37: Row by row: the cooling degree of an hour is
    [max(amb_temp - csp, 0)] of that hour. *)
Theorem calc_degree_days_cdd_cell i a s :
  cell_at "amb_temp" i df = Some a → cell_at (zone_col "csp_" z) i df = Some s →
  cell_at (zone_col "cdd_" z) i df' = Some (degree_day a s).
Proof.
  destruct calc_degree_days_cdd as (amb & csp & Ha & Hc & Hd).
  rewrite (cell_at_get_col _ _ _ _ Ha), (cell_at_get_col _ _ _ _ Hc),
    (cell_at_get_col _ _ _ _ Hd), lookup_zip_with.
  by intros -> ->.
Qed.

Theorem calc_degree_days_hdd_cell i a s :
  cell_at "amb_temp" i df = Some a → cell_at (zone_col "hsp_" z) i df = Some s →
  cell_at (zone_col "hdd_" z) i df' = Some (degree_day s a).
Proof.
  destruct calc_degree_days_hdd as (amb & hsp & Ha & Hh & Hd).
  rewrite (cell_at_get_col _ _ _ _ Ha), (cell_at_get_col _ _ _ _ Hh),
    (cell_at_get_col _ _ _ _ Hd), lookup_zip_with.
  by intros -> ->.
Qed.

End result.

(** * Examples *)

(** Two hours of one zone: a warm hour and a cold one. *)
Definition ex_hourly : frame :=
  Frame [0%Z; 3600%Z]
    [("hsp_0", [num 68; num 68]); ("csp_0", [num 74; num 74]);
     ("amb_temp", [num 80; num 60])].

Definition ex_degrees : frame :=
  Frame [0%Z; 3600%Z]
    [("hsp_0", [num 68; num 68]); ("csp_0", [num 74; num 74]);
     ("amb_temp", [num 80; num 60]);
     ("cdd_0", [num 6; num 0]); ("hdd_0", [num 0; num 8])].

Lemma ex_run : calc_degree_days ex_hourly 0%nat = Val (Some ex_degrees).
Proof. by_compute. Qed.

Lemma calc_degree_days_ge0_witness : Forall cell_ge0 [num 6; num 0].
Proof.
  apply (calc_degree_days_ge0 ex_hourly ex_degrees 0%nat ex_run "cdd_0");
    [by left | by_compute].
Defined.

Lemma calc_degree_days_refines_witness :
  calc_degree_days ex_hourly 0%nat = degree_days_spec ex_hourly 0%nat.
Proof. apply (calc_degree_days_refines ex_hourly 0%nat). by_compute. Defined.

Lemma calc_degree_days_cdd_cell_witness :
  cell_at "cdd_0" 0%nat ex_degrees = Some (degree_day (num 80) (num 74)).
Proof.
  apply (calc_degree_days_cdd_cell ex_hourly ex_degrees 0%nat ex_run 0%nat); by_compute.
Defined.

