(* ===== verification/Resample.v ===== *)
(** * Resampling

    [df.resample(freq)] of a frame indexed by time stamp, as the script
    uses it: the forward-filling upsample to the minute
    ([resample("min").ffill()]), the column fills ([fillna] with "ffill"
    and "bfill"), the downsample with a Python reducer
    ([resample(time_res).apply(lambda x: mode(x))]) and the downsample to
    the mean ([resample(time_res).mean()]); then the three resamplers of
    the script.

    A resampler first sorts the rows by time stamp (a stable sort), then
    cuts the time axis into the buckets [b, b + w) that start at the
    multiples of the width [w] from the bucket of the first row to the
    bucket of the last row, and labels each bucket by its start. *)

From S2P Require Import Prelude Cell Frame Table Stats Timestamps.

(** ** Sorting the rows *)

(** Stable insertion of a row (time stamp, position) into rows sorted by
    time stamp: before the first row that is not earlier. *)
Fixpoint insert_row (r : Z * nat) (l : list (Z * nat)) : list (Z * nat) :=
  match l with
  | [] => [r]
  | r' :: l' => if decide (r.1 ≤ r'.1) then r :: l else r' :: insert_row r l'
  end.

Definition by_stamp (r r' : Z * nat) : Prop := r.1 ≤ r'.1.

(** The rows, each with its position, in the order of their time
    stamps. *)
Definition sorted_rows (idx : list Z) : list (Z * nat) :=
  foldr insert_row [] (zip idx (seq 0 (length idx))).

(** [index.argsort(kind="mergesort")]. *)
Definition argsort (idx : list Z) : list nat := (sorted_rows idx).*2.

(** [x.take(indexer)]. *)
Definition take_rows {A} (p : list nat) (l : list A) : list A :=
  omap (λ i, l !! i) p.

Definition sort_index (df : frame) : frame :=
  let p := argsort (index df) in
  Frame (take_rows p (index df)) (prod_map id (take_rows p) <$> columns df).

(** ** Buckets *)

(** The labels of the buckets of a sorted index. *)
Definition bin_labels (w : Z) (idx : list Z) : list Z :=
  match head idx, last idx with
  | Some a, Some b => date_range (floor_to w a) (floor_to w b) w
  | _, _ => []
  end.

Definition in_bucket (w b t : Z) : bool := bool_decide (b ≤ t < b + w).

(** The cells of a column that fall into the bucket labelled [b]. *)
Definition bucket (w b : Z) (idx : list Z) (v : list cell) : list cell :=
  mask_filter (in_bucket w b <$> idx) v.

(** ** Upsampling with forward fill *)

(** The cell of the last row at or before [g]; missing when there is
    none. *)
Definition asof (idx : list Z) (v : list cell) (g : Z) : cell :=
  default CNull (last (mask_filter ((λ t, bool_decide (t ≤ g)) <$> idx) v)).

(** The index has an inferred frequency equal to [w]: at least three time
    stamps, each [w] after the one before. *)
Definition is_regular (w : Z) (idx : list Z) : bool :=
  bool_decide (3 ≤ length idx)%nat &&
  forallb (λ p, bool_decide (p.2 - p.1 = w)) (zip idx (tail idx)).

(** [df.resample(w).ffill()].  An index that already has the frequency
    [w] is relabelled with the bucket starts; otherwise every bucket start
    takes the last row at or before it, which pandas refuses for an index
    with a repeated time stamp. *)
Definition upsample_ffill (w : Z) (df : frame) : res frame :=
  let df := sort_index df in
  let labels := bin_labels w (index df) in
  if is_regular w (index df) then Val (Frame labels (columns df))
  else if bool_decide (NoDup (index df))
  then Val (Frame labels
              (prod_map id (λ v, asof (index df) v <$> labels) <$> columns df))
  else Raise ValueError.

(** ** Filling *)

(** [fillna(method="ffill")] on one column, [prev] being the last value
    seen. *)
Fixpoint ffill_from (prev : cell) (v : list cell) : list cell :=
  match v with
  | [] => []
  | c :: v' =>
      let c' := if is_null c then prev else c in
      c' :: ffill_from c' v'
  end.

Definition ffill (v : list cell) : list cell := ffill_from CNull v.

(** [fillna(method="bfill")] on one column. *)
Fixpoint bfill (v : list cell) : list cell :=
  match v with
  | [] => []
  | c :: v' =>
      let r := bfill v' in
      (if is_null c then default CNull (head r) else c) :: r
  end.

Definition map_cols (f : list cell → list cell) (df : frame) : frame :=
  Frame (index df) (prod_map id f <$> columns df).

Definition fillna_ffill : frame → frame := map_cols ffill.
Definition fillna_bfill : frame → frame := map_cols bfill.

(** ** Downsampling *)

(** One column reduced bucket by bucket. *)
Definition agg_col (w : Z) (agg : list cell → res cell)
    (labels idx : list Z) (v : list cell) : res (list cell) :=
  res_mapM (λ b, agg (bucket w b idx v)) labels.

(** What the column-wise application of a Python reducer does with an
    exception the reducer raises: [absorbs e] when the column is left out
    of the result and the other columns go on, otherwise [e] reaches the
    caller. *)
Class ApplyPolicy := { absorbs : pyexn → bool }.

(** pandas 0.25 ([DataFrameGroupBy._aggregate_item_by_item]) catches
    [ValueError], of which [StatisticsError] is a subclass. *)
Definition pandas_0_25 : ApplyPolicy :=
  {| absorbs e := bool_decide (e = ValueError ∨ e = StatisticsError) |}.

(** Every exception reaches the caller. *)
Definition strict_apply : ApplyPolicy := {| absorbs _ := false |}.

Fixpoint apply_cols `{ApplyPolicy} (f : list cell → res (list cell))
    (cols : list (string * list cell)) : res (list (string * list cell)) :=
  match cols with
  | [] => Val []
  | (c, v) :: cols' =>
      match f v with
      | Val v' => rest ← apply_cols f cols'; Val ((c, v') :: rest)
      | Raise e => if absorbs e then apply_cols f cols' else Raise e
      end
  end.

(** [df.resample(w).apply(agg)] for a reducer [agg]. *)
Definition resample_apply `{ApplyPolicy} (w : Z) (agg : list cell → res cell)
    (df : frame) : res frame :=
  let df := sort_index df in
  let labels := bin_labels w (index df) in
  cols ← apply_cols (agg_col w agg labels (index df)) (columns df);
  Val (Frame labels cols).

(** A column of numbers and missing values. *)
Definition numeric_col (v : list cell) : bool := forallb is_numeric v.

(** [df.resample(w).mean()]: the mean per bucket of the numeric columns,
    the others are left out; a frame without rows is returned as it
    is. *)
Definition resample_mean (w : Z) (df : frame) : frame :=
  let df := sort_index df in
  if bool_decide (nrows df = 0%nat) then df
  else
    let labels := bin_labels w (index df) in
    Frame labels
      (prod_map id (λ v, (λ b, agg_mean (bucket w b (index df) v)) <$> labels)
         <$> filter (λ cv, numeric_col cv.2 = true) (columns df)).

(** ** The resamplers of the script *)

Definition resample_tstat_15min `{ApplyPolicy} (df : table) : res table :=
  df ← set_index df;
  df ← upsample_ffill minute df;
  let df := fillna_bfill (fillna_ffill df) in
  df ← resample_apply time_res mode df;
  Val (reset_index df).

Definition resample_load_15min (df : table) : res table :=
  df ← set_index df;
  let df := resample_mean time_res df in
  Val (reset_index df).

Definition resample_weather_15min (df : table) : res table :=
  df ← set_index df;
  let df := resample_mean time_res df in
  Val (reset_index df).

(** * Lemmas *)

(** ** Sorting *)

Lemma insert_row_perm r l : insert_row r l ≡ₚ r :: l.
Proof.
  induction l as [|r' l IH]; simpl; [done|].
  case_decide; [done|]. by rewrite IH, Permutation_swap.
Qed.

Lemma insert_row_sorted r l :
  StronglySorted by_stamp l → StronglySorted by_stamp (insert_row r l).
Proof.
  unfold by_stamp. induction 1 as [|r' l Hl IH Hr']; simpl; [by repeat constructor|].
  case_decide.
  - constructor; [by constructor|]. constructor; [done|].
    eapply list.Forall_impl; [exact Hr'|]. simpl. intros; lia.
  - constructor; [done|]. rewrite insert_row_perm. constructor; [lia|done].
Qed.

(** An earlier row is inserted in front of the sorted later rows. *)
Lemma insert_row_head r l :
  Forall (by_stamp r) l → insert_row r l = r :: l.
Proof. destruct 1; simpl; [done|]. by rewrite decide_True. Qed.

Lemma foldr_insert_row_perm l : foldr insert_row [] l ≡ₚ l.
Proof. induction l as [|r l IH]; simpl; [done|]. by rewrite insert_row_perm, IH. Qed.

Lemma foldr_insert_row_sorted l : StronglySorted by_stamp (foldr insert_row [] l).
Proof. induction l; simpl; [constructor | by apply insert_row_sorted]. Qed.

Lemma foldr_insert_row_id l :
  StronglySorted by_stamp l → foldr insert_row [] l = l.
Proof.
  induction 1 as [|r l Hl IH Hr]; simpl; [done|].
  rewrite IH. by apply insert_row_head.
Qed.

Lemma zip_seq_lookup {A} (l : list A) s r :
  r ∈ zip l (seq s (length l)) → l !! (r.2 - s)%nat = Some r.1 ∧ (s ≤ r.2)%nat.
Proof.
  revert s. induction l as [|x l IH]; intros s; simpl; [by intros ?%elem_of_nil|].
  intros [->|Hr%IH]%elem_of_cons; simpl.
  - by rewrite Nat.sub_diag.
  - destruct Hr as [Hr ?]. split; [|lia].
    replace (r.2 - s)%nat with (S (r.2 - S s)) by lia. done.
Qed.

Lemma argsort_perm idx : argsort idx ≡ₚ seq 0 (length idx).
Proof.
  unfold argsort, sorted_rows. rewrite foldr_insert_row_perm, snd_zip; [done|].
  by rewrite length_seq.
Qed.

Lemma take_rows_pairs {A} (l : list A) (rows : list (A * nat)) :
  Forall (λ r, l !! r.2 = Some r.1) rows → take_rows rows.*2 l = rows.*1.
Proof.
  unfold take_rows. induction 1 as [|r rows Hr _ IH]; [done|].
  rewrite !fmap_cons. cbn [omap list_omap]. rewrite Hr. cbn [omap]. by f_equal.
Qed.

Lemma take_rows_seq_app {A} (pre l : list A) :
  take_rows (seq (length pre) (length l)) (pre ++ l) = l.
Proof.
  unfold take_rows. revert pre. induction l as [|x l IH]; intros pre; [done|].
  simpl. rewrite lookup_app_r, Nat.sub_diag by done. simpl. f_equal.
  specialize (IH (pre ++ [x])). rewrite length_app, <- app_assoc in IH.
  simpl in IH. by rewrite Nat.add_1_r in IH.
Qed.

Lemma take_rows_seq {A} (l : list A) : take_rows (seq 0 (length l)) l = l.
Proof. apply (take_rows_seq_app []). Qed.

Lemma elem_of_take_rows {A} (p : list nat) (l : list A) x :
  x ∈ take_rows p l → x ∈ l.
Proof.
  unfold take_rows. intros (i & _ & Hi)%list_elem_of_omap.
  by eapply list_elem_of_lookup_2.
Qed.

Lemma take_rows_perm {A} (p q : list nat) (l : list A) :
  p ≡ₚ q → take_rows p l ≡ₚ take_rows q l.
Proof. unfold take_rows. by intros ->. Qed.

Lemma length_take_rows {A} (p : list nat) (l : list A) :
  Forall (λ i, (i < length l)%nat) p → length (take_rows p l) = length p.
Proof.
  unfold take_rows. induction 1 as [|i p Hi _ IH]; [done|].
  destruct (lookup_lt_is_Some_2 l i Hi) as [x Hx].
  cbn [omap list_omap]. rewrite Hx. simpl. by f_equal.
Qed.

Lemma argsort_bound idx : Forall (λ i, (i < length idx)%nat) (argsort idx).
Proof.
  rewrite argsort_perm. apply list.Forall_forall. intros i ?%elem_of_seq. lia.
Qed.

Lemma sorted_rows_lookup idx :
  Forall (λ r, idx !! r.2 = Some r.1) (sorted_rows idx).
Proof.
  unfold sorted_rows. rewrite foldr_insert_row_perm.
  apply list.Forall_forall. intros r [Hr _]%zip_seq_lookup.
  by rewrite Nat.sub_0_r in Hr.
Qed.

Lemma take_argsort idx : take_rows (argsort idx) idx = (sorted_rows idx).*1.
Proof. apply take_rows_pairs, sorted_rows_lookup. Qed.

Lemma StronglySorted_by_stamp_fst rows :
  StronglySorted by_stamp rows ↔ StronglySorted Z.le rows.*1.
Proof.
  induction rows as [|r rows IH]; [split; constructor|].
  rewrite fmap_cons.
  split; intros H; inversion H as [|? ? Hs Hf]; subst; constructor.
  - by apply IH.
  - by rewrite Forall_fmap.
  - by apply IH.
  - by rewrite Forall_fmap in Hf.
Qed.

Lemma zip_seq_sorted idx s :
  StronglySorted Z.le idx → StronglySorted by_stamp (zip idx (seq s (length idx))).
Proof.
  intros H. apply StronglySorted_by_stamp_fst.
  by rewrite fst_zip by (by rewrite length_seq).
Qed.

(** The rows come out in the order of their time stamps. *)
Lemma take_argsort_sorted idx : StronglySorted Z.le (take_rows (argsort idx) idx).
Proof.
  rewrite take_argsort. apply StronglySorted_by_stamp_fst, foldr_insert_row_sorted.
Qed.

Lemma take_argsort_perm {A} idx (l : list A) :
  length l = length idx → take_rows (argsort idx) l ≡ₚ l.
Proof.
  intros Hl. rewrite (take_rows_perm _ _ _ (argsort_perm idx)), <- Hl.
  by rewrite take_rows_seq.
Qed.

(** Rows that are in order already stay where they are. *)
Lemma argsort_sorted idx :
  StronglySorted Z.le idx → argsort idx = seq 0 (length idx).
Proof.
  intros H. unfold argsort, sorted_rows. rewrite foldr_insert_row_id by by apply zip_seq_sorted.
  apply snd_zip. by rewrite length_seq.
Qed.

Lemma index_sort_index df : index (sort_index df) = take_rows (argsort (index df)) (index df).
Proof. done. Qed.

Lemma sort_index_sorted df : StronglySorted Z.le (index (sort_index df)).
Proof. apply take_argsort_sorted. Qed.

Lemma sort_index_perm df : index (sort_index df) ≡ₚ index df.
Proof. by apply take_argsort_perm. Qed.

Lemma nrows_sort_index df : nrows (sort_index df) = nrows df.
Proof. unfold nrows. by rewrite sort_index_perm. Qed.

Lemma col_names_sort_index df : col_names (sort_index df) = col_names df.
Proof.
  unfold col_names, sort_index. simpl. rewrite <- list_fmap_compose.
  apply list_fmap_ext. by intros _ [c v] _.
Qed.

Lemma wf_sort_index df : wf_frame df → wf_frame (sort_index df).
Proof.
  intros Hwf. unfold wf_frame. rewrite nrows_sort_index. simpl.
  rewrite Forall_fmap. eapply list.Forall_impl; [exact Hwf|].
  intros [c v] Hv. simpl in *. rewrite length_take_rows.
  - rewrite argsort_perm. apply length_seq.
  - rewrite Hv. apply argsort_bound.
Qed.

(** Sorting leaves a well-formed frame whose index is already in
    order exactly as it is (the sort is stable). *)
Lemma sort_index_id df :
  wf_frame df → StronglySorted Z.le (index df) → sort_index df = df.
Proof.
  intros Hwf Hs. destruct df as [idx cols]. unfold sort_index. simpl in *.
  rewrite argsort_sorted, take_rows_seq by done. f_equal.
  rewrite <- (list_fmap_id cols) at 2. apply Forall_fmap_ext.
  eapply list.Forall_impl; [exact Hwf|]. intros [c v] Hv. unfold nrows in Hv.
  simpl in *. by rewrite <- Hv, take_rows_seq.
Qed.

(** Sorting moves whole rows: each column is permuted like the index. *)
Lemma lookup_col_sort_index c df :
  lookup_col c (columns (sort_index df)) =
    take_rows (argsort (index df)) <$> lookup_col c (columns df).
Proof.
  unfold sort_index. simpl. induction (columns df) as [|[c' v] cols IH]; [done|].
  simpl. by case_decide.
Qed.

(** ** Filling *)

Lemma length_ffill_from p v : length (ffill_from p v) = length v.
Proof. revert p. induction v as [|c v IH]; intros p; simpl; [done|]. by rewrite IH. Qed.

Lemma length_bfill v : length (bfill v) = length v.
Proof. induction v as [|c v IH]; simpl; [done|]. by rewrite IH. Qed.

(** A fill only copies values that are there. *)
Lemma elem_of_ffill_from p v x :
  x ∈ ffill_from p v → x = p ∨ x ∈ v.
Proof.
  revert p. induction v as [|c v IH]; intros p; simpl; [by intros ?%elem_of_nil|].
  intros [->|[->|?]%IH]%elem_of_cons; destruct (is_null c);
    rewrite ?elem_of_cons; auto.
Qed.

Lemma elem_of_bfill v x : x ∈ bfill v → x = CNull ∨ x ∈ v.
Proof.
  revert x. induction v as [|c v IH]; intros x; simpl; [by intros ?%elem_of_nil|].
  rewrite !elem_of_cons. intros [->|[->|?]%IH]; auto.
  destruct (is_null c); [|by auto].
  destruct (bfill v) as [|y r]; simpl; [by left|].
  destruct (IH y) as [->|?]; [left|..]; auto.
Qed.

Lemma ffill_from_present p v :
  present p → Forall present (ffill_from p v).
Proof.
  unfold present. revert p. induction v as [|c v IH]; intros p Hp; simpl; constructor.
  - by destruct (is_null c) eqn:E.
  - apply IH. by destruct (is_null c) eqn:E.
Qed.

Lemma ffill_from_id p v : Forall present v → ffill_from p v = v.
Proof.
  intros H. revert p. induction H as [|c v Hc _ IH]; intros p; simpl; [done|].
  unfold present in Hc. by rewrite Hc, IH.
Qed.

Lemma bfill_id v : Forall present v → bfill v = v.
Proof.
  induction 1 as [|c v Hc _ IH]; simpl; [done|].
  unfold present in Hc. by rewrite Hc, IH.
Qed.

(** Forward fill and then backward fill leave no gap in a column that
    has a value at all. *)
Lemma bfill_ffill_present v :
  Exists present v → Forall present (bfill (ffill v)).
Proof.
  unfold ffill. induction v as [|c v IH]; [by intros ?%Exists_nil|].
  rewrite Exists_cons. unfold present at 1. simpl. destruct (is_null c) eqn:Ec.
  - intros [?|Hv]; [done|]. specialize (IH Hv). constructor; [|done].
    destruct (bfill (ffill_from CNull v)) as [|y r] eqn:E; [|by inversion IH].
    apply (f_equal length) in E. rewrite length_bfill, length_ffill_from in E.
    destruct v; [by apply Exists_nil in Hv | done].
  - intros _. rewrite Ec. constructor; [done|].
    rewrite bfill_id; by apply ffill_from_present.
Qed.

Lemma bfill_ffill_id v : Forall present v → bfill (ffill v) = v.
Proof. intros. unfold ffill. by rewrite ffill_from_id, bfill_id. Qed.

(** The two fills put no value into a column that was not in it. *)
Lemma elem_of_bfill_ffill v x : x ∈ bfill (ffill v) → x = CNull ∨ x ∈ v.
Proof.
  intros [->|[->|?]%elem_of_ffill_from]%elem_of_bfill; auto.
Qed.

Lemma bfill_ffill_values v x :
  Exists present v → x ∈ bfill (ffill v) → x ∈ v ∧ present x.
Proof.
  intros Hv Hx. pose proof (bfill_ffill_present v Hv) as Hp.
  rewrite list.Forall_forall in Hp. specialize (Hp x Hx).
  by destruct (elem_of_bfill_ffill _ _ Hx) as [->|?].
Qed.

(** ** Column-wise maps *)

Lemma index_map_cols f df : index (map_cols f df) = index df.
Proof. done. Qed.

Lemma col_names_map_cols f df : col_names (map_cols f df) = col_names df.
Proof. apply col_names_prod_map. Qed.

Lemma lookup_col_map_cols f c df :
  lookup_col c (columns (map_cols f df)) = f <$> lookup_col c (columns df).
Proof. apply lookup_col_prod_map. Qed.

Lemma wf_map_cols f df :
  (∀ v, length (f v) = length v) → wf_frame df → wf_frame (map_cols f df).
Proof.
  intros Hf Hwf. unfold wf_frame, map_cols, nrows in *. simpl.
  rewrite Forall_fmap. eapply list.Forall_impl; [exact Hwf|].
  intros [c v] Hv. simpl in *. by rewrite Hf.
Qed.

Lemma wf_fillna df : wf_frame df → wf_frame (fillna_bfill (fillna_ffill df)).
Proof.
  intros. apply wf_map_cols; [apply length_bfill|].
  apply wf_map_cols; [apply length_ffill_from | done].
Qed.

(** C14: After the two fills a frame without an empty column has no missing
    cell. *)
Lemma fillna_no_nulls df :
  Forall (λ cv, Exists present cv.2) (columns df) →
  no_nulls (fillna_bfill (fillna_ffill df)).
Proof.
  intros H. unfold no_nulls, fillna_bfill, fillna_ffill, map_cols. simpl.
  rewrite !Forall_fmap. eapply list.Forall_impl; [exact H|].
  intros [c v] Hv. by apply bfill_ffill_present.
Qed.

(** ** Buckets *)

Section buckets.
Context (w : Z) (Hw : 0 < w).
Implicit Types (idx : list Z) (v : list cell).

Lemma bin_labels_nil : bin_labels w [] = [].
Proof. done. Qed.

Lemma bin_labels_sorted idx : StronglySorted Z.lt (bin_labels w idx).
Proof.
  unfold bin_labels. destruct (head idx), (last idx); try constructor.
  by apply date_range_sorted.
Qed.

Lemma bin_labels_NoDup idx : NoDup (bin_labels w idx).
Proof.
  unfold bin_labels. destruct (head idx), (last idx); try constructor.
  by apply date_range_NoDup.
Qed.

(** Every label is the start of a bucket. *)
Lemma bin_labels_on_grid idx b : b ∈ bin_labels w idx → floor_to w b = b.
Proof.
  unfold bin_labels. destruct (head idx), (last idx); try by intros ?%elem_of_nil.
  apply date_range_on_grid; [done|]. by apply floor_to_divide.
Qed.

(** C35: The bucket of every row has a label. *)
Lemma stamp_in_bin_labels idx t :
  StronglySorted Z.le idx → t ∈ idx → floor_to w t ∈ bin_labels w idx.
Proof.
  intros Hs Ht. unfold bin_labels.
  destruct (head idx) as [a|] eqn:Ha; [|by destruct idx; [apply elem_of_nil in Ht|]].
  destruct (last idx) as [b|] eqn:Hb;
    [|apply last_None in Hb; subst; by apply elem_of_nil in Ht].
  pose proof (sorted_head_le _ _ _ Hs Ha Ht).
  pose proof (sorted_le_last _ _ _ Hs Hb Ht).
  apply elem_of_date_range; [done|].
  exists (t `div` w - a `div` w). split_and!.
  - assert (a `div` w ≤ t `div` w) by (apply Z.div_le_mono; lia). lia.
  - unfold floor_to. lia.
  - by apply floor_to_mono.
Qed.

Lemma elem_of_bucket b idx v c :
  c ∈ bucket w b idx v ↔
    ∃ i t, idx !! i = Some t ∧ v !! i = Some c ∧ b ≤ t < b + w.
Proof.
  unfold bucket. rewrite mask_filter_elem. split.
  - intros (i & Hm & Hc). rewrite list_lookup_fmap, fmap_Some in Hm.
    destruct Hm as (t & Ht & Hb). exists i, t. split; [done|split; [done|]].
    unfold in_bucket in Hb. symmetry in Hb. by apply bool_decide_eq_true in Hb.
  - intros (i & t & Ht & Hc & Hb). exists i. split; [|done].
    rewrite list_lookup_fmap, Ht. simpl. f_equal. by apply bool_decide_eq_true.
Qed.

Lemma bucket_subset b idx v c : c ∈ bucket w b idx v → c ∈ v.
Proof. apply elem_of_mask_filter. Qed.

(** A row is in the bucket its time stamp floors to. *)
Lemma bucket_floor idx v i t c :
  idx !! i = Some t → v !! i = Some c → c ∈ bucket w (floor_to w t) idx v.
Proof.
  intros Ht Hc. apply elem_of_bucket. exists i, t.
  split; [done|split; [done|]]. by apply floor_to_bounds.
Qed.

(** C36: Buckets with different labels share no row. *)
Lemma bucket_disjoint b b' t :
  floor_to w b = b → floor_to w b' = b' →
  in_bucket w b t = true → in_bucket w b' t = true → b = b'.
Proof.
  unfold in_bucket. intros Hb Hb' H1%bool_decide_eq_true H2%bool_decide_eq_true.
  apply floor_to_fixed in Hb as [k Hk]; [|done].
  apply floor_to_fixed in Hb' as [k' Hk']; [|done].
  trans (floor_to w t);
    [symmetry; apply (floor_to_unique w t b k) |
     apply (floor_to_unique w t b' k')]; lia.
Qed.

End buckets.

(** ** Upsampling *)

Lemma asof_elem idx v g : asof idx v g = CNull ∨ asof idx v g ∈ v.
Proof.
  unfold asof. destruct (last _) as [c|] eqn:E; simpl; [right | by left].
  apply last_Some in E as [l' E]. eapply elem_of_mask_filter. rewrite E.
  apply elem_of_app. right. by left.
Qed.

Lemma upsample_ffill_Val w df df' :
  upsample_ffill w df = Val df' →
  index df' = bin_labels w (index (sort_index df)) ∧
  col_names df' = col_names df ∧
  ∀ c v', lookup_col c (columns df') = Some v' →
    ∃ v, lookup_col c (columns df) = Some v ∧ ∀ x, x ∈ v' → x = CNull ∨ x ∈ v.
Proof.
  unfold upsample_ffill. case_match; [|case_bool_decide; [|done]];
    intros [= <-]; unfold col_names; cbn [index columns]; (split; [done|]).
  - split; [apply col_names_prod_map|]. intros c v'.
    rewrite lookup_col_prod_map. intros (v & -> & ->)%fmap_Some.
    exists v. split; [done|]. intros x ?%elem_of_take_rows. by right.
  - split; [by rewrite !col_names_prod_map|].
    intros c v'. rewrite !lookup_col_prod_map.
    intros (? & (v & -> & ->)%fmap_Some & ->)%fmap_Some. exists v. split; [done|].
    intros x (g & -> & _)%list_elem_of_fmap.
    match goal with |- context [asof ?i ?u g] =>
      destruct (asof_elem i u g) as [->|?%elem_of_take_rows] end; auto.
Qed.

Lemma upsample_ffill_Raise w df e :
  upsample_ffill w df = Raise e → e = ValueError ∧ ¬ NoDup (index df).
Proof.
  unfold upsample_ffill. case_match; [done|]. case_bool_decide as Hnd; [done|].
  intros [= <-]. split; [done|]. by rewrite <- (sort_index_perm df).
Qed.

(** The forward-filling upsample returns a frame whenever no time
    stamp is repeated. *)
Lemma upsample_ffill_total w df : NoDup (index df) → is_Val (upsample_ffill w df).
Proof.
  intros Hnd. destruct (upsample_ffill w df) as [|e] eqn:E; [apply is_Val_Val|].
  by apply upsample_ffill_Raise in E as [_ ?].
Qed.

(** In a sorted index the rows at or before [g] are a prefix: the cell
    [asof] returns is the cell of the last row of that prefix. *)
Lemma asof_lookup idx v g (i : nat) t c :
  StronglySorted Z.le idx → length v = length idx →
  idx !! i = Some t → v !! i = Some c →
  t ≤ g → (∀ t', idx !! S i = Some t' → g < t') →
  asof idx v g = c.
Proof.
  intros Hs Hl Hi Hc Ht Hnext. unfold asof.
  rewrite <- (take_drop (S i) idx) at 1. rewrite <- (take_drop (S i) v), fmap_app.
  rewrite mask_filter_app by (by rewrite length_fmap, !length_take, Hl).
  rewrite mask_filter_all_true, mask_filter_all_false, app_nil_r.
  - rewrite (take_S_r _ _ _ Hc), last_snoc. done.
  - rewrite Forall_fmap. apply list.Forall_forall. intros t' Ht'. simpl.
    apply bool_decide_eq_false_2. rewrite <- (take_drop (S i) idx) in Hs.
    apply StronglySorted_app_1_r in Hs.
    destruct (drop (S i) idx) as [|t0 l0] eqn:E; [by apply elem_of_nil in Ht'|].
    assert (g < t0) by (apply Hnext; by rewrite <- (Nat.add_0_r (S i)), <- lookup_drop, E).
    apply StronglySorted_inv in Hs as [_ Hall]. rewrite list.Forall_forall in Hall.
    apply elem_of_cons in Ht' as [->|?%Hall]; lia.
  - by rewrite length_fmap, !length_take, Hl.
  - rewrite Forall_fmap. apply list.Forall_forall. intros t' Ht'. simpl.
    apply bool_decide_eq_true_2. rewrite <- (take_drop_middle _ _ _ Hi) in Hs.
    rewrite (take_S_r _ _ _ Hi) in Ht'.
    apply elem_of_app in Ht' as [Ht'|Ht']; [|by apply list_elem_of_singleton in Ht' as ->].
    etrans; [|exact Ht]. eapply (StronglySorted_app_1_elem_of Z.le); [exact Hs|exact Ht'|].
    left.
Qed.

(** Before the first row there is nothing to carry forward. *)
Lemma asof_before idx v g : Forall (λ t, g < t) idx → asof idx v g = CNull.
Proof.
  intros H. unfold asof. rewrite mask_filter_all_false; [done|].
  rewrite Forall_fmap. eapply list.Forall_impl; [exact H|]. simpl. intros t ?.
  apply bool_decide_eq_false_2. lia.
Qed.

Lemma upsample_ffill_irregular w df out :
  is_regular w (index (sort_index df)) = false → upsample_ffill w df = Val out →
  out = Frame (bin_labels w (index (sort_index df)))
          (prod_map id (λ v, asof (index (sort_index df)) v <$>
                               bin_labels w (index (sort_index df)))
             <$> columns (sort_index df)).
Proof.
  intros Hreg. unfold upsample_ffill. rewrite Hreg. case_bool_decide; [|done].
  by intros [= <-].
Qed.

Lemma upsample_ffill_regular w df :
  is_regular w (index (sort_index df)) = true →
  upsample_ffill w df =
    Val (Frame (bin_labels w (index (sort_index df))) (columns (sort_index df))).
Proof. intros Hreg. unfold upsample_ffill. by rewrite Hreg. Qed.

(** C12: The forward-filling upsample of an index without the target
    frequency: the row of a grid point is the last row of the log at or
    before it. *)
Theorem upsample_ffill_asof w df out (k i : nat) g t c :
  wf_frame df → upsample_ffill w df = Val out →
  is_regular w (index (sort_index df)) = false →
  index out !! k = Some g →
  index (sort_index df) !! i = Some t → t ≤ g →
  (∀ t', index (sort_index df) !! S i = Some t' → g < t') →
  cell_at c k out = cell_at c i (sort_index df).
Proof.
  intros Hwf%wf_sort_index Hout Hreg Hk Hi Ht Hnext.
  pose proof (sort_index_sorted df) as Hs.
  apply (upsample_ffill_irregular _ _ _ Hreg) in Hout. subst out. clear Hreg.
  revert Hwf Hk Hi Hnext Hs. generalize (sort_index df). clear df.
  intros s Hwf Hk Hi Hnext Hs.
  cbn [index] in Hk. unfold cell_at. cbn [columns]. rewrite lookup_col_prod_map.
  destruct (lookup_col c (columns s)) as [v|] eqn:Hv; [|done]. simpl.
  rewrite list_lookup_fmap, Hk. simpl.
  assert (length v = length (index s)) as Hl
    by apply (lookup_col_Forall (λ v, length v = nrows s) _ _ _ Hwf Hv).
  destruct (lookup_lt_is_Some_2 v i) as [x Hx];
    [rewrite Hl; by eapply lookup_lt_Some|].
  rewrite Hx. f_equal. by eapply asof_lookup.
Qed.

(** ** Reducing columns *)

Lemma agg_col_length w agg labels idx v v' :
  agg_col w agg labels idx v = Val v' → length v' = length labels.
Proof. apply res_mapM_length. Qed.

Lemma agg_col_lookup w agg labels idx v v' i b :
  agg_col w agg labels idx v = Val v' → labels !! i = Some b →
  ∃ c, v' !! i = Some c ∧ agg (bucket w b idx v) = Val c.
Proof. apply (res_mapM_lookup (λ b, agg (bucket w b idx v))). Qed.

(** The mode of a bucket is a cell of the column. *)
Lemma agg_col_mode_values w labels idx v v' x :
  agg_col w mode labels idx v = Val v' → x ∈ v' → x ∈ v.
Proof.
  intros H Hx. destruct (res_mapM_elem _ _ _ _ H Hx) as (b & _ & Hb).
  eapply elem_of_mask_filter, mode_elem_of, Hb.
Qed.

Lemma agg_col_mode_Raise w labels idx v e :
  agg_col w mode labels idx v = Raise e → e = StatisticsError.
Proof. intros (b & _ & Hb)%res_mapM_Raise. by apply mode_Raise in Hb. Qed.

Section apply_cols.
Context (f : list cell → res (list cell)).
Implicit Types (cols : list (string * list cell)).

(** Every column of the result is the reduction of a column of that
    name. *)
Lemma apply_cols_elem `{ApplyPolicy} cols cols' c v' :
  apply_cols f cols = Val cols' → (c, v') ∈ cols' →
  ∃ v, (c, v) ∈ cols ∧ f v = Val v'.
Proof.
  revert cols'. induction cols as [|[c0 v0] cols IH]; intros cols'; simpl.
  - intros [= <-] ?%elem_of_nil. done.
  - destruct (f v0) as [v0'|e] eqn:E.
    + destruct (apply_cols f cols) as [rest|]; [|done]. intros [= <-].
      intros [[= -> ->]|Hin]%elem_of_cons.
      * exists v0. split; [left | done].
      * destruct (IH rest eq_refl Hin) as (v & ? & ?). exists v. split; [by right|done].
    + case_match; [|done]. intros Hr Hin.
      destruct (IH _ Hr Hin) as (v & ? & ?). exists v. split; [by right|done].
Qed.

Lemma apply_cols_names `{ApplyPolicy} cols cols' :
  apply_cols f cols = Val cols' → cols'.*1 `sublist_of` cols.*1.
Proof.
  revert cols'. induction cols as [|[c0 v0] cols IH]; intros cols'; simpl.
  - by intros [= <-].
  - destruct (f v0) as [v0'|e].
    + destruct (apply_cols f cols) as [rest|]; [|done]. intros [= <-].
      rewrite fmap_cons. apply sublist_skip. by apply IH.
    + case_match; [|done]. intros Hr. apply sublist_cons. by apply IH.
Qed.

(** When no reduction fails every column is reduced, whatever the
    policy. *)
Lemma apply_cols_total (P : ApplyPolicy) cols :
  Forall (λ cv, is_Val (f cv.2)) cols →
  ∃ cols', @apply_cols P f cols = Val cols' ∧
    Forall2 (λ cv cv', cv'.1 = cv.1 ∧ f cv.2 = Val cv'.2) cols cols'.
Proof.
  induction 1 as [|[c v] cols [v' Hv] _ (cols' & IH & IH2)]; simpl.
  - exists []. by split.
  - simpl in Hv. rewrite Hv, IH. eexists. split; [done|]. by constructor.
Qed.


(** A policy that absorbs every failure of the reducer never fails. *)
Lemma apply_cols_absorbed `{ApplyPolicy} cols :
  (∀ v e, f v = Raise e → absorbs e = true) → is_Val (apply_cols f cols).
Proof.
  intros Hf. induction cols as [|[c v] cols [cols' IH]]; simpl; [apply is_Val_Val|].
  destruct (f v) as [v'|e] eqn:E.
  - rewrite IH. apply is_Val_Val.
  - rewrite (Hf _ _ E), IH. apply is_Val_Val.
Qed.


End apply_cols.

Lemma col_values_sort_index c df x :
  col_values c (sort_index df) x → col_values c df x.
Proof.
  intros (v' & (v & ? & ->)%elem_of_prod_map & ?%elem_of_take_rows). by exists v.
Qed.

Lemma col_values_upsample_ffill w df df' c x :
  upsample_ffill w df = Val df' → col_values c df' x →
  x = CNull ∨ col_values c df x.
Proof.
  unfold upsample_ffill. case_match; [|case_bool_decide; [|done]]; intros [= <-].
  - intros ?%col_values_sort_index. by right.
  - intros (v' & (v & Hv & ->)%elem_of_prod_map & (g & -> & _)%list_elem_of_fmap).
    match goal with |- context [asof ?i ?u g] =>
      destruct (asof_elem i u g) as [->|?] end; [by left|].
    right. apply col_values_sort_index. by exists v.
Qed.

Lemma col_values_fillna df c x :
  col_values c (fillna_bfill (fillna_ffill df)) x → x = CNull ∨ col_values c df x.
Proof.
  intros (? & (? & (v & ? & ->)%elem_of_prod_map & ->)%elem_of_prod_map & Hx).
  apply elem_of_bfill_ffill in Hx as [->|?]; [by left|]. right. by exists v.
Qed.

Lemma col_values_resample_mode `{ApplyPolicy} w df df' c x :
  resample_apply w mode df = Val df' → col_values c df' x → col_values c df x.
Proof.
  unfold resample_apply. intros (cols & Hc & [= <-])%bind_Val (v' & Hv' & Hx).
  destruct (apply_cols_elem _ _ _ _ _ Hc Hv') as (v & Hv & Hagg).
  apply col_values_sort_index. exists v. split; [done|].
  by eapply agg_col_mode_values.
Qed.

Lemma index_resample_apply `{ApplyPolicy} w agg df df' :
  resample_apply w agg df = Val df' →
  index df' = bin_labels w (index (sort_index df)).
Proof. unfold resample_apply. by intros (cols & Hc & [= <-])%bind_Val. Qed.

Lemma col_names_resample_apply `{ApplyPolicy} w agg df df' :
  resample_apply w agg df = Val df' → col_names df' `sublist_of` col_names df.
Proof.
  unfold resample_apply. intros (cols & Hc%apply_cols_names & [= <-])%bind_Val.
  rewrite <- (col_names_sort_index df). exact Hc.
Qed.

Lemma wf_resample_apply `{ApplyPolicy} w agg df df' :
  resample_apply w agg df = Val df' → wf_frame df'.
Proof.
  unfold resample_apply. intros (cols & Hc & [= <-])%bind_Val.
  unfold wf_frame, nrows. simpl. apply list.Forall_forall. intros [c v'] Hin.
  destruct (apply_cols_elem _ _ _ _ _ Hc Hin) as (v & _ & Hv).
  by apply agg_col_length in Hv.
Qed.


(** ** The mean per bucket *)

Lemma resample_mean_empty w df :
  nrows df = 0%nat → resample_mean w df = sort_index df.
Proof.
  intros H. unfold resample_mean. by rewrite bool_decide_eq_true_2 by by rewrite nrows_sort_index.
Qed.

Lemma index_resample_mean w df :
  index (resample_mean w df) = bin_labels w (index (sort_index df)).
Proof.
  unfold resample_mean. case_bool_decide as H; [|done].
  unfold nrows in H. by destruct (index (sort_index df)).
Qed.

Lemma wf_resample_mean w df : wf_frame df → wf_frame (resample_mean w df).
Proof.
  intros Hwf. unfold resample_mean. case_bool_decide; [by apply wf_sort_index|].
  unfold wf_frame, nrows. simpl. rewrite Forall_fmap. apply list.Forall_forall.
  intros [c v] _. simpl. by rewrite length_fmap.
Qed.

(** Only numeric columns are averaged. *)
Lemma col_names_resample_mean w df :
  nrows df ≠ 0%nat →
  col_names (resample_mean w df) =
    (filter (λ cv, numeric_col cv.2 = true) (columns (sort_index df))).*1.
Proof.
  intros H. unfold resample_mean.
  rewrite bool_decide_eq_false_2 by by rewrite nrows_sort_index.
  apply col_names_prod_map.
Qed.

Lemma nums_within lo hi l :
  Forall (within lo hi) l → Forall (λ q, (lo ≤ q ∧ q ≤ hi)%Qc) (nums l).
Proof.
  unfold nums. induction 1 as [|c l Hc _ IH]; [constructor|].
  destruct c; simpl; [by constructor | done..].
Qed.

Lemma agg_mean_within lo hi l : Forall (within lo hi) l → within lo hi (agg_mean l).
Proof.
  intros H%nums_within. destruct (decide (nums l = [])) as [E|E].
  - unfold agg_mean. by rewrite decide_True.
  - by destruct (agg_mean_bounds lo hi l E H) as (m & -> & ?).
Qed.


(** The hourly mean of a numeric column: the cell of a bucket is the mean
    of the readings of the column in the bucket. *)
Lemma resample_mean_cell w df c v (j : nat) d :
  lookup_col c (columns (sort_index df)) = Some v → numeric_col v = true →
  index (resample_mean w df) !! j = Some d →
  cell_at c j (resample_mean w df) =
    Some (agg_mean (bucket w d (index (sort_index df)) v)).
Proof.
  intros Hv Hnum. rewrite index_resample_mean. intros Hd.
  assert (nrows df ≠ 0%nat) as Hn.
  { intros Hn. rewrite <- nrows_sort_index in Hn.
    apply nil_length_inv in Hn. by rewrite Hn, bin_labels_nil in Hd. }
  unfold resample_mean, cell_at. cbv zeta.
  rewrite bool_decide_eq_false_2 by by rewrite nrows_sort_index.
  cbn [columns]. rewrite lookup_col_prod_map.
  rewrite (lookup_col_filter_Some _ c v) by done. simpl in Hd |- *.
  by rewrite list_lookup_fmap, Hd.
Qed.

(** C13: The hourly load: the rows of the frame [resample_load_15min] returns
    are labelled by full hours, and a numeric column holds for each hour
    the mean of the readings of that hour. *)
Theorem resample_load_15min_mean t f out l c v (j : nat) d :
  set_index t = Val f →
  lookup_col c (columns (sort_index f)) = Some v → numeric_col v = true →
  resample_load_15min t = Val out →
  stamps out = Some l → l !! j = Some d →
  floor_to time_res d = d ∧
  cell_at c j (body out) =
    Some (agg_mean (bucket time_res d (index (sort_index f)) v)).
Proof.
  intros Hf Hv Hnum. unfold resample_load_15min. rewrite Hf.
  cbn [mbind res_bind]. intros [= <-] [= <-] Hd. split.
  - apply (bin_labels_on_grid time_res) with (index (sort_index f));
      [by_compute|]. rewrite <- (index_resample_mean time_res).
    by eapply list_elem_of_lookup_2.
  - by apply (resample_mean_cell time_res f c v j d).
Qed.

(** ** The thermostat resampler *)

Section tstat.
Context `{ApplyPolicy}.

Lemma resample_tstat_15min_Val t t' :
  resample_tstat_15min t = Val t' ↔
    ∃ df up hourly, set_index t = Val df ∧ upsample_ffill minute df = Val up ∧
      resample_apply time_res mode (fillna_bfill (fillna_ffill up)) = Val hourly ∧
      t' = reset_index hourly.
Proof.
  unfold resample_tstat_15min. split.
  - intros (df & ? & (up & ? & (hourly & ? & [= <-])%bind_Val)%bind_Val)%bind_Val.
    by exists df, up, hourly.
  - intros (df & up & hourly & -> & Hu & Hh & ->). simpl. rewrite Hu. simpl.
    by rewrite Hh.
Qed.

(** C3: Resampling puts no value into a column that the log did not have in
    a column of that name. *)
Theorem resample_tstat_15min_values t t' c x :
  resample_tstat_15min t = Val t' → col_values c (body t') x →
  x = CNull ∨ col_values c (body t) x.
Proof.
  intros (df & up & hourly & Hdf & Hup & Hh & ->)%resample_tstat_15min_Val Hx.
  apply (col_values_resample_mode _ _ _ _ _ Hh) in Hx.
  apply col_values_fillna in Hx as [->|Hx]; [by left|].
  apply (col_values_upsample_ffill _ _ _ _ _ Hup) in Hx as [->|Hx]; [by left|].
  right. unfold col_values in *. by rewrite <- (columns_set_index _ _ Hdf).
Qed.

(** C15: The result is on the hourly grid, in order and without repetition. *)
Theorem resample_tstat_15min_stamps t t' :
  resample_tstat_15min t = Val t' →
  ∃ ts, stamps t' = Some ts ∧ StronglySorted Z.lt ts ∧
    Forall (λ b, floor_to hour b = b) ts.
Proof.
  intros (df & up & hourly & _ & _ & Hh%index_resample_apply & ->)%resample_tstat_15min_Val.
  exists (index hourly). split; [done|]. rewrite Hh. split.
  - by apply bin_labels_sorted.
  - apply list.Forall_forall. intros b. by apply bin_labels_on_grid.
Qed.

Theorem resample_tstat_15min_wf t t' :
  resample_tstat_15min t = Val t' → "Timestamp" ∉ col_names (body t) → wf_table t'.
Proof.
  intros (df & up & hourly & Hdf & Hup & Hh & ->)%resample_tstat_15min_Val Hn.
  apply wf_reset_index; [by eapply wf_resample_apply|].
  intros Hin. apply Hn.
  pose proof (elem_of_sublist _ _ _ Hin (col_names_resample_apply _ _ _ _ Hh)) as Hin'.
  unfold fillna_bfill, fillna_ffill in Hin'. rewrite !col_names_map_cols in Hin'.
  apply upsample_ffill_Val in Hup as (_ & Hc & _). rewrite Hc in Hin'.
  unfold col_names in *. by rewrite <- (columns_set_index _ _ Hdf).
Qed.

End tstat.

(** ** Sorting and the majority value *)

(** C6: A value held by more than half of the rows of an hour bucket is
    the hourly value of that bucket (40 of 60 minutes at 72 give 72). *)
Theorem agg_col_mode_majority w labels idx v v' (i : nat) b x :
  agg_col w mode labels idx v = Val v' → labels !! i = Some b →
  (length (bucket w b idx v) < 2 * count x (bucket w b idx v))%nat →
  v' !! i = Some x.
Proof.
  intros Hv Hb Hx. destruct (agg_col_lookup _ _ _ _ _ _ _ _ Hv Hb) as (c & -> & Hc).
  rewrite (mode_majority _ _ Hx) in Hc. by simplify_eq.
Qed.


(** * Examples *)

(** Three readings of one hour, the second without a set point. *)
Definition ex_log : table :=
  Table (Some [30; 90; 200])
    (Frame [0; 1; 2]
       [("csp", [num 70; CNull; num 72]); ("act", [CStr "cool"; CStr "cool"; CStr "hold"])]).

Definition ex_log_hourly : table :=
  Table (Some [0]) (Frame [0] [("csp", [num 70]); ("act", [CStr "cool"])]).

Lemma ex_log_run : @resample_tstat_15min pandas_0_25 ex_log = Val ex_log_hourly.
Proof. by_compute. Qed.

Lemma resample_tstat_15min_values_witness :
  num 70 = CNull ∨ col_values "csp" (body ex_log) (num 70).
Proof.
  apply (@resample_tstat_15min_values pandas_0_25 ex_log ex_log_hourly "csp");
    [exact ex_log_run|]. exists [num 70]. split; by_compute.
Defined.

Lemma resample_tstat_15min_stamps_witness :
  ∃ ts, stamps ex_log_hourly = Some ts ∧ StronglySorted Z.lt ts ∧
    Forall (λ b, floor_to hour b = b) ts.
Proof.
  apply (@resample_tstat_15min_stamps pandas_0_25 ex_log ex_log_hourly ex_log_run).
Defined.

(** An hour of minutes, forty at 72 and twenty at 70. *)
Definition ex_minutes : list Z := (λ k, 60 * k) <$> seqZ 0 60.
Definition ex_setpoints : list cell := replicate 40 (num 72) ++ replicate 20 (num 70).

Lemma agg_col_mode_majority_witness : [num 72] !! 0%nat = Some (num 72).
Proof.
  apply (agg_col_mode_majority hour [0] ex_minutes ex_setpoints [num 72] 0 0 (num 72));
    [by_compute | done | vm_compute; lia].
Defined.

Lemma fillna_no_nulls_witness :
  no_nulls (fillna_bfill (fillna_ffill
    (Frame [0; 60; 120] [("csp", [CNull; num 70; CNull])]))).
Proof. apply fillna_no_nulls. by_compute. Defined.



Definition ex_unsorted : frame :=
  Frame [120; 0; 60] [("csp", [num 72; num 70; num 71])].


Lemma sort_index_id_witness :
  sort_index (Frame [0; 60; 60] [("csp", [num 70; num 71; num 72])]) =
  Frame [0; 60; 60] [("csp", [num 70; num 71; num 72])].
Proof. apply sort_index_id; [by_compute|]. repeat constructor; lia. Defined.

Lemma stamp_in_bin_labels_witness : floor_to hour 4000 ∈ bin_labels hour [30; 4000; 9000].
Proof.
  apply (stamp_in_bin_labels hour); [done | repeat constructor; lia | by_compute].
Defined.

Lemma bucket_disjoint_witness : 3600 = 3600.
Proof. apply (bucket_disjoint hour eq_refl 3600 3600 4000); by_compute. Defined.

Lemma upsample_ffill_total_witness :
  is_Val (upsample_ffill minute (Frame [30; 200] [("csp", [num 70; num 72])])).
Proof. apply upsample_ffill_total. by_compute. Defined.


Lemma upsample_ffill_asof_witness :
  cell_at "csp" 2 (Frame [0; 60; 120; 180] [("csp", [CNull; num 70; num 70; num 70])]) =
    cell_at "csp" 0 (sort_index (Frame [30; 200] [("csp", [num 70; num 72])])).
Proof.
  apply (upsample_ffill_asof minute (Frame [30; 200] [("csp", [num 70; num 72])])
           _ 2 0 120 30 "csp"); [by_compute.. | |].
  - unfold minute. lia.
  - intros t' Ht'. vm_compute in Ht'. injection Ht' as <-. lia.
Defined.

(** Three load readings, two in the first hour of the month. *)
Definition ex_load_table : table :=
  Table (Some [1567296600; 1567298400; 1567299600])
    (Frame [0; 1; 2] [("value", [num 1200; num 800; num 3000])]).

Definition ex_load_hourly : table :=
  Table (Some [1567296000; 1567299600])
    (Frame [0; 1] [("value", [num 1000; num 3000])]).

Lemma ex_resample_load : resample_load_15min ex_load_table = Val ex_load_hourly.
Proof. by_compute. Qed.

Lemma resample_load_15min_mean_witness :
  floor_to time_res 1567296000 = 1567296000 ∧
  cell_at "value" 0 (body ex_load_hourly) =
    Some (agg_mean (bucket time_res 1567296000
            (index (sort_index (Frame [1567296600; 1567298400; 1567299600]
                                  (columns (body ex_load_table)))))
            [num 1200; num 800; num 3000])).
Proof.
  by apply (resample_load_15min_mean ex_load_table _ ex_load_hourly
              [1567296000; 1567299600] "value" [num 1200; num 800; num 3000] 0
              1567296000 eq_refl eq_refl eq_refl ex_resample_load).
Defined.
