(* ===== verification/Clean.v ===== *)
(** * Cleaning the raw logs

    [clean_tstat_raw], [clean_load_raw], [clean_weather_raw] and
    [convert_col_names].  A raw log is the [frame] that [read_csv]
    returns: rows labelled by position, every column as read, time stamps
    still text.  Cleaning parses the time stamps, moves thermostat and
    weather logs from UTC to the local clock, keeps the rows inside the
    analysis window and the columns whose name matches the pattern of the
    log, and returns a flat frame ([table]).

    The patterns of the script are alternatives of literal text, so
    [re_search] is a search for one of the alternatives as a substring;
    the pattern [\.1] of [re.sub] is the literal ".1". *)

From Stdlib Require Import Ascii.
From S2P Require Import Prelude Cell Frame Table Timestamps.

(** ** Text *)

Fixpoint is_prefix (p s : string) : bool :=
  match p, s with
  | EmptyString, _ => true
  | String a p', String b s' => bool_decide (a = b) && is_prefix p' s'
  | String _ _, EmptyString => false
  end.

(** [p in s]. *)
Fixpoint is_infix (p s : string) : bool :=
  is_prefix p s ||
  match s with
  | EmptyString => false
  | String _ s' => is_infix p s'
  end.

(** [re.search(pat, name)] for a pattern of literal alternatives. *)
Definition re_search (pat name : string) : bool :=
  existsb (λ alt, is_infix alt name) (split_on "|"%char pat).

(** [re.sub('\.1', '', x)]: every occurrence of ".1" is taken out, from
    left to right. *)
Fixpoint remove_dot1 (s : string) : string :=
  match s with
  | EmptyString => EmptyString
  | String a s' =>
      match s' with
      | String b s'' =>
          if bool_decide (a = "."%char ∧ b = "1"%char) then remove_dot1 s''
          else String a (remove_dot1 s')
      | EmptyString => s
      end
  end.

(** ** The patterns and dictionaries of the script *)

Definition tstat_col_substrings : string := "Timestamp|Set|Activity|Room Temp".
Definition load_col_substrings : string := "Timestamp|RLID|value".
Definition weather_col_substrings : string := "Timestamp|TEMP".

Definition tstat_col_dict : list (string * string) :=
  [("Zone0 Cool Setpoint", "csp_0");
   ("Zone1 Cool Setpoint", "csp_1");
   ("Zone2 Cool Setpoint", "csp_2");
   ("Zone0 Heat Setpoint", "hsp_0");
   ("Zone1 Heat Setpoint", "hsp_1");
   ("Zone2 Heat Setpoint", "hsp_2");
   ("Zone0 Room Temp", "rmt_0");
   ("Zone1 Room Temp", "rmt_1");
   ("Zone2 Room Temp", "rmt_2");
   ("Zone0 Current Activity", "ts_mode_0");
   ("Zone1 Current Activity", "ts_mode_1");
   ("Zone2 Current Activity", "ts_mode_2")].

Definition load_col_dict : list (string * string) := [("value", "hvac_W")].

Definition weather_col_dict : list (string * string) :=
  [("AMBIENT TEMP", "amb_temp")].

(** ** Operations on flat frames *)

(** [pd.to_datetime] of one cell: text is parsed, a missing cell is a
    missing time stamp.  Time stamps are text in the logs; a number is
    refused. *)
Definition cell_to_datetime (c : cell) : res (option Z) :=
  match c with
  | CStr s => Some <$> to_datetime s
  | CNull => Val None
  | CNum _ => Raise ValueError
  end.

(** [df["Timestamp"] = pd.to_datetime(df[c])]. *)
Definition parse_stamps (c : string) (df : frame) : res (list (option Z)) :=
  v ← get_col c df; res_mapM cell_to_datetime v.

(** [dt.tz_localize("UTC")], [dt.tz_convert(zone)],
    [dt.tz_localize(None)] on a column of time stamps. *)
Definition localize `{TimeZone} (ts : list (option Z)) : list (option Z) :=
  (λ t : option Z, to_local <$> t) <$> ts.

(** The frame without its column "Timestamp", which the model keeps
    apart. *)
Definition data_cols (df : frame) : frame :=
  filter_cols (λ c, bool_decide (c ≠ "Timestamp")) df.

(** [df[(df["Timestamp"] >= start_time) & (df["Timestamp"] <= end_time)]]:
    the rows of the window; a row without a time stamp is outside. *)
Definition select_window (start_time end_time : string)
    (ts : list (option Z)) (df : frame) : res table :=
  mask ← in_window start_time end_time ts;
  Val (Table (Some (omap id (mask_filter mask ts))) (select_rows mask df)).

(** [df.filter(regex=pat)]. *)
Definition table_filter (pat : string) (t : table) : table :=
  Table (if re_search pat "Timestamp" then stamps t else None)
        (filter_cols (re_search pat) (body t)).

(** [df.dropna(axis=1, how='all')]: the column of time stamps has no
    missing entry, so it goes exactly when the frame has no row. *)
Definition table_dropna_cols (t : table) : table :=
  Table (if bool_decide (shape0 t = 0%nat) then None else stamps t)
        (dropna_cols (body t)).

(** [df.rename(columns=f)].  When [f] renames "Timestamp" the frame has
    no column of that name any more. *)
Definition table_rename (f : string → string) (t : table) : table :=
  Table (if decide (f "Timestamp" = "Timestamp") then stamps t else None)
        (rename_cols f (body t)).

(** [df[df[c] == x]]. *)
Definition select_eq (c : string) (x : cell) (t : table) : res table :=
  v ← get_col c (body t);
  Val (table_select ((λ y, bool_decide (y = x)) <$> v) t).

(** [col_dict.get(c, c)]. *)
Fixpoint dict_get (col_dict : list (string * string)) (c : string) : string :=
  match col_dict with
  | [] => c
  | (k, v) :: col_dict' => if decide (k = c) then v else dict_get col_dict' c
  end.

(** ** The cleaners *)

Definition clean_tstat_raw `{TimeZone} (df : frame)
    (start_time end_time col_substrings rlid : string) : res table :=
  ts ← parse_stamps "Timestamp" df;
  let ts := localize ts in
  df ← select_window start_time end_time ts (data_cols df);
  let df := table_filter col_substrings df in
  let df := table_dropna_cols df in
  let df := table_rename remove_dot1 df in
  let df := Table (stamps df) (set_col_const "RLID" (CStr rlid) (body df)) in
  Val df.

Definition clean_load_raw (df : frame)
    (start_time end_time col_substrings : string) : res table :=
  ts ← parse_stamps "timestamp.ct" df;
  df ← select_window start_time end_time ts (data_cols df);
  df ← select_eq "beopt.group" (CStr "Heating/Cooling") df;
  let df := table_filter col_substrings df in
  Val df.

Definition clean_weather_raw `{TimeZone} (df : frame)
    (start_time end_time col_substrings : string) : res table :=
  ts ← parse_stamps "Timestamp" df;
  let ts := localize ts in
  df ← select_window start_time end_time ts (data_cols df);
  let df := table_filter col_substrings df in
  amb ← get_col "AMBIENT TEMP" (body df);
  amb ← series_apply cell_c_to_f amb;
  let df := Table (stamps df) (set_col "AMBIENT TEMP" amb (body df)) in
  Val df.

Definition convert_col_names (df : table) (col_dict : list (string * string))
    : table :=
  table_rename (dict_get col_dict) df.

(** * Lemmas *)

(** ** Text *)

Lemma is_prefix_refl s : is_prefix s s = true.
Proof. induction s as [|a s IH]; simpl; [done|]. by rewrite bool_decide_eq_true_2. Qed.

Lemma is_prefix_app p s : is_prefix p (p +:+ s) = true.
Proof. induction p as [|a p IH]; simpl; [done|]. by rewrite bool_decide_eq_true_2. Qed.

Lemma is_prefix_spec p s : is_prefix p s = true ↔ ∃ r, s = p +:+ r.
Proof.
  split; [|intros [r ->]; apply is_prefix_app].
  revert s. induction p as [|a p IH]; intros s; simpl; [by exists s|].
  destruct s as [|b s]; [done|].
  intros [->%bool_decide_eq_true [r ->]%IH]%andb_true_iff. by exists r.
Qed.

(** [is_infix p s] exactly when [p] occurs in [s]. *)
Lemma is_infix_spec p s : is_infix p s = true ↔ ∃ l r, s = l +:+ p +:+ r.
Proof.
  split.
  - induction s as [|b s IH]; simpl; rewrite orb_true_iff.
    + intros [[r ->]%is_prefix_spec|?]; [by exists "", r | done].
    + intros [[r ->]%is_prefix_spec|(l & r & ->)%IH]; [by exists "", r|].
      by exists (String b l), r.
  - intros (l & r & ->). induction l as [|b l IH]; simpl.
    + destruct p; simpl; [by destruct r|].
      by rewrite bool_decide_eq_true_2, is_prefix_app.
    + by rewrite IH, orb_true_r.
Qed.

Lemma dict_get_not_in d c : c ∉ d.*1 → dict_get d c = c.
Proof.
  induction d as [|[k v] d IH]; simpl; [done|].
  rewrite not_elem_of_cons. intros [? ?]. rewrite decide_False by done. auto.
Qed.

Lemma dict_get_in d c : c ∈ d.*1 → dict_get d c ∈ d.*2.
Proof.
  induction d as [|[k v] d IH]; simpl; [by intros ?%elem_of_nil|].
  case_decide; [left|]. intros [?|?]%elem_of_cons; [done|]. right. auto.
Qed.

(** The renamed columns of the script keep the time stamps. *)
Lemma remove_dot1_Timestamp : remove_dot1 "Timestamp" = "Timestamp".
Proof. done. Qed.


(** ** The window *)

Lemma omap_id_between lo hi (ts : list (option Z)) :
  Forall (λ x, lo ≤ x ≤ hi) (omap id (mask_filter (between lo hi <$> ts) ts)).
Proof.
  induction ts as [|[t|] ts IH]; simpl; [constructor| |done].
  destruct (bool_decide (lo ≤ t) && bool_decide (t ≤ hi)) eqn:E; [|done].
  simpl. constructor; [|done].
  apply andb_true_iff in E as [?%bool_decide_eq_true ?%bool_decide_eq_true]. lia.
Qed.

Lemma length_omap_id_between lo hi (ts : list (option Z)) :
  length (omap id (mask_filter (between lo hi <$> ts) ts)) =
    count_true (between lo hi <$> ts).
Proof.
  induction ts as [|[t|] ts IH]; simpl; [done| |apply IH].
  destruct (bool_decide (lo ≤ t) && bool_decide (t ≤ hi)); simpl;
    [f_equal|]; apply IH.
Qed.

Lemma select_window_Val s e ts df t :
  select_window s e ts df = Val t ↔
    ∃ lo hi, to_datetime s = Val lo ∧ to_datetime e = Val hi ∧
      t = Table (Some (omap id (mask_filter (between lo hi <$> ts) ts)))
                (select_rows (between lo hi <$> ts) df).
Proof.
  unfold select_window, in_window. split.
  - intros (mask & (lo & Hlo & (hi & Hhi & [= <-])%bind_Val)%bind_Val & [= <-])%bind_Val.
    by exists lo, hi.
  - intros (lo & hi & -> & -> & ->). done.
Qed.

Lemma wf_select_window s e ts df t :
  wf_frame df → length ts = nrows df → "Timestamp" ∉ col_names df →
  select_window s e ts df = Val t → wf_table t.
Proof.
  intros Hwf Hl Hn (lo & hi & _ & _ & ->)%select_window_Val. split_and!; simpl.
  - apply wf_select_rows; [done|]. by rewrite length_fmap.
  - unfold shape0. simpl. rewrite nrows_select_rows by by rewrite length_fmap.
    apply length_omap_id_between.
  - by rewrite col_names_select_rows.
Qed.

Lemma between_stamps lo hi (ts : list (option Z)) :
  Some <$> omap id (mask_filter (between lo hi <$> ts) ts) =
    mask_filter (between lo hi <$> ts) ts.
Proof.
  induction ts as [|[t|] ts IH]; simpl; [done| |done].
  destruct (bool_decide (lo ≤ t) && bool_decide (t ≤ hi)); simpl; [f_equal|]; apply IH.
Qed.

Lemma select_window_row s e ts df w lo hi l (j : nat) x :
  wf_frame df → length ts = nrows df →
  select_window s e ts df = Val w →
  to_datetime s = Val lo → to_datetime e = Val hi →
  stamps w = Some l → l !! j = Some x →
  ∃ i, ts !! i = Some (Some x) ∧ lo ≤ x ≤ hi ∧
    ∀ c, cell_at c j (body w) = cell_at c i df.
Proof.
  intros Hwf Hl (lo' & hi' & Hlo & Hhi & ->)%select_window_Val.
  rewrite Hlo, Hhi. intros [= ->] [= ->] [= <-] Hx. cbn [body].
  assert (mask_filter (between lo hi <$> ts) ts !! j = Some (Some x)) as Hj
    by by rewrite <- between_stamps, list_lookup_fmap, Hx.
  rewrite mask_filter_nth in Hj by by rewrite length_fmap.
  destruct (nth_true (between lo hi <$> ts) j) as [i|] eqn:Hi; [|done].
  simpl in Hj. exists i. split; [done|]. split.
  - apply nth_true_lookup in Hi. rewrite list_lookup_fmap, Hj in Hi.
    assert (between lo hi (Some x) = true) as Hb by by injection Hi.
    by apply between_true in Hb as (? & [= <-] & ?).
  - intros c. apply select_rows_cell; [done | by rewrite length_fmap | done].
Qed.

Lemma select_eq_Val c x t t' :
  select_eq c x t = Val t' ↔
    ∃ v, get_col c (body t) = Val v ∧
      t' = table_select ((λ y, bool_decide (y = x)) <$> v) t.
Proof.
  unfold select_eq. rewrite bind_Val. split.
  - intros (v & ? & [= <-]). eauto.
  - intros (v & ? & ->). eauto.
Qed.

Lemma select_eq_row c x t t' l (j : nat) y :
  wf_table t → select_eq c x t = Val t' →
  stamps t' = Some l → l !! j = Some y →
  ∃ i ts, stamps t = Some ts ∧ ts !! i = Some y ∧ cell_at c i (body t) = Some x ∧
    ∀ c', cell_at c' j (body t') = cell_at c' i (body t).
Proof.
  intros Hwf (v & Hv & ->)%select_eq_Val Hl Hy.
  pose proof (get_col_length _ _ _ (proj1 Hwf) Hv) as Hlen.
  destruct (table_select_row _ _ _ _ _ Hwf (eq_trans (length_fmap _ _) Hlen) Hl Hy)
    as (i & ts & Hts & Hi & Hm & Hc).
  exists i, ts. split_and!; [done..| |done].
  rewrite (cell_at_get_col _ _ _ _ Hv).
  rewrite list_lookup_fmap, fmap_Some in Hm. destruct Hm as (z & Hz & Hb).
  symmetry in Hb. apply bool_decide_eq_true in Hb. by subst.
Qed.

Lemma cell_at_data_cols c i df :
  c ≠ "Timestamp" → cell_at c i (data_cols df) = cell_at c i df.
Proof. intros Hc. apply cell_at_filter_cols. by apply bool_decide_eq_true. Qed.

Lemma wf_data_cols df : wf_frame df → wf_frame (data_cols df).
Proof. apply wf_filter_cols. Qed.

Lemma data_cols_no_Timestamp df : "Timestamp" ∉ col_names (data_cols df).
Proof.
  intros [Hk _]%has_col_true%has_col_filter_cols.
  by apply bool_decide_eq_true in Hk.
Qed.

Lemma has_col_data_cols c df :
  has_col c (data_cols df) = true → c ≠ "Timestamp" ∧ has_col c df = true.
Proof. intros [Hk ?]%has_col_filter_cols. by apply bool_decide_eq_true in Hk. Qed.

Lemma parse_stamps_length c df ts :
  wf_frame df → parse_stamps c df = Val ts → length ts = nrows df.
Proof.
  intros Hwf (v & Hv & Hts)%bind_Val. apply res_mapM_length in Hts.
  rewrite Hts. by eapply get_col_length.
Qed.

Lemma parse_stamps_lookup c df ts (i : nat) x :
  parse_stamps c df = Val ts → ts !! i = Some (Some x) →
  ∃ s, cell_at c i df = Some (CStr s) ∧ to_datetime s = Val x.
Proof.
  intros (v & Hv & Hts)%bind_Val Hi.
  destruct (res_mapM_lookup_inv _ _ _ _ _ Hts Hi) as (y & Hy & Hp).
  rewrite (cell_at_get_col _ _ _ _ Hv), Hy.
  destruct y as [|s|]; simpl in Hp; [done| |done].
  exists s. split; [done|]. by destruct (to_datetime s); simplify_eq/=.
Qed.

Lemma stamps_table_filter pat t l :
  stamps (table_filter pat t) = Some l → stamps t = Some l.
Proof. unfold table_filter. cbn [stamps]. by case_match. Qed.

Lemma cell_at_table_filter pat t c i :
  has_col c (body (table_filter pat t)) = true →
  has_col c (body t) = true ∧
  cell_at c i (body (table_filter pat t)) = cell_at c i (body t).
Proof.
  intros [Hk ?]%has_col_filter_cols. split; [done|]. by apply cell_at_filter_cols.
Qed.

(** A row of the window of a raw log is a row of the log: its time stamp
    is the one parsed there, it lies in the window, and the cells are
    those of the log. *)
Lemma window_row df ts s e w lo hi l (j : nat) x :
  wf_frame df → length ts = nrows df →
  select_window s e ts (data_cols df) = Val w →
  to_datetime s = Val lo → to_datetime e = Val hi →
  stamps w = Some l → l !! j = Some x →
  ∃ i, ts !! i = Some (Some x) ∧ lo ≤ x ≤ hi ∧
    ∀ c, has_col c (body w) = true →
      has_col c df = true ∧ cell_at c j (body w) = cell_at c i df.
Proof.
  intros Hwf Hl Hw Hlo Hhi Hs Hx.
  destruct (select_window_row _ _ _ _ _ _ _ _ _ _ (wf_data_cols _ Hwf) Hl Hw Hlo Hhi Hs Hx)
    as (i & Hi & Hb & Hc).
  exists i. split; [done|split; [done|]]. intros c Hh. rewrite Hc.
  apply select_window_Val in Hw as (? & ? & _ & _ & ->). cbn [body] in Hh.
  rewrite has_col_select_rows in Hh. apply has_col_data_cols in Hh as [? ?].
  split; [done|]. by apply cell_at_data_cols.
Qed.

(** ** The cleaners *)

Lemma stamps_clean_cols pat f w l :
  stamps (table_rename f (table_dropna_cols (table_filter pat w))) = Some l →
  stamps w = Some l.
Proof.
  unfold table_rename, table_dropna_cols, table_filter. cbn [stamps].
  by repeat case_match.
Qed.

(** A column that survives the pattern, [dropna] and the renaming is a
    column of the frame that the pattern selects, under its new name. *)
Lemma clean_cols_cell pat c' g :
  NoDup (col_names g) →
  has_col c' (rename_cols remove_dot1 (dropna_cols (filter_cols (re_search pat) g))) = true →
  ∃ c, remove_dot1 c = c' ∧ re_search pat c = true ∧ has_col c g = true ∧
    ∀ j, cell_at c' j (rename_cols remove_dot1
                         (dropna_cols (filter_cols (re_search pat) g))) = cell_at c j g.
Proof.
  intros Hnd Hh.
  pose proof (NoDup_filter_cols (re_search pat) _ Hnd) as Hnd1.
  destruct (cell_at_rename_cols _ _ _ (NoDup_dropna_cols _ Hnd1) Hh) as (c & Hc & Hh1 & He).
  destruct (cell_at_dropna_cols c 0 _ Hnd1 Hh1) as [Hh2 _].
  destruct (has_col_filter_cols _ _ _ Hh2) as [Hk Hh3].
  exists c. split_and!; [done..|]. intros j. rewrite He.
  destruct (cell_at_dropna_cols c j _ Hnd1 Hh1) as [_ ->].
  by apply cell_at_filter_cols.
Qed.

(** C9: Every row [clean_load_raw] keeps is a row of the log whose time stamp
    lies in the window and whose group is Heating/Cooling, with the cells
    of the log. *)
Theorem clean_load_raw_row df s e pat t lo hi l (j : nat) x :
  wf_frame df → clean_load_raw df s e pat = Val t →
  to_datetime s = Val lo → to_datetime e = Val hi →
  stamps t = Some l → l !! j = Some x →
  ∃ i text, cell_at "timestamp.ct" i df = Some (CStr text) ∧
    to_datetime text = Val x ∧ lo ≤ x ≤ hi ∧
    cell_at "beopt.group" i df = Some (CStr "Heating/Cooling") ∧
    ∀ c, has_col c (body t) = true → cell_at c j (body t) = cell_at c i df.
Proof.
  intros Hwf (ts & Hts & (w & Hw & (u & Hu & [= <-])%bind_Val)%bind_Val)%bind_Val
    Hlo Hhi Hl%stamps_table_filter Hx.
  pose proof (parse_stamps_length _ _ _ Hwf Hts) as Hlen.
  pose proof Hu as (v & Hv & Hu')%select_eq_Val.
  assert (wf_table w) as Hwfw
    by (by apply (wf_select_window s e ts (data_cols df));
          [apply wf_data_cols | | apply data_cols_no_Timestamp |]).
  destruct (select_eq_row _ _ _ _ _ _ _ Hwfw Hu Hl Hx) as (k & l' & Hl' & Hk & Hg & Hc).
  destruct (window_row _ _ _ _ _ _ _ _ _ _ Hwf Hlen Hw Hlo Hhi Hl' Hk)
    as (i & Hi & Hb & Hd).
  destruct (parse_stamps_lookup _ _ _ _ _ Hts Hi) as (text & Ht & Hp).
  assert (has_col "beopt.group" (body w) = true) as Hgc
    by (apply get_col_is_Val; by exists v).
  exists i, text. split; [done|split; [done|split; [done|split]]].
  - rewrite <- Hg. symmetry. by apply Hd.
  - intros c Hc'. destruct (cell_at_table_filter _ _ _ j Hc') as [Hh ->].
    rewrite Hc. apply Hd. rewrite Hu' in Hh. cbn [body table_select] in Hh.
    by rewrite has_col_select_rows in Hh.
Qed.

Section clean.
Context `{TimeZone}.

Lemma clean_tstat_raw_Val df s e pat rlid t :
  clean_tstat_raw df s e pat rlid = Val t ↔
    ∃ ts w, parse_stamps "Timestamp" df = Val ts ∧
      select_window s e (localize ts) (data_cols df) = Val w ∧
      let c := table_rename remove_dot1 (table_dropna_cols (table_filter pat w)) in
      t = Table (stamps c) (set_col_const "RLID" (CStr rlid) (body c)).
Proof.
  unfold clean_tstat_raw. split.
  - intros (ts & ? & (w & ? & [= <-])%bind_Val)%bind_Val. by exists ts, w.
  - intros (ts & w & -> & Hw & ->). simpl. by rewrite Hw.
Qed.

(** C7: Every row that is kept lies in the window, bounds included. *)
Theorem clean_tstat_raw_window df s e pat rlid t lo hi l :
  clean_tstat_raw df s e pat rlid = Val t →
  to_datetime s = Val lo → to_datetime e = Val hi →
  stamps t = Some l → Forall (λ x, lo ≤ x ≤ hi) l.
Proof.
  intros (ts & w & _ & (lo' & hi' & Hlo & Hhi & ->)%select_window_Val & ->)%clean_tstat_raw_Val.
  rewrite Hlo, Hhi. intros [= <-] [= <-]. simpl.
  repeat case_match; try done. intros [= <-]. apply omap_id_between.
Qed.

(** Every row is tagged with the identifier of the home. *)
Theorem clean_tstat_raw_RLID df s e pat rlid t :
  clean_tstat_raw df s e pat rlid = Val t →
  get_col "RLID" (body t) = Val (replicate (shape0 t) (CStr rlid)).
Proof.
  intros (ts & w & _ & _ & ->)%clean_tstat_raw_Val. simpl.
  unfold set_col_const. rewrite get_set_col_eq. f_equal.
Qed.

Lemma length_localize ts : length (localize ts) = length ts.
Proof. apply length_fmap. Qed.

Lemma localize_lookup ts (i : nat) x :
  localize ts !! i = Some (Some x) → ∃ u, ts !! i = Some (Some u) ∧ x = to_local u.
Proof.
  unfold localize. rewrite list_lookup_fmap, fmap_Some.
  intros ([u|] & Hu & [= ->]). eauto.
Qed.

(** C11: Every row [clean_weather_raw] keeps is a reading of the log: its time
    stamp is the local time of the reading and lies in the window, its
    temperature is the reading converted to Fahrenheit, every other cell
    is the one of the log. *)
Theorem clean_weather_raw_row df s e pat t lo hi l (j : nat) x :
  wf_frame df → clean_weather_raw df s e pat = Val t →
  to_datetime s = Val lo → to_datetime e = Val hi →
  stamps t = Some l → l !! j = Some x →
  ∃ i text u a b, cell_at "Timestamp" i df = Some (CStr text) ∧
    to_datetime text = Val u ∧ x = to_local u ∧ lo ≤ x ≤ hi ∧
    cell_at "AMBIENT TEMP" i df = Some a ∧ cell_c_to_f a = Val b ∧
    cell_at "AMBIENT TEMP" j (body t) = Some b ∧
    ∀ c, c ≠ "AMBIENT TEMP" → has_col c (body t) = true →
      cell_at c j (body t) = cell_at c i df.
Proof.
  intros Hwf (ts & Hts & (w & Hw & (amb & Hamb & (amb' & Hamb' & [= <-])%bind_Val)
    %bind_Val)%bind_Val)%bind_Val Hlo Hhi Hl%stamps_table_filter Hx.
  pose proof (parse_stamps_length _ _ _ Hwf Hts) as Hlen.
  rewrite <- length_localize in Hlen.
  destruct (window_row _ _ _ _ _ _ _ _ _ _ Hwf Hlen Hw Hlo Hhi Hl Hx)
    as (i & Hi & Hb & Hd).
  destruct (localize_lookup _ _ _ Hi) as (u & Hu & ->).
  destruct (parse_stamps_lookup _ _ _ _ _ Hts Hu) as (text & Ht & Hp).
  assert (has_col "AMBIENT TEMP" (body (table_filter pat w)) = true) as Hc
    by (apply get_col_is_Val; by exists amb).
  destruct (cell_at_table_filter _ _ _ j Hc) as [Hcw Hj].
  destruct (Hd _ Hcw) as [Hcd Hji].
  destruct (cell_at_is_Some "AMBIENT TEMP" i df Hwf Hcd) as [a Ha];
    [rewrite <- Hlen; by eapply lookup_lt_Some|].
  rewrite (cell_at_get_col _ _ _ _ Hamb), Hji, Ha in Hj.
  destruct (series_apply_lookup _ _ _ _ _ Hamb' Hj) as (b & Hb' & Hab).
  exists i, text, u, a, b. cbn [body].
  split; [done|split; [done|split; [done|split; [done|split; [done|split; [done|split]]]]]].
  - by rewrite cell_at_set_col_eq.
  - intros c Hne Hh. rewrite cell_at_set_col_ne by done.
    rewrite has_col_set_col, (bool_decide_eq_false_2 _ Hne), orb_false_r in Hh.
    destruct (cell_at_table_filter pat w c j Hh) as [Hh' Hq].
    etrans; [exact Hq | by apply Hd].
Qed.

(** C8: Every row [clean_tstat_raw] keeps is a reading of the log: its time
    stamp is the local time of the reading and lies in the window, it
    carries the identifier of the home, and every other cell is the cell
    of a column of the log that the pattern selects, under the name
    without ".1". *)
Theorem clean_tstat_raw_row df s e pat rlid t lo hi l (j : nat) x :
  wf_frame df → NoDup (col_names df) →
  clean_tstat_raw df s e pat rlid = Val t →
  to_datetime s = Val lo → to_datetime e = Val hi →
  stamps t = Some l → l !! j = Some x →
  ∃ i text u, cell_at "Timestamp" i df = Some (CStr text) ∧
    to_datetime text = Val u ∧ x = to_local u ∧ lo ≤ x ≤ hi ∧
    cell_at "RLID" j (body t) = Some (CStr rlid) ∧
    ∀ c', c' ≠ "RLID" → has_col c' (body t) = true →
      ∃ c, remove_dot1 c = c' ∧ re_search pat c = true ∧
        cell_at c' j (body t) = cell_at c i df.
Proof.
  intros Hwf Hnd (ts & w & Hts & Hw & ->)%clean_tstat_raw_Val Hlo Hhi
    Hl%stamps_clean_cols Hx.
  pose proof (parse_stamps_length _ _ _ Hwf Hts) as Hlen.
  rewrite <- length_localize in Hlen.
  destruct (window_row _ _ _ _ _ _ _ _ _ _ Hwf Hlen Hw Hlo Hhi Hl Hx)
    as (i & Hi & Hb & Hd).
  destruct (localize_lookup _ _ _ Hi) as (u & Hu & ->).
  destruct (parse_stamps_lookup _ _ _ _ _ Hts Hu) as (text & Ht & Hp).
  assert (wf_table w) as (_ & Hs & _)
    by (by apply (wf_select_window s e (localize ts) (data_cols df));
          [apply wf_data_cols | | apply data_cols_no_Timestamp |]).
  rewrite Hl in Hs. simpl in Hs.
  assert (NoDup (col_names (body w))) as Hndw.
  { apply select_window_Val in Hw as (? & ? & _ & _ & ->). cbn [body].
    rewrite col_names_select_rows. by apply NoDup_filter_cols. }
  exists i, text, u. split; [done|split; [done|split; [done|split; [done|split]]]].
  - cbn [body]. unfold set_col_const. rewrite cell_at_set_col_eq.
    apply lookup_replicate_2. apply lookup_lt_Some in Hx. rewrite Hs in Hx. exact Hx.
  - intros c' Hne Hh. cbn [body] in Hh |- *. unfold set_col_const in Hh |- *.
    rewrite cell_at_set_col_ne by done.
    rewrite has_col_set_col, (bool_decide_eq_false_2 _ Hne), orb_false_r in Hh.
    destruct (clean_cols_cell pat c' (body w) Hndw Hh) as (c & Hc & Hk & Hcw & He).
    exists c. split; [done|split; [done|]]. etrans; [apply He | by apply Hd].
Qed.

End clean.

(** * Examples *)

(** A thermostat log: a reading before the window (04:59 UTC on the first
    day is 23:59 of the day before in the Central zone), two readings
    inside, a column that is not wanted and a duplicated empty column. *)
Definition ex_tstat_raw : frame :=
  Frame [0; 1; 2]
    [("Timestamp", [CStr "2019-09-01 04:59:00"; CStr "2019-09-01 05:00:30";
                    CStr "2019-09-01 05:10:00"]);
     ("Zone0 Cool Setpoint", [num 74; num 76; num 76]);
     ("Zone0 Cool Setpoint.1", [CNull; CNull; CNull]);
     ("Humidity", [num 40; num 41; num 42])].

Definition ex_tstat_clean : table :=
  Table (Some [1567296030; 1567296600])
    (Frame [1; 2]
       [("Zone0 Cool Setpoint", [num 76; num 76]);
        ("RLID", [CStr "RL1"; CStr "RL1"])]).

Lemma ex_clean :
  @clean_tstat_raw (us_central 2019) ex_tstat_raw start_time end_time
    tstat_col_substrings "RL1" = Val ex_tstat_clean.
Proof. by_compute. Qed.

Lemma clean_tstat_raw_window_witness :
  Forall (λ x, 1567296000 ≤ x ≤ 1569801600) [1567296030; 1567296600].
Proof.
  by apply (@clean_tstat_raw_window (us_central 2019) ex_tstat_raw start_time
    end_time tstat_col_substrings "RL1" ex_tstat_clean _ _ _ ex_clean).
Defined.

Lemma clean_tstat_raw_RLID_witness :
  get_col "RLID" (body ex_tstat_clean) =
    Val (replicate (shape0 ex_tstat_clean) (CStr "RL1")).
Proof.
  apply (@clean_tstat_raw_RLID (us_central 2019) ex_tstat_raw start_time
    end_time tstat_col_substrings "RL1" ex_tstat_clean ex_clean).
Defined.

Lemma clean_tstat_raw_row_witness :
  ∃ i text u, cell_at "Timestamp" i ex_tstat_raw = Some (CStr text) ∧
    to_datetime text = Val u ∧ 1567296600 = to_local (H := us_central 2019) u ∧
    1567296000 ≤ 1567296600 ≤ 1569801600 ∧
    cell_at "RLID" 1 (body ex_tstat_clean) = Some (CStr "RL1") ∧
    ∀ c', c' ≠ "RLID" → has_col c' (body ex_tstat_clean) = true →
      ∃ c, remove_dot1 c = c' ∧ re_search tstat_col_substrings c = true ∧
        cell_at c' 1 (body ex_tstat_clean) = cell_at c i ex_tstat_raw.
Proof.
  apply (clean_tstat_raw_row (H := us_central 2019) ex_tstat_raw start_time end_time
           tstat_col_substrings "RL1" ex_tstat_clean 1567296000 1569801600
           [1567296030; 1567296600] 1 1567296600);
    [by_compute | by_compute | apply ex_clean | apply to_datetime_start
    | apply to_datetime_end | done | done].
Defined.

(** Three rows of a load log: one in the window for the HVAC group, one
    for another group, one after the window. *)
Definition ex_load_raw : frame :=
  Frame [0; 1; 2]
    [("timestamp.ct", [CStr "2019-09-01 00:10:00"; CStr "2019-09-01 00:20:00";
                       CStr "2019-10-05 00:00:00"]);
     ("beopt.group", [CStr "Heating/Cooling"; CStr "Lighting"; CStr "Heating/Cooling"]);
     ("value", [num 1200; num 40; num 900])].

Definition ex_load_clean : table :=
  Table (Some [1567296600]) (Frame [0] [("value", [num 1200])]).

Lemma ex_clean_load :
  clean_load_raw ex_load_raw start_time end_time load_col_substrings = Val ex_load_clean.
Proof. by_compute. Qed.

Lemma clean_load_raw_row_witness :
  ∃ i text, cell_at "timestamp.ct" i ex_load_raw = Some (CStr text) ∧
    to_datetime text = Val 1567296600 ∧ 1567296000 ≤ 1567296600 ≤ 1569801600 ∧
    cell_at "beopt.group" i ex_load_raw = Some (CStr "Heating/Cooling") ∧
    ∀ c, has_col c (body ex_load_clean) = true →
      cell_at c 0 (body ex_load_clean) = cell_at c i ex_load_raw.
Proof.
  apply (clean_load_raw_row ex_load_raw start_time end_time load_col_substrings
           ex_load_clean 1567296000 1569801600 [1567296600] 0 1567296600);
    [by_compute | apply ex_clean_load | apply to_datetime_start
    | apply to_datetime_end | done | done].
Defined.

(** Two weather readings, at 12:00 and 13:00 UTC of the second day: 20
    and 25 degrees Celsius. *)
Definition ex_weather_raw : frame :=
  Frame [0; 1]
    [("Timestamp", [CStr "2019-09-02 12:00:00"; CStr "2019-09-02 13:00:00"]);
     ("AMBIENT TEMP", [num 20; num 25]); ("HUMIDITY", [num 40; num 45])].

Definition ex_weather_clean : table :=
  Table (Some [1567407600; 1567411200])
    (Frame [0; 1] [("AMBIENT TEMP", [num 68; num 77])]).

Lemma ex_clean_weather :
  clean_weather_raw (H := us_central 2019) ex_weather_raw start_time end_time
    weather_col_substrings = Val ex_weather_clean.
Proof. by_compute. Qed.

Lemma clean_weather_raw_row_witness :
  ∃ i text u a b, cell_at "Timestamp" i ex_weather_raw = Some (CStr text) ∧
    to_datetime text = Val u ∧ 1567411200 = to_local (H := us_central 2019) u ∧
    1567296000 ≤ 1567411200 ≤ 1569801600 ∧
    cell_at "AMBIENT TEMP" i ex_weather_raw = Some a ∧ cell_c_to_f a = Val b ∧
    cell_at "AMBIENT TEMP" 1 (body ex_weather_clean) = Some b ∧
    ∀ c, c ≠ "AMBIENT TEMP" → has_col c (body ex_weather_clean) = true →
      cell_at c 1 (body ex_weather_clean) = cell_at c i ex_weather_raw.
Proof.
  apply (clean_weather_raw_row (H := us_central 2019) ex_weather_raw start_time end_time
           weather_col_substrings ex_weather_clean 1567296000 1569801600
           [1567407600; 1567411200] 1 1567411200);
    [by_compute | apply ex_clean_weather | apply to_datetime_start
    | apply to_datetime_end | done | done].
Defined.
