(* ===== verification/Merge.v ===== *)
(** * Joining frames on the time stamp

    [pd.concat(frames, axis=1)], the outer join on the index that
    [merge_datasets] and [resample_hvac_to_daily] use, and
    [DataFrame.append], the row-wise concatenation of the main loop.

    Frames with the same index are put side by side.  Otherwise the
    result is indexed by the sorted union of the indices and every frame
    is laid out on it, a missing row giving missing cells; pandas refuses
    that for a frame whose index repeats a label. *)

From S2P Require Import Prelude Cell Frame Table.

(** The sorted union of the indices. *)
Definition index_union (idxs : list (list Z)) : list Z :=
  merge_sort Z.le (remove_dups (mjoin idxs)).

(** The cell of the first row labelled [g], missing when there is none. *)
Definition cell_of_label (idx : list Z) (v : list cell) (g : Z) : cell :=
  default CNull (head (mask_filter ((λ t, bool_decide (t = g)) <$> idx) v)).

(** [df.reindex(labels)]. *)
Definition reindex (labels : list Z) (df : frame) : frame :=
  Frame labels
    (prod_map id (λ v, cell_of_label (index df) v <$> labels) <$> columns df).

Definition same_index (dfs : list frame) : bool :=
  match dfs with
  | [] => true
  | df :: dfs' => forallb (λ df', bool_decide (index df' = index df)) dfs'
  end.

(** [pd.concat(dfs, axis=1)]. *)
Definition concat_axis1 (dfs : list frame) : res frame :=
  match dfs with
  | [] => Raise ValueError
  | df :: _ =>
      if same_index dfs then Val (Frame (index df) (dfs ≫= columns))
      else if forallb (λ df, bool_decide (NoDup (index df))) dfs
      then let labels := index_union (index <$> dfs) in
           Val (Frame labels (dfs ≫= (λ df, columns (reindex labels df))))
      else Raise ValueError
  end.

Definition merge_datasets (df1 df2 df3 : table) : res table :=
  df1 ← set_index df1;
  df2 ← set_index df2;
  df3 ← set_index df3;
  df_out ← concat_axis1 [df1; df2; df3];
  Val (reset_index df_out).

(** The column called [c] of a frame, all missing when the frame has
    none. *)
Definition col_or_null (c : string) (df : frame) : list cell :=
  default (replicate (nrows df) CNull) (lookup_col c (columns df)).

Definition str_le (a b : string) : Prop := String.leb a b = true.

#[export] Instance str_le_dec a b : Decision (str_le a b).
Proof. unfold str_le. apply _. Defined.

(** [df.append(other)]: the rows of [other] after those of [df].  A frame
    without rows and columns contributes nothing; frames with different
    columns give the sorted union of the columns. *)
Definition append (df other : frame) : frame :=
  if bool_decide (df = empty_frame) then other
  else if bool_decide (other = empty_frame) then df
  else
    let names :=
      if bool_decide (col_names df = col_names other) then col_names df
      else merge_sort str_le (remove_dups (col_names df ++ col_names other)) in
    Frame (index df ++ index other)
      ((λ c, (c, col_or_null c df ++ col_or_null c other)) <$> names).

(** * Lemmas *)

Lemma index_union_sorted idxs : StronglySorted Z.le (index_union idxs).
Proof. apply (StronglySorted_merge_sort _). Qed.

Lemma index_union_NoDup idxs : NoDup (index_union idxs).
Proof. unfold index_union. rewrite merge_sort_Permutation. apply NoDup_remove_dups. Qed.

Lemma elem_of_index_union idxs g :
  g ∈ index_union idxs ↔ ∃ idx, idx ∈ idxs ∧ g ∈ idx.
Proof.
  unfold index_union.
  rewrite merge_sort_Permutation, elem_of_remove_dups, list_elem_of_join.
  split; intros (idx & ? & ?); by exists idx.
Qed.

Lemma cell_of_label_elem idx v g :
  cell_of_label idx v g = CNull ∨ cell_of_label idx v g ∈ v.
Proof.
  unfold cell_of_label. destruct (mask_filter _ v) as [|c l] eqn:E; [by left|].
  right. simpl. eapply elem_of_mask_filter. rewrite E. left.
Qed.

(** A label the frame has keeps the cells of its row. *)
Lemma cell_of_label_lookup idx v g i c :
  NoDup idx → length v = length idx →
  idx !! i = Some g → v !! i = Some c → cell_of_label idx v g = c.
Proof.
  unfold cell_of_label. revert v i.
  induction idx as [|t idx IH]; intros [|c0 v] [|i] Hnd Hl; simplify_eq/=; try done.
  - intros [= ->] [= ->]. by rewrite bool_decide_eq_true_2.
  - intros Hg Hc. apply NoDup_cons in Hnd as [Ht Hnd].
    rewrite bool_decide_eq_false_2; [by eapply IH|].
    intros ->. apply Ht. by eapply list_elem_of_lookup_2.
Qed.

(** A label the frame does not have gives a missing cell. *)
Lemma cell_of_label_absent idx v g : g ∉ idx → cell_of_label idx v g = CNull.
Proof.
  intros Hg. unfold cell_of_label. rewrite mask_filter_all_false; [done|].
  rewrite Forall_fmap. apply list.Forall_forall. intros t Ht. simpl.
  apply bool_decide_eq_false_2. by intros ->.
Qed.

Lemma wf_reindex labels df : wf_frame (reindex labels df).
Proof.
  unfold wf_frame, reindex, nrows. simpl. rewrite Forall_fmap.
  apply list.Forall_forall. intros [c v] _. simpl. by rewrite length_fmap.
Qed.

Lemma col_names_reindex labels df : col_names (reindex labels df) = col_names df.
Proof. apply col_names_prod_map. Qed.

Lemma same_index_Forall df dfs :
  same_index (df :: dfs) = true ↔ Forall (λ df', index df' = index df) dfs.
Proof.
  simpl. rewrite forallb_forall, list.Forall_forall.
  setoid_rewrite bool_decide_eq_true. by setoid_rewrite <- list_elem_of_In.
Qed.

Lemma concat_axis1_Raise dfs e : concat_axis1 dfs = Raise e → e = ValueError.
Proof. unfold concat_axis1. repeat case_match; by intros [= <-]. Qed.

Lemma wf_bind_columns labels (dfs : list frame) (g : frame → frame) :
  (∀ df, df ∈ dfs → Forall (λ cv, length cv.2 = length labels) (columns (g df))) →
  wf_frame (Frame labels (dfs ≫= (λ df, columns (g df)))).
Proof.
  intros Hg. unfold wf_frame, nrows. cbn [index columns].
  apply list.Forall_forall. intros cv (df & Hcv & Hin)%list_elem_of_bind.
  specialize (Hg df Hin). rewrite list.Forall_forall in Hg. by apply Hg.
Qed.


(** C29: In the join every frame keeps its rows: the cell of a column at a
    label of its frame is the cell the frame had there. *)
Theorem reindex_lookup labels df c v (i j : nat) g x :
  wf_frame df → NoDup (index df) →
  lookup_col c (columns df) = Some v →
  index df !! i = Some g → v !! i = Some x → labels !! j = Some g →
  cell_at c j (reindex labels df) = Some x.
Proof.
  intros Hwf Hnd Hv Hg Hx Hj. unfold cell_at, reindex. cbn [columns].
  rewrite lookup_col_prod_map, Hv. simpl. rewrite list_lookup_fmap, Hj. simpl.
  f_equal. eapply cell_of_label_lookup; try done.
  by apply (lookup_col_Forall (λ v, length v = nrows df) c (columns df)).
Qed.

Lemma merge_datasets_Val t1 t2 t3 out :
  merge_datasets t1 t2 t3 = Val out ↔
    ∃ f1 f2 f3 f, set_index t1 = Val f1 ∧ set_index t2 = Val f2 ∧
      set_index t3 = Val f3 ∧ concat_axis1 [f1; f2; f3] = Val f ∧
      out = reset_index f.
Proof.
  unfold merge_datasets. split.
  - intros (f1 & ? & (f2 & ? & (f3 & ? & (f & ? & [= <-])%bind_Val)%bind_Val)%bind_Val)%bind_Val.
    by exists f1, f2, f3, f.
  - intros (f1 & f2 & f3 & f & -> & -> & -> & Hf & ->). cbn [mbind res_bind].
    by rewrite Hf.
Qed.

(** C28: The merged frame has the time stamps of the three sources and no
    other. *)
Theorem merge_datasets_stamps t1 t2 t3 out ts1 ts2 ts3 g :
  merge_datasets t1 t2 t3 = Val out →
  stamps t1 = Some ts1 → stamps t2 = Some ts2 → stamps t3 = Some ts3 →
  ∃ ts, stamps out = Some ts ∧ (g ∈ ts ↔ g ∈ ts1 ∨ g ∈ ts2 ∨ g ∈ ts3).
Proof.
  intros (f1 & f2 & f3 & f & (?&?&->)%set_index_Val & (?&?&->)%set_index_Val &
    (?&?&->)%set_index_Val & Hf & ->)%merge_datasets_Val ? ? ?. simplify_eq.
  exists (index f). split; [done|]. unfold concat_axis1 in Hf.
  destruct (same_index _) eqn:Hs; [|case_match; [|done]]; simplify_eq/=.
  - apply andb_true_iff in Hs as [->%bool_decide_eq_true Hs].
    apply andb_true_iff in Hs as [->%bool_decide_eq_true _]. tauto.
  - rewrite elem_of_index_union. set_solver.
Qed.

(** ** Appending rows *)

Lemma append_empty_l other : append empty_frame other = other.
Proof. done. Qed.

Lemma append_empty_r df : append df empty_frame = df.
Proof.
  unfold append. case_bool_decide as Hd; [by subst|]. by rewrite bool_decide_eq_true_2.
Qed.

Lemma index_append df other : index (append df other) = index df ++ index other.
Proof.
  unfold append. repeat case_bool_decide; subst; simpl; by rewrite ?app_nil_r.
Qed.

Lemma nrows_append df other : nrows (append df other) = (nrows df + nrows other)%nat.
Proof. unfold nrows. by rewrite index_append, length_app. Qed.

Lemma length_col_or_null c df : wf_frame df → length (col_or_null c df) = nrows df.
Proof.
  intros Hwf. unfold col_or_null.
  destruct (lookup_col c (columns df)) as [v|] eqn:Hv; simpl.
  - by apply (lookup_col_Forall (λ v, length v = nrows df) c (columns df)).
  - apply length_replicate.
Qed.

Lemma wf_append df other : wf_frame df → wf_frame other → wf_frame (append df other).
Proof.
  intros Hd Ho. unfold append. repeat case_bool_decide; try done;
    unfold wf_frame, nrows; cbn [index columns]; rewrite Forall_fmap;
    apply list.Forall_forall; intros c _; simpl;
    by rewrite !length_app, !length_col_or_null.
Qed.

Lemma index_foldl_append b (ds : list frame) :
  index (foldl append b ds) = index b ++ mjoin (index <$> ds).
Proof.
  revert b. induction ds as [|d ds IH]; intros b; simpl; [by rewrite app_nil_r|].
  by rewrite IH, index_append, <- app_assoc.
Qed.

(** * Examples *)

Definition ex_left : frame := Frame [0; 3600] [("csp_0", [num 74; num 76])].
Definition ex_right : frame := Frame [3600; 7200] [("hvac_W", [num 900; num 1100])].

Definition ex_joined : frame :=
  Frame [0; 3600; 7200]
    [("csp_0", [num 74; num 76; CNull]); ("hvac_W", [CNull; num 900; num 1100])].

Lemma ex_join : concat_axis1 [ex_left; ex_right] = Val ex_joined.
Proof. by_compute. Qed.


Lemma reindex_lookup_witness :
  cell_at "hvac_W" 1 (reindex [0; 3600; 7200] ex_right) = Some (num 900).
Proof.
  apply (reindex_lookup [0; 3600; 7200] ex_right "hvac_W" [num 900; num 1100] 0 1 3600);
    by_compute.
Defined.

Definition ex_weather : frame := Frame [0] [("amb_temp", [num 80])].

Definition ex_merged : table :=
  Table (Some [0; 3600; 7200])
    (Frame [0; 1; 2]
       [("csp_0", [num 74; num 76; CNull]); ("hvac_W", [CNull; num 900; num 1100]);
        ("amb_temp", [num 80; CNull; CNull])]).

Lemma ex_merge :
  merge_datasets (reset_index ex_left) (reset_index ex_right) (reset_index ex_weather)
    = Val ex_merged.
Proof. by_compute. Qed.

Lemma merge_datasets_stamps_witness :
  ∃ ts, stamps ex_merged = Some ts ∧
    (7200 ∈ ts ↔ 7200 ∈ [0; 3600] ∨ 7200 ∈ [3600; 7200] ∨ 7200 ∈ [0]).
Proof.
  by apply (merge_datasets_stamps (reset_index ex_left) (reset_index ex_right)
    (reset_index ex_weather) ex_merged _ _ _ 7200 ex_merge).
Defined.
