(* ===== verification/Daily.v ===== *)
(** * Daily aggregation

    [resample_hvac_to_daily]: the hourly frame of one home is cut into
    calendar days; the degree days are averaged, the load is summed and
    turned into kWh, the identifier of the home is carried over, and the
    days with a missing value are dropped. *)

From S2P Require Import Prelude Cell Frame Table Stats Timestamps Resample Merge.

#[local] Open Scope Qc_scope.

(** The keys of the three dictionaries, in the order of the script. *)
Definition cols_apply_avg : list string :=
  ["hdd_0"; "hdd_1"; "hdd_2"; "cdd_0"; "cdd_1"; "cdd_2"].
Definition cols_apply_sum : list string := ["hvac_W"].
Definition cols_apply_first : list string := ["RLID"].

(** [{key: value for (key, value) in d.items() if key in df}]. *)
Definition keys_in (keys : list string) (df : table) : list string :=
  filter (λ key, has_col key (body df) = true) keys.

(** The named reducers.  "mean" is refused for a column of text. *)
Inductive how : Set := Mean | Sum | First.

Definition agg_how (h : how) (v : list cell) : res (list cell → cell) :=
  match h with
  | Mean => if numeric_col v then Val agg_mean else Raise DataError
  | Sum => Val agg_sum
  | First => Val agg_first
  end.

(** [df.resample(w).agg({key: h, ...})]: one column per key, in the order
    of the keys; an empty dictionary gives an empty frame. *)
Definition resample_agg (w : Z) (h : how) (keys : list string) (df : frame)
    : res frame :=
  if decide (keys = []) then Val empty_frame
  else
    let df := sort_index df in
    let labels := bin_labels w (index df) in
    cols ← res_mapM (λ key,
              v ← get_col key df;
              agg ← agg_how h v;
              Val (key, (λ b, agg (bucket w b (index df) v)) <$> labels)) keys;
    Val (Frame labels cols).

(** [x / 1000] on one cell. *)
Definition cell_div (d : Qc) (c : cell) : res cell :=
  match c with
  | CNum x => Val (CNum (x / d))
  | CNull => Val CNull
  | CStr _ => Raise TypeError
  end.

Definition resample_hvac_to_daily (df : table) : res frame :=
  let cols_apply_avg := keys_in cols_apply_avg df in
  let cols_apply_sum := keys_in cols_apply_sum df in
  let cols_apply_first := keys_in cols_apply_first df in
  df ← set_index df;
  df_means ← resample_agg day Mean cols_apply_avg df;
  df_sums ← resample_agg day Sum cols_apply_sum df;
  df_firsts ← resample_agg day First cols_apply_first df;
  w ← get_col "hvac_W" df_sums;
  kwh ← series_apply (cell_div (qz 1000)) w;
  let df_sums := set_col "hvac_kWh" kwh df_sums in
  df_sums ← del_col "hvac_W" df_sums;
  df_out ← concat_axis1 [df_means; df_sums; df_firsts];
  Val (dropna_rows df_out).

(** ** The daily frame in one piece *)

(** The three aggregations of the script on the frame [f], in one piece:
    per day the means of the keys [avg], the sum of the load in kWh and
    the first identifier. *)
Definition daily_labels (f : frame) : list Z :=
  bin_labels day (index (sort_index f)).

(** Column [key] of the frame in time order; empty when there is none. *)
Definition col_sorted (f : frame) (key : string) : list cell :=
  default [] (lookup_col key (columns (sort_index f))).

(** The cell of column [key] for the day that starts at [d]. *)
Definition day_cell (f : frame) (agg : list cell → cell) (key : string) (d : Z)
    : cell :=
  agg (bucket day d (index (sort_index f)) (col_sorted f key)).

Definition day_cells (f : frame) (agg : list cell → cell) (key : string)
    : list cell :=
  day_cell f agg key <$> daily_labels f.

Definition kwh (c : cell) : cell :=
  match c with CNum x => CNum (x / qz 1000) | _ => CNull end.

Definition daily_frame (f : frame) (avg : list string) : frame :=
  Frame (daily_labels f)
    (((λ key, (key, day_cells f agg_mean key)) <$> avg) ++
     [("hvac_kWh", kwh <$> day_cells f agg_sum "hvac_W");
      ("RLID", day_cells f agg_first "RLID")]).

(** * Lemmas *)

(** ** Key selection *)

Lemma keys_in_absent key df : has_col key (body df) = false → keys_in [key] df = [].
Proof.
  intros H. unfold keys_in. rewrite filter_cons, decide_False; [done|]. by rewrite H.
Qed.

Lemma keys_in_present key t : has_col key (body t) = true → keys_in [key] t = [key].
Proof. intros H. unfold keys_in. by rewrite filter_cons, decide_True, filter_nil. Qed.

Lemma keys_in_has_col keys t key : key ∈ keys_in keys t → has_col key (body t) = true.
Proof. unfold keys_in. by intros [? _]%list_elem_of_filter. Qed.

Lemma keys_in_sublist keys t : keys_in keys t `sublist_of` keys.
Proof. apply sublist_filter. Qed.

Lemma kWh_not_avg t : "hvac_kWh" ∉ keys_in cols_apply_avg t.
Proof.
  intros Hin. assert ("hvac_kWh" ∉ cols_apply_avg) as Hno by by_compute.
  by apply Hno, (elem_of_sublist _ _ _ Hin), keys_in_sublist.
Qed.

Lemma has_col_set_index t f c :
  set_index t = Val f → has_col c f = has_col c (body t).
Proof. intros Hc%columns_set_index. unfold has_col, col_names. by rewrite Hc. Qed.

Lemma keys_in_set_index keys t f :
  set_index t = Val f → Forall (λ key, has_col key f = true) (keys_in keys t).
Proof.
  intros Hf. apply list.Forall_forall. intros key ?%keys_in_has_col.
  by rewrite (has_col_set_index t).
Qed.

(** ** One aggregation *)

Lemma has_col_sort_index c f : has_col c (sort_index f) = has_col c f.
Proof. unfold has_col. by rewrite col_names_sort_index. Qed.

Lemma resample_agg_nil w h f : resample_agg w h [] f = Val empty_frame.
Proof. done. Qed.

Lemma resample_agg_one (agg : list cell → cell) h key f :
  has_col key f = true → (∀ v, agg_how h v = Val agg) →
  resample_agg day h [key] f = Val (Frame (daily_labels f) [(key, day_cells f agg key)]).
Proof.
  intros Hk Hagg. unfold resample_agg. rewrite decide_False by done.
  cbn [res_mapM]. rewrite <- has_col_sort_index in Hk.
  apply get_col_is_Val in Hk as [v Hv]. rewrite Hv. cbn [mbind res_bind].
  rewrite Hagg. cbn [mbind res_bind]. unfold day_cells, day_cell, col_sorted.
  apply get_col_Val in Hv. by rewrite Hv.
Qed.

Lemma resample_agg_mean keys f :
  keys ≠ [] → Forall (λ key, has_col key f = true) keys →
  Forall (λ key, numeric_col (col_sorted f key) = true) keys →
  resample_agg day Mean keys f =
    Val (Frame (daily_labels f) ((λ key, (key, day_cells f agg_mean key)) <$> keys)).
Proof.
  intros Hne Hk Hn. unfold resample_agg. rewrite decide_False by done.
  rewrite (res_mapM_fmap _ (λ key, (key, day_cells f agg_mean key))); [done|].
  rewrite list.Forall_forall in Hk, Hn. apply list.Forall_forall. intros key Hin.
  specialize (Hk key Hin). specialize (Hn key Hin). unfold col_sorted in Hn.
  rewrite <- has_col_sort_index in Hk. apply get_col_is_Val in Hk as [v Hv].
  rewrite Hv. apply get_col_Val in Hv. rewrite Hv in Hn. simpl in Hn.
  cbn [mbind res_bind agg_how]. rewrite Hn. cbn [mbind res_bind].
  unfold day_cells, day_cell, col_sorted. by rewrite Hv.
Qed.

(** An aggregation over columns the frame has fails only as "mean" of a
    column of text. *)
Lemma resample_agg_Raise h keys f e :
  Forall (λ key, has_col key f = true) keys →
  resample_agg day h keys f = Raise e →
  h = Mean ∧ e = DataError ∧
  ∃ key, key ∈ keys ∧ numeric_col (col_sorted f key) = false.
Proof.
  intros Hk. unfold resample_agg. case_decide; [done|].
  destruct (res_mapM _ keys) as [cols|e'] eqn:Hm; cbn [mbind res_bind]; [done|].
  intros [= ->]. apply res_mapM_Raise in Hm as (key & Hin & Hr).
  rewrite list.Forall_forall in Hk. specialize (Hk key Hin).
  rewrite <- has_col_sort_index in Hk. apply get_col_is_Val in Hk as [v Hv].
  rewrite Hv in Hr. cbn [mbind res_bind] in Hr. apply get_col_Val in Hv.
  assert (col_sorted f key = v) as Hcs by (unfold col_sorted; by rewrite Hv).
  clear Hv. destruct h; simpl in Hr; [|done..].
  destruct (numeric_col v) eqn:E; simplify_eq/=.
  split_and!; [done..|]. by exists key.
Qed.

Lemma series_div_numeric v :
  Forall (λ c, is_numeric c = true) v →
  series_apply (cell_div (qz 1000)) v = Val (kwh <$> v).
Proof.
  intros H. unfold series_apply. apply res_mapM_fmap.
  eapply list.Forall_impl; [exact H|]. by intros [].
Qed.

Lemma day_cells_sum_numeric f key :
  Forall (λ c, is_numeric c = true) (day_cells f agg_sum key).
Proof. unfold day_cells. rewrite Forall_fmap. by apply list.Forall_forall. Qed.

(** ** The one-piece frame *)

Lemma lookup_col_keys c (g : string → list cell) keys :
  lookup_col c ((λ key, (key, g key)) <$> keys) =
    if decide (c ∈ keys) then Some (g c) else None.
Proof.
  induction keys as [|k keys IH]; [done|]. rewrite fmap_cons. cbn [lookup_col].
  destruct (decide (k = c)) as [->|Hne].
  - rewrite decide_True; [done | left].
  - rewrite IH. destruct (decide (c ∈ keys)).
    + rewrite decide_True; [done | by right].
    + rewrite decide_False; [done|]. rewrite elem_of_cons. by intros [->|?].
Qed.

Lemma daily_frame_kwh f avg (i : nat) d :
  "hvac_kWh" ∉ avg → daily_labels f !! i = Some d →
  cell_at "hvac_kWh" i (daily_frame f avg) = Some (kwh (day_cell f agg_sum "hvac_W" d)).
Proof.
  intros Hk Hd. unfold cell_at, daily_frame. cbn [columns].
  rewrite lookup_col_app, lookup_col_keys, decide_False by done. simpl.
  unfold day_cells. by rewrite !list_lookup_fmap, Hd.
Qed.

Lemma daily_frame_mean f avg key (i : nat) d :
  key ∈ avg → daily_labels f !! i = Some d →
  cell_at key i (daily_frame f avg) = Some (day_cell f agg_mean key d).
Proof.
  intros Hk Hd. unfold cell_at, daily_frame. cbn [columns].
  rewrite lookup_col_app, lookup_col_keys, decide_True by done. simpl.
  unfold day_cells. by rewrite !list_lookup_fmap, Hd.
Qed.

Lemma wf_daily_frame f avg : wf_frame (daily_frame f avg).
Proof.
  unfold wf_frame, daily_frame, nrows. cbn [index columns].
  apply Forall_app. split.
  - rewrite Forall_fmap. apply list.Forall_forall. intros key _. simpl.
    unfold day_cells. by rewrite length_fmap.
  - unfold day_cells. repeat constructor; simpl; by rewrite !length_fmap.
Qed.

Lemma daily_labels_sorted f : StronglySorted Z.lt (daily_labels f).
Proof. apply bin_labels_sorted. unfold day, hour, minute. lia. Qed.

Lemma daily_labels_midnight f d : d ∈ daily_labels f → floor_to day d = d.
Proof. apply bin_labels_on_grid. unfold day, hour, minute. lia. Qed.

(** ** The aggregation *)

Lemma resample_hvac_to_daily_has_load df out :
  resample_hvac_to_daily df = Val out → has_col "hvac_W" (body df) = true.
Proof.
  unfold resample_hvac_to_daily. intros Hr.
  destruct (has_col "hvac_W" (body df)) eqn:E; [done|].
  unfold cols_apply_sum in Hr. rewrite (keys_in_absent _ _ E) in Hr.
  by repeat case_res.
Qed.

(** C21: A frame without the load column cannot be aggregated: the script
    reads [df_sums["hvac_W"]] of a frame that has no such column, which is
    a [KeyError], unless an earlier step has failed already (no time stamps,
    again a [KeyError], or the mean of a column of text). *)
Theorem resample_hvac_to_daily_needs_load df :
  has_col "hvac_W" (body df) = false →
  resample_hvac_to_daily df = Raise KeyError ∨
  resample_hvac_to_daily df = Raise DataError.
Proof.
  intros E. unfold resample_hvac_to_daily, cols_apply_sum.
  rewrite (keys_in_absent _ _ E).
  destruct (set_index df) as [f|e] eqn:Hf;
    [|apply set_index_Raise in Hf as [_ ->]; by left].
  cbn [mbind res_bind].
  destruct (resample_agg day Mean _ f) as [m|e] eqn:Hm; cbn [mbind res_bind];
    [|apply resample_agg_Raise in Hm as (_ & -> & _);
       [by right | by apply keys_in_set_index]].
  rewrite resample_agg_nil. cbn [mbind res_bind].
  destruct (resample_agg day First _ f) as [m'|e] eqn:Hm'; cbn [mbind res_bind];
    [by left|].
  apply resample_agg_Raise in Hm' as ([=] & _); by apply keys_in_set_index.
Qed.

Section daily.
Context (t : table) (f : frame).
Context (Hf : set_index t = Val f).
Context (Hid : has_col "RLID" (body t) = true).
Context (Hne : keys_in cols_apply_avg t ≠ []).
Context (Hnum : Forall (λ key, numeric_col (col_sorted f key) = true)
                  (keys_in cols_apply_avg t)).

Lemma resample_hvac_to_daily_eq :
  has_col "hvac_W" (body t) = true →
  resample_hvac_to_daily t = Val (dropna_rows (daily_frame f (keys_in cols_apply_avg t))).
Proof using Hf Hid Hne Hnum.
  intros Hw. unfold resample_hvac_to_daily. rewrite Hf.
  pose proof (has_col_set_index t f) as Hhas.
  cbn [mbind res_bind]. rewrite resample_agg_mean; [|exact Hne| |exact Hnum].
  2:{ by apply keys_in_set_index. }
  unfold cols_apply_sum, cols_apply_first. rewrite !keys_in_present by done.
  cbn [mbind res_bind].
  rewrite (resample_agg_one agg_sum Sum) by (by rewrite ?Hhas).
  rewrite (resample_agg_one agg_first First) by (by rewrite ?Hhas).
  cbn [mbind res_bind]. unfold get_col at 1. simpl lookup_col.
  cbn [mbind res_bind]. rewrite series_div_numeric by apply day_cells_sum_numeric.
  cbn [mbind res_bind]. unfold concat_axis1. simpl.
  by rewrite !bool_decide_eq_true_2 by done.
Qed.

(** Row [j] of the output is a row of the one-piece frame, with the same
    label. *)
Lemma resample_hvac_to_daily_row out (j : nat) d :
  resample_hvac_to_daily t = Val out → index out !! j = Some d →
  ∃ i, daily_labels f !! i = Some d ∧
    ∀ c, cell_at c j out = cell_at c i (daily_frame f (keys_in cols_apply_avg t)).
Proof using Hf Hid Hne Hnum.
  intros Hout Hd.
  pose proof (resample_hvac_to_daily_has_load _ _ Hout) as Hw.
  rewrite (resample_hvac_to_daily_eq Hw) in Hout. simplify_eq.
  exact (dropna_rows_row _ _ _ (wf_daily_frame _ _) Hd).
Qed.

(** C10: On an hourly frame that has the identifier and at least one
    degree-day column, these being numbers, [resample_hvac_to_daily]
    returns a frame exactly when the frame has the load column, and the
    frame it returns is the daily frame built in one piece (per day the
    mean of each degree-day column, the load sum in kWh and the first
    identifier), with its incomplete rows dropped. *)
Theorem resample_hvac_to_daily_refines out :
  resample_hvac_to_daily t = Val out ↔
    has_col "hvac_W" (body t) = true ∧
    out = dropna_rows (daily_frame f (keys_in cols_apply_avg t)).
Proof using Hf Hid Hne Hnum.
  split.
  - intros Hout. pose proof (resample_hvac_to_daily_has_load _ _ Hout) as Hw.
    split; [done|]. rewrite (resample_hvac_to_daily_eq Hw) in Hout.
    by injection Hout.
  - intros [Hw ->]. by apply resample_hvac_to_daily_eq.
Qed.

(** C5: The energy of a day of the output is the sum of the hourly load
    readings of that day, divided by 1000. *)
Theorem resample_hvac_to_daily_kwh out (j : nat) d :
  resample_hvac_to_daily t = Val out → index out !! j = Some d →
  cell_at "hvac_kWh" j out =
    Some (CNum (qsum (nums (bucket day d (index (sort_index f)) (col_sorted f "hvac_W")))
                / qz 1000)).
Proof using Hf Hid Hne Hnum.
  intros Hout Hd.
  destruct (resample_hvac_to_daily_row _ _ _ Hout Hd) as (i & Hi & ->).
  by rewrite (daily_frame_kwh _ _ _ d) by (done || apply kWh_not_avg).
Qed.

(** C26: A degree-day column of the output holds, for each day, the mean
    of the hourly values of that day. *)
Theorem resample_hvac_to_daily_mean out key (j : nat) d :
  key ∈ keys_in cols_apply_avg t →
  resample_hvac_to_daily t = Val out → index out !! j = Some d →
  cell_at key j out =
    Some (agg_mean (bucket day d (index (sort_index f)) (col_sorted f key))).
Proof using Hf Hid Hne Hnum.
  intros Hk Hout Hd.
  destruct (resample_hvac_to_daily_row _ _ _ Hout Hd) as (i & Hi & ->).
  by apply daily_frame_mean.
Qed.

(** C27: The rows of the output are labelled by midnights, in increasing
    order, each between the day of the first and the day of the last
    hourly reading. *)
Theorem resample_hvac_to_daily_days out :
  resample_hvac_to_daily t = Val out →
  StronglySorted Z.lt (index out) ∧
  index out `sublist_of` daily_labels f ∧
  Forall (λ d, floor_to day d = d) (index out).
Proof using Hf Hid Hne Hnum.
  intros Hout.
  pose proof (resample_hvac_to_daily_has_load _ _ Hout) as Hw.
  rewrite (resample_hvac_to_daily_eq Hw) in Hout. simplify_eq.
  assert (index (dropna_rows (daily_frame f (keys_in cols_apply_avg t)))
            `sublist_of` daily_labels f) as Hsub by apply index_select_rows_sublist.
  split_and!; [|done|].
  - eapply sublist_StronglySorted; [done | apply daily_labels_sorted].
  - apply list.Forall_forall. intros d Hd. apply (daily_labels_midnight f).
    by eapply elem_of_sublist.
Qed.

End daily.

Lemma resample_hvac_to_daily_dropna t out :
  resample_hvac_to_daily t = Val out → ∃ g, out = dropna_rows g.
Proof.
  unfold resample_hvac_to_daily. intros Hr. repeat case_res. simplify_eq. eauto.
Qed.

(** C22: No partial rows: the frame the aggregation returns has a value in
    every cell. *)
Theorem resample_hvac_to_daily_no_nulls t out :
  resample_hvac_to_daily t = Val out → no_nulls out.
Proof.
  intros [g ->]%resample_hvac_to_daily_dropna. apply dropna_rows_no_nulls.
Qed.

(** * Examples *)

(** Two hours of the first day and one of the second. *)
Definition ex_hours : table :=
  Table (Some [0; 3600; 86400]%Z)
    (Frame [0; 1; 2]%Z
       [("hdd_0", [num 0; num 4; num 10]); ("cdd_0", [num 6; num 0; num 0]);
        ("hvac_W", [num 1500; num 500; num 3000]);
        ("RLID", [CStr "RL1"; CStr "RL1"; CStr "RL1"])]).

Definition ex_hours_indexed : frame :=
  Frame [0; 3600; 86400]%Z (columns (body ex_hours)).

Definition ex_days : frame :=
  Frame [0; 86400]%Z
    [("hdd_0", [num 2; num 10]); ("cdd_0", [num 3; num 0]);
     ("hvac_kWh", [num 2; num 3]); ("RLID", [CStr "RL1"; CStr "RL1"])].

(** The same hours without the load column. *)
Definition ex_no_load : table :=
  Table (Some [0; 3600; 86400]%Z)
    (Frame [0; 1; 2]%Z
       [("hdd_0", [num 0; num 4; num 10]);
        ("RLID", [CStr "RL1"; CStr "RL1"; CStr "RL1"])]).

Lemma ex_daily : resample_hvac_to_daily ex_hours = Val ex_days.
Proof. by_compute. Qed.

Lemma ex_hours_avg : keys_in cols_apply_avg ex_hours = ["hdd_0"; "cdd_0"].
Proof. by_compute. Qed.

Lemma ex_hours_numeric :
  Forall (λ key, numeric_col (col_sorted ex_hours_indexed key) = true)
    (keys_in cols_apply_avg ex_hours).
Proof. rewrite ex_hours_avg. by repeat constructor. Qed.

Lemma ex_hours_nonempty : keys_in cols_apply_avg ex_hours ≠ [].
Proof. by rewrite ex_hours_avg. Qed.

Lemma resample_hvac_to_daily_needs_load_witness :
  resample_hvac_to_daily ex_no_load = Raise KeyError ∨
  resample_hvac_to_daily ex_no_load = Raise DataError.
Proof. by apply (resample_hvac_to_daily_needs_load ex_no_load). Defined.

Lemma resample_hvac_to_daily_refines_witness :
  resample_hvac_to_daily ex_hours = Val ex_days ↔
    has_col "hvac_W" (body ex_hours) = true ∧
    ex_days = dropna_rows (daily_frame ex_hours_indexed (keys_in cols_apply_avg ex_hours)).
Proof.
  by apply (resample_hvac_to_daily_refines ex_hours ex_hours_indexed eq_refl eq_refl
              ex_hours_nonempty ex_hours_numeric).
Defined.

Lemma resample_hvac_to_daily_kwh_witness :
  cell_at "hvac_kWh" 1 ex_days =
    Some (CNum (qsum (nums (bucket day 86400 (index (sort_index ex_hours_indexed))
                              (col_sorted ex_hours_indexed "hvac_W"))) / qz 1000)).
Proof.
  by apply (resample_hvac_to_daily_kwh ex_hours ex_hours_indexed eq_refl eq_refl
              ex_hours_nonempty ex_hours_numeric ex_days 1%nat 86400%Z ex_daily).
Defined.

Lemma resample_hvac_to_daily_mean_witness :
  cell_at "hdd_0" 0 ex_days =
    Some (agg_mean (bucket day 0 (index (sort_index ex_hours_indexed))
                      (col_sorted ex_hours_indexed "hdd_0"))).
Proof.
  apply (resample_hvac_to_daily_mean ex_hours ex_hours_indexed eq_refl eq_refl
           ex_hours_nonempty ex_hours_numeric ex_days "hdd_0" 0%nat 0%Z);
    [rewrite ex_hours_avg; left | apply ex_daily | done].
Defined.

Lemma resample_hvac_to_daily_days_witness :
  StronglySorted Z.lt (index ex_days) ∧
  index ex_days `sublist_of` daily_labels ex_hours_indexed ∧
  Forall (λ d, floor_to day d = d) (index ex_days).
Proof.
  apply (resample_hvac_to_daily_days ex_hours ex_hours_indexed eq_refl eq_refl
           ex_hours_nonempty ex_hours_numeric ex_days ex_daily).
Defined.

Lemma resample_hvac_to_daily_no_nulls_witness : no_nulls ex_days.
Proof. apply (resample_hvac_to_daily_no_nulls ex_hours ex_days ex_daily). Defined.
