(* ===== verification/Pipeline.v ===== *)
(** * The importers and the main loop

    [import_tstat], [import_load], [import_weather] and the loop over the
    homes that builds the table the script writes.  The files are reached
    through the interface [FileSystem]: the names in a directory and the
    frame [read_csv] returns for a path, or the exception it raises.  The
    text the script prints and the [to_csv] call that writes the final
    table are left out: the result of [main] is that table. *)

From Stdlib Require Import Ascii.
From S2P Require Import Prelude Cell Frame Table Stats Timestamps DegreeDays.
From S2P Require Import Resample Clean Merge Daily.

(** [os.listdir] and [pd.read_csv]. *)
Class FileSystem := {
  listdir : string → res (list string);
  read_csv : string → res frame
}.

(** ** Paths *)

(** [YEAR[2:]]. *)
Definition YEAR2 : string := String.substring 2 (String.length YEAR - 2) YEAR.

Definition dir_tstat : string :=
  "../../data-raw/iot_data/" +:+ YEAR2 +:+ "-" +:+ MONTH +:+ "/".
Definition dir_load : string :=
  "../../data-raw/preprocessed_data/premise/" +:+ YEAR +:+ "-" +:+ MONTH +:+ "/".
Definition dir_weather : string := "../../data-raw/weather_data/".

Definition FILE_TSTAT : string := "hvac_".
Definition FILE_LOAD (rlid : string) : string :=
  rlid +:+ "_" +:+ YEAR +:+ "-" +:+ MONTH +:+ ".csv".
Definition FILE_WEATHER : string :=
  "weather_" +:+ YEAR2 +:+ "-" +:+ MONTH +:+ ".csv".

Definition ends_with_slash (s : string) : bool :=
  bool_decide (last (String.list_ascii_of_string s) = Some "/"%char).

(** [os.path.join(a, b)]. *)
Definition path_join (a b : string) : string :=
  if is_prefix "/" b then b
  else if bool_decide (a = "") || ends_with_slash a then a +:+ b
  else a +:+ "/" +:+ b.

(** ** Importers *)

Section importers.
Context `{FileSystem, TimeZone, ApplyPolicy}.

(** [rlid] is the global the loop sets. *)
Definition import_tstat (rlid dir_in : string) : res (option table) :=
  l ← listdir dir_in;
  if decide (l = []) then Val None
  else
    l ← listdir dir_in;
    tstat_file ← from_option Val (Raise IndexError)
                    (head (filter (λ f, is_prefix FILE_TSTAT f = true) l));
    let tstat_filepath := path_join dir_in tstat_file in
    match read_csv tstat_filepath with
    | Raise EmptyDataError => Val None
    | Raise e => Raise e
    | Val tstat =>
        tstat ← clean_tstat_raw tstat start_time end_time
                   tstat_col_substrings rlid;
        if decide (shape0 tstat = 0%nat) then Val None
        else
          tstat ← resample_tstat_15min tstat;
          let tstat := convert_col_names tstat tstat_col_dict in
          Val (Some tstat)
    end.

Definition import_load (filepath : string) : res (option table) :=
  match read_csv filepath with
  | Raise FileNotFoundError => Val None
  | Raise e => Raise e
  | Val load =>
      load ← clean_load_raw load start_time end_time load_col_substrings;
      load ← resample_load_15min load;
      let load := convert_col_names load load_col_dict in
      Val (Some load)
  end.

Definition import_weather (filepath : string) : res table :=
  weather ← read_csv filepath;
  weather ← clean_weather_raw weather start_time end_time
               weather_col_substrings;
  weather ← resample_weather_15min weather;
  let weather := convert_col_names weather weather_col_dict in
  Val weather.

(** ** The main loop *)

(** [[d for d in os.listdir(dir_tstat) if "." not in d]]. *)
Definition rl_list : res (list string) :=
  l ← listdir dir_tstat;
  Val (filter (λ d, is_infix "." d = false) l).

(** [calc_degree_days] on a flat frame: the time stamps are not
    touched. *)
Definition calc_degree_days_table (df : table) (zone : nat)
    : res (option table) :=
  r ← calc_degree_days (body df) zone;
  Val (match r with
       | Some df' => Some (Table (stamps df) df')
       | None => None
       end).

(** One pass of the loop body: the table so far and the next home.  The
    script also tests the weather frame for [None]; [import_weather] has
    no such return, so the test never succeeds and has no branch here. *)
Definition process_home (hvac : frame) (rlid : string) : res frame :=
  tstat ← import_tstat rlid (path_join dir_tstat rlid);
  match tstat with
  | None => Val hvac
  | Some tstat =>
      load ← import_load (path_join dir_load (FILE_LOAD rlid));
      match load with
      | None => Val hvac
      | Some load =>
          weather ← import_weather (path_join dir_weather FILE_WEATHER);
          tmp_hvac ← merge_datasets tstat load weather;
          tmp_hvac ← calc_degree_days_table tmp_hvac 0;
          match tmp_hvac with
          | None => Val hvac
          | Some tmp_hvac =>
              tmp_hvac ← resample_hvac_to_daily tmp_hvac;
              Val (append hvac tmp_hvac)
          end
      end
  end.

(** What one pass adds to the table: nothing for a home that is skipped,
    the daily frame of the home otherwise. *)
Definition daily_of (rlid : string) : res frame :=
  tstat ← import_tstat rlid (path_join dir_tstat rlid);
  match tstat with
  | None => Val empty_frame
  | Some tstat =>
      load ← import_load (path_join dir_load (FILE_LOAD rlid));
      match load with
      | None => Val empty_frame
      | Some load =>
          weather ← import_weather (path_join dir_weather FILE_WEATHER);
          tmp_hvac ← merge_datasets tstat load weather;
          tmp_hvac ← calc_degree_days_table tmp_hvac 0;
          match tmp_hvac with
          | None => Val empty_frame
          | Some tmp_hvac => resample_hvac_to_daily tmp_hvac
          end
      end
  end.

Definition main : res frame :=
  l ← rl_list;
  res_foldM process_home empty_frame l.

End importers.

(** * Lemmas *)

Section importers_lemmas.
Context `{FileSystem, TimeZone, ApplyPolicy}.

(** import_tstat returns None for an empty folder. *)
Theorem import_tstat_empty_dir rlid dir_in :
  listdir dir_in = Val [] → import_tstat rlid dir_in = Val None.
Proof. intros Hl. unfold import_tstat. by rewrite Hl. Qed.

(** C40: A folder of a home that holds files but none whose name starts
    with hvac_ makes import_tstat raise IndexError. *)
Theorem import_tstat_no_file rlid dir_in l :
  listdir dir_in = Val l → l ≠ [] →
  Forall (λ f, is_prefix FILE_TSTAT f = false) l →
  import_tstat rlid dir_in = Raise IndexError.
Proof.
  intros Hl Hne Hf. unfold import_tstat. rewrite Hl. simpl.
  rewrite decide_False by done. rewrite filter_nil_Forall; [done|].
  eapply list.Forall_impl; [exact Hf|]. simpl. intros f ->. done.
Qed.

Theorem import_load_missing filepath :
  read_csv filepath = Raise FileNotFoundError → import_load filepath = Val None.
Proof. intros Hr. unfold import_load. by rewrite Hr. Qed.

(** C19: A home without a load file adds no row. *)
Theorem process_home_no_load hvac rlid tstat :
  import_tstat rlid (path_join dir_tstat rlid) = Val tstat →
  read_csv (path_join dir_load (FILE_LOAD rlid)) = Raise FileNotFoundError →
  process_home hvac rlid = Val hvac.
Proof.
  intros Ht Hl. unfold process_home. rewrite Ht. simpl.
  destruct tstat; [|done]. by rewrite (import_load_missing _ Hl).
Qed.

Lemma res_foldM_app {A B} (f : B → A → res B) b l1 l2 :
  res_foldM f b (l1 ++ l2) = b' ← res_foldM f b l1; res_foldM f b' l2.
Proof.
  revert b. induction l1 as [|x l1 IH]; intros b; simpl; [done|].
  destruct (f b x); simpl; [apply IH | done].
Qed.

(** An invariant of the loop body holds of the table the script writes. *)
Theorem main_invariant (P : frame → Prop) out :
  P empty_frame →
  (∀ hvac rlid hvac', P hvac → process_home hvac rlid = Val hvac' → P hvac') →
  main = Val out → P out.
Proof.
  intros Hinit Hstep. unfold main. intros (l & _ & Hl)%bind_Val.
  revert Hl. generalize empty_frame Hinit. clear Hinit.
  induction l as [|rlid l IH]; intros hvac Hh; simpl; [by intros [= <-]|].
  intros (hvac' & ? & ?)%bind_Val. eauto.
Qed.

Lemma process_home_daily_of hvac rlid :
  process_home hvac rlid = (λ d, append hvac d) <$> daily_of rlid.
Proof.
  unfold process_home, daily_of.
  destruct (import_tstat _ _) as [[tstat|]|e]; simpl; rewrite ?append_empty_r; try done.
  destruct (import_load _) as [[load|]|e]; simpl; rewrite ?append_empty_r; try done.
  destruct (import_weather _) as [weather|e]; simpl; [|done].
  destruct (merge_datasets _ _ _) as [m|e]; simpl; [|done].
  destruct (calc_degree_days_table _ _) as [[g|]|e]; simpl; by rewrite ?append_empty_r.
Qed.

Lemma daily_of_no_nulls rlid d : daily_of rlid = Val d → no_nulls d.
Proof.
  unfold daily_of. intros Hd.
  repeat (case_res || case_match); simplify_eq; try apply no_nulls_empty_frame.
  apply resample_hvac_to_daily_dropna in Hd as [g ->]. apply dropna_rows_no_nulls.
Qed.

Lemma res_foldM_process_home b l out :
  res_foldM process_home b l = Val out ↔
    ∃ ds, res_mapM daily_of l = Val ds ∧ out = foldl append b ds.
Proof.
  revert b. induction l as [|rlid l IH]; intros b; cbn [res_foldM res_mapM].
  - split; [intros [= <-]; by exists [] | by intros (? & [= <-] & ->)].
  - rewrite process_home_daily_of. destruct (daily_of rlid) as [d|e]; simpl.
    + rewrite IH. destruct (res_mapM daily_of l) as [ds|e]; simpl.
      * split; [intros (? & [= <-] & ->); by eexists | by intros (? & [= <-] & ->); eexists].
      * split; [by intros (? & ? & _) | by intros (? & ? & _)].
    + split; [done | by intros (? & ? & _)].
Qed.

Lemma main_appends_iff out :
  main = Val out ↔
    ∃ l ds, rl_list = Val l ∧ res_mapM daily_of l = Val ds ∧
      out = foldl append empty_frame ds.
Proof.
  unfold main. rewrite bind_Val. split.
  - intros (l & Hl & (ds & Hds & ->)%res_foldM_process_home). eauto.
  - intros (l & ds & Hl & Hds & ->). exists l. split; [done|].
    apply res_foldM_process_home. eauto.
Qed.

(** C17: The rows of the table are those of the daily frames of the homes, in
    the order of the homes, and no daily frame has a missing cell. *)
Theorem main_rows out :
  main = Val out →
  ∃ l ds, rl_list = Val l ∧
    Forall2 (λ rlid d, daily_of rlid = Val d ∧ no_nulls d) l ds ∧
    index out = mjoin (index <$> ds).
Proof.
  intros (l & ds & Hl & Hds & ->)%main_appends_iff. exists l, ds.
  split; [done|]. split; [|apply index_foldl_append].
  apply res_mapM_Val in Hds. eapply Forall2_impl; [exact Hds|].
  intros rlid d Hd. split; [exact Hd | exact (daily_of_no_nulls _ _ Hd)].
Qed.

Lemma res_foldM_process_home_Raise b l e :
  res_mapM daily_of l = Raise e → res_foldM process_home b l = Raise e.
Proof.
  revert b. induction l as [|rlid l IH]; intros b; cbn [res_foldM res_mapM]; [done|].
  rewrite process_home_daily_of. destruct (daily_of rlid) as [d|e']; simpl; [|by intros [= ->]].
  destruct (res_mapM daily_of l) as [ds|e'] eqn:E; simpl; [done|].
  intros [= ->]. by apply IH.
Qed.

(** C18: The first home that fails stops the run: the homes before it have
    been processed, the homes after it are not looked at, and no table is
    returned. *)
Theorem main_Raise l1 rlid l2 ds e :
  rl_list = Val (l1 ++ rlid :: l2) →
  res_mapM daily_of l1 = Val ds → daily_of rlid = Raise e →
  main = Raise e.
Proof.
  intros Hl Hds He. unfold main. rewrite Hl. cbn [mbind res_bind].
  apply res_foldM_process_home_Raise. by eapply res_mapM_app_Raise.
Qed.

(** C20: A home with a thermostat log and a load file stops the run when the
    weather file cannot be read: [import_weather] catches nothing. *)
Theorem process_home_no_weather hvac rlid tstat load e :
  import_tstat rlid (path_join dir_tstat rlid) = Val (Some tstat) →
  import_load (path_join dir_load (FILE_LOAD rlid)) = Val (Some load) →
  read_csv (path_join dir_weather FILE_WEATHER) = Raise e →
  process_home hvac rlid = Raise e.
Proof.
  intros Ht Hl Hw. unfold process_home. rewrite Ht. cbn [mbind res_bind].
  rewrite Hl. cbn [mbind res_bind]. unfold import_weather. by rewrite Hw.
Qed.

End importers_lemmas.

(** * Examples *)

(** A tree of two homes: RL1 has an empty folder, RL3 has a thermostat
    log and no load file. *)
Definition ex_tstat_log : frame :=
  Frame [0; 1]
    [("Timestamp", [CStr "2019-09-01 05:00:30"; CStr "2019-09-01 05:10:00"]);
     ("Zone0 Cool Setpoint", [num 76; num 76])].

Definition ex_fs : FileSystem := {|
  listdir d :=
    if decide (d = dir_tstat) then Val ["RL1"; "notes.txt"; "RL3"; "RL4"]
    else if decide (d = path_join dir_tstat "RL1") then Val []
    else if decide (d = path_join dir_tstat "RL3") then Val ["hvac_3.csv"]
    else if decide (d = path_join dir_tstat "RL4") then Val ["readme.txt"]
    else Raise FileNotFoundError;
  read_csv p :=
    if decide (p = path_join (path_join dir_tstat "RL3") "hvac_3.csv")
    then Val ex_tstat_log else Raise FileNotFoundError |}.

Definition ex_tstat_hourly : table :=
  Table (Some [1567296000])
    (Frame [0] [("csp_0", [num 76]); ("RLID", [CStr "RL3"])]).

Lemma ex_import :
  @import_tstat ex_fs (us_central 2019) pandas_0_25 "RL3" (path_join dir_tstat "RL3")
    = Val (Some ex_tstat_hourly).
Proof. by_compute. Qed.

Lemma import_tstat_empty_dir_witness :
  @import_tstat ex_fs (us_central 2019) pandas_0_25 "RL1" (path_join dir_tstat "RL1")
    = Val None.
Proof. by apply (@import_tstat_empty_dir ex_fs). Defined.

Lemma import_tstat_no_file_witness :
  @import_tstat ex_fs (us_central 2019) pandas_0_25 "RL4" (path_join dir_tstat "RL4")
    = Raise IndexError.
Proof.
  apply (@import_tstat_no_file ex_fs _ _ "RL4" _ ["readme.txt"]); by_compute.
Defined.

Lemma process_home_no_load_witness :
  @process_home ex_fs (us_central 2019) pandas_0_25 empty_frame "RL3" = Val empty_frame.
Proof.
  apply (@process_home_no_load ex_fs _ _ empty_frame "RL3" _ ex_import). by_compute.
Defined.

(** A tree with one complete home, RL7, and an empty folder, RL1.  The
    thermostat log and the weather log are in UTC (12:00 is 07:00 in the
    Central zone), the load log is in local time. *)
Definition ex_home_tstat : frame :=
  Frame [0; 1; 2]
    [("Timestamp", [CStr "2019-09-02 12:00:00"; CStr "2019-09-02 12:30:00";
                    CStr "2019-09-02 13:00:00"]);
     ("Zone0 Cool Setpoint", [num 76; num 76; num 76]);
     ("Zone0 Heat Setpoint", [num 68; num 68; num 68])].

Definition ex_home_load : frame :=
  Frame [0; 1; 2]
    [("timestamp.ct", [CStr "2019-09-02 07:00:00"; CStr "2019-09-02 07:30:00";
                       CStr "2019-09-02 08:00:00"]);
     ("beopt.group", [CStr "Heating/Cooling"; CStr "Heating/Cooling";
                      CStr "Heating/Cooling"]);
     ("value", [num 1500; num 500; num 3000])].

Definition ex_home_weather : frame :=
  Frame [0; 1]
    [("Timestamp", [CStr "2019-09-02 12:00:00"; CStr "2019-09-02 13:00:00"]);
     ("AMBIENT TEMP", [num 30; num 10])].

Definition ex_tree (with_weather : bool) : FileSystem := {|
  listdir d :=
    if decide (d = dir_tstat) then Val ["RL7"; "RL1"; "notes.txt"]
    else if decide (d = path_join dir_tstat "RL7") then Val ["hvac_7.csv"]
    else if decide (d = path_join dir_tstat "RL1") then Val []
    else Raise FileNotFoundError;
  read_csv p :=
    if decide (p = path_join (path_join dir_tstat "RL7") "hvac_7.csv")
    then Val ex_home_tstat
    else if decide (p = path_join dir_load (FILE_LOAD "RL7")) then Val ex_home_load
    else if with_weather && bool_decide (p = path_join dir_weather FILE_WEATHER)
    then Val ex_home_weather
    else Raise FileNotFoundError |}.

(** The second of September: 86 F at 07:00 (10 cooling degrees), 50 F at
    08:00 (18 heating degrees); 1000 W and 3000 W. *)
Definition ex_home_daily : frame :=
  Frame [1567382400]
    [("hdd_0", [num 9]); ("cdd_0", [num 5]); ("hvac_kWh", [num 4]);
     ("RLID", [CStr "RL7"])].

Lemma ex_main : @main (ex_tree true) (us_central 2019) pandas_0_25 = Val ex_home_daily.
Proof. by_compute. Qed.

Lemma main_rows_witness :
  ∃ l ds, @rl_list (ex_tree true) = Val l ∧
    Forall2 (λ rlid d, @daily_of (ex_tree true) (us_central 2019) pandas_0_25 rlid = Val d ∧
                       no_nulls d) l ds ∧
    index ex_home_daily = mjoin (index <$> ds).
Proof. apply (@main_rows (ex_tree true) (us_central 2019) pandas_0_25 _ ex_main). Defined.

Lemma main_Raise_witness :
  @main ex_fs (us_central 2019) pandas_0_25 = Raise IndexError.
Proof.
  apply (@main_Raise ex_fs _ _ ["RL1"; "RL3"] "RL4" [] [empty_frame; empty_frame]);
    by_compute.
Defined.

Lemma process_home_no_weather_witness :
  @process_home (ex_tree false) (us_central 2019) pandas_0_25 empty_frame "RL7"
    = Raise FileNotFoundError.
Proof.
  eapply (@process_home_no_weather (ex_tree false) (us_central 2019) pandas_0_25);
    by_compute.
Defined.
